(** * Fix_Smart_CMS: a shallow embedding of the complaint-management backend
    and of the client cache reducer, with the properties of its specification.

    Conventions of the embedding.
    - A JavaScript [Date] is the integer number of milliseconds since the
      epoch ([Z]); a nullable date is an [option Z].
    - Every read of the wall clock ([new Date()], [Date.now()]) is an explicit
      argument of the function that performs it, one argument per read.
    - Random draws, generated identifiers, the outcome of sending an e-mail
      and the bcrypt primitives are explicit arguments as well.
    - A string holds the UTF-8 bytes of a JavaScript string; its length is
      counted in UTF-16 code units, as JavaScript counts it.
    - A Prisma table is the list of its rows in storage order; [findUnique]
      and [findFirst] return the first row that matches, [update] and
      [delete] act on the first row with the given identifier.
    - An Express handler returns the reply it sends together with the
      database it leaves behind. *)

From Stdlib Require Import ZArith QArith String Ascii List Bool Lia.
From stdpp Require Import base option list strings gmap pretty.
Import ListNotations.

Local Open Scope string_scope.
Local Open Scope list_scope.
Local Open Scope Z_scope.

(** ** Shared vocabulary *)

(** The [status] enum of a complaint (the keys of [STATUS_WEIGHTS], the
    values accepted by [validateComplaintUpdate]). *)
Inductive ComplaintStatus : Type :=
  | REGISTERED | ASSIGNED | IN_PROGRESS | RESOLVED | CLOSED | REOPENED.

#[global] Instance ComplaintStatus_eq_dec : EqDecision ComplaintStatus.
Proof. solve_decision. Defined.

Definition statusName (s : ComplaintStatus) : string :=
  match s with
  | REGISTERED => "REGISTERED"
  | ASSIGNED => "ASSIGNED"
  | IN_PROGRESS => "IN_PROGRESS"
  | RESOLVED => "RESOLVED"
  | CLOSED => "CLOSED"
  | REOPENED => "REOPENED"
  end.

Definition allStatuses : list ComplaintStatus :=
  [REGISTERED; ASSIGNED; IN_PROGRESS; RESOLVED; CLOSED; REOPENED].

(** ** The seed script's SLA computation (Kochi seed script) *)

Module Sla.

Inductive SLAStatus : Type := ON_TIME | WARNING | OVERDUE | COMPLETED.

#[global] Instance SLAStatus_eq_dec : EqDecision SLAStatus.
Proof. solve_decision. Defined.

(** [addHours(date, hours)] and [addDays(date, days)]. *)
Definition addHours (date hours : Z) : Z := date + hours * 60 * 60 * 1000.
Definition addDays (date days : Z) : Z := date + days * 24 * 60 * 60 * 1000.

Definition msPerDay : Z := 1000 * 60 * 60 * 24.

(** [(deadline - now) / (1000 * 60 * 60 * 24)], as an exact rational.  The
    source computes it in double precision; both operands are integers far
    below 2^53, the quotient of an integer [d] by [msPerDay] is negative
    exactly when [d] is, and rounds to a double above [1] exactly when
    [d > msPerDay], so the two comparisons below agree with the source's. *)
Definition daysRemaining (deadline now : Z) : Q :=
  (inject_Z (deadline - now) / inject_Z msPerDay)%Q.

(** [calculateSLAStatus(submittedOn, deadline, resolvedOn, currentStatus)];
    [now] is the value of the [new Date()] the body reads. *)
Definition calculateSLAStatus (now : Z)
    (submittedOn deadline : Z) (resolvedOn : option Z)
    (currentStatus : ComplaintStatus) : SLAStatus :=
  if bool_decide (currentStatus = RESOLVED) || bool_decide (currentStatus = CLOSED)
  then COMPLETED
  else
    if Qlt_le_dec (daysRemaining deadline now) 0 then OVERDUE
    else if Qle_bool (daysRemaining deadline now) 1 then WARNING
    else ON_TIME.

(** The part of the seeding loop that derives the dates of one complaint and
    its SLA status.  The random draws are arguments: [assignHours] is
    [randomInt(1, 6)], [willBreachSLA] is [Math.random() < 0.3],
    [breachHours] is [randomInt(1, slaHours)], [withinHours] is
    [Math.floor(slaHours * percentageOfSLA)], [closeDays] is
    [randomInt(1, 7)]. *)
Record SeedDates : Type := mkSeedDates {
  sdDeadline : Z;
  sdAssignedOn : option Z;
  sdResolvedOn : option Z;
  sdClosedOn : option Z;
  sdSlaStatus : SLAStatus
}.

(** JavaScript's [a || b] on nullable dates. *)
Definition orElse (a b : option Z) : option Z :=
  match a with Some _ => a | None => b end.

Definition seedDates (now submittedOn slaHours : Z) (status : ComplaintStatus)
    (assignHours : Z) (willBreachSLA : bool)
    (breachHours withinHours closeDays : Z) : SeedDates :=
  let deadline := addHours submittedOn slaHours in
  let assignedOn :=
    if bool_decide (status <> REGISTERED)
    then Some (addHours submittedOn assignHours) else None in
  let resolved0 :=
    if bool_decide (status = RESOLVED) || bool_decide (status = CLOSED)
       || bool_decide (status = REOPENED)
    then Some (if willBreachSLA then addHours deadline breachHours
               else addHours submittedOn withinHours)
    else None in
  let closedOn :=
    match status, resolved0 with
    | CLOSED, Some r => Some (addDays r closeDays)
    | _, _ => None
    end in
  let resolvedOn :=
    if bool_decide (status = REOPENED) then None else resolved0 in
  {| sdDeadline := deadline;
     sdAssignedOn := assignedOn;
     sdResolvedOn := resolvedOn;
     sdClosedOn := closedOn;
     sdSlaStatus :=
       calculateSLAStatus now submittedOn deadline
         (orElse resolvedOn closedOn) status |}.

End Sla.

(** ** JSON values, replies and requests *)

#[warnings="-register-all"]
Inductive Json : Type :=
  | JNull
  | JBool (b : bool)
  | JNum (n : Z)
  | JStr (s : string)
  | JArr (items : list Json)
  | JObj (fields : list (string * Json)).


(** Property access [j.key] ([None] stands for [undefined]). *)
Definition jsonGet (key : string) (j : Json) : option Json :=
  match j with
  | JObj fields =>
      snd <$> List.find (fun kv => bool_decide (fst kv = key)) fields
  | _ => None
  end.

Definition jsonOfOption (o : option string) : Json :=
  match o with Some s => JStr s | None => JNull end.

(** What a handler does with [res] (or by throwing, which [asyncHandler]
    forwards to the error middleware). *)
Inductive Reply : Type :=
  | SendJson (status : Z) (body : Json)
  | SendFile (path : string)
  | Thrown (error : string).

Definition replyStatus (r : Reply) : option Z :=
  match r with SendJson st _ => Some st | _ => None end.



(** One entry of express-validator's [validationResult(req).array()]. *)
Record ValidationError : Type := mkValidationError {
  vePath : string;
  veMsg : string;
  veValue : option string
}.

(** A request: string-valued fields of [req.body], [req.params] and
    [req.query], the authenticated user's id ([req.user.id]) and the
    validation errors express-validator has attached so far. *)
Record Request : Type := mkRequest {
  reqBody : gmap string string;
  reqParams : gmap string string;
  reqQuery : gmap string string;
  reqUserId : option string;
  reqErrors : list ValidationError
}.

(** JavaScript truthiness of an optional string field. *)
Definition truthy (o : option string) : bool :=
  match o with
  | Some s => negb (bool_decide (s = EmptyString))
  | None => false
  end.

(** ** Strings

    A string of the model holds the UTF-8 bytes of a JavaScript string (a
    code point above U+FFFF, which JavaScript holds as a surrogate pair, in
    four bytes; an unpaired surrogate in three).  JavaScript measures a
    string in UTF-16 code units; the functions below read these quantities
    off the bytes. *)

Definition byteBetween (lo hi : nat) (a : ascii) : bool :=
  ((lo <=? nat_of_ascii a)%nat && (nat_of_ascii a <=? hi)%nat).

Definition isByte (n : nat) (a : ascii) : bool := (nat_of_ascii a =? n)%nat.

(** A byte that continues a multi-byte sequence. *)
Definition isContinuation : ascii -> bool := byteBetween 128 191.

(** The UTF-16 code units a byte stands for: none for a continuation byte,
    two for the first byte of a four-byte sequence (a surrogate pair), one
    for every other byte. *)
Definition codeUnitsOf (a : ascii) : Z :=
  if isContinuation a then 0
  else if byteBetween 240 255 a then 2
  else 1.

(** [String.prototype.length]. *)
Definition strLen (s : string) : Z :=
  fold_right (fun a n => codeUnitsOf a + n) 0 (list_ascii_of_string s).

(** The white space and line terminators [String.prototype.trim] strips:
    U+0009 to U+000D and U+0020 in one byte; U+00A0 in two; U+1680, U+2000
    to U+200A, U+2028, U+2029, U+202F, U+205F, U+3000 and U+FEFF in
    three. *)
Definition isWhitespace (a : ascii) : bool :=
  byteBetween 9 13 a || isByte 32 a.

Definition isWhitespace2 (a b : ascii) : bool :=
  isByte 194 a && isByte 160 b.

Definition isWhitespace3 (a b c : ascii) : bool :=
  (isByte 225 a && isByte 154 b && isByte 128 c)
  || (isByte 226 a && isByte 128 b
      && (byteBetween 128 138 c || isByte 168 c || isByte 169 c
          || isByte 175 c))
  || (isByte 226 a && isByte 129 b && isByte 159 c)
  || (isByte 227 a && isByte 128 b && isByte 128 c)
  || (isByte 239 a && isByte 187 b && isByte 191 c).

Fixpoint trimStartChars (l : list ascii) : list ascii :=
  match l with
  | a :: l1 =>
      if isWhitespace a then trimStartChars l1
      else
        match l1 with
        | b :: l2 =>
            if isWhitespace2 a b then trimStartChars l2
            else
              match l2 with
              | c :: l3 =>
                  if isWhitespace3 a b c then trimStartChars l3 else l
              | [] => l
              end
        | [] => l
        end
  | [] => []
  end.

(** The same from the end, on the bytes in reverse order. *)
Fixpoint trimEndCharsRev (l : list ascii) : list ascii :=
  match l with
  | c :: l1 =>
      if isWhitespace c then trimEndCharsRev l1
      else
        match l1 with
        | b :: l2 =>
            if isWhitespace2 b c then trimEndCharsRev l2
            else
              match l2 with
              | a :: l3 =>
                  if isWhitespace3 a b c then trimEndCharsRev l3 else l
              | [] => l
              end
        | [] => l
        end
  | [] => []
  end.

(** [String.prototype.trim]. *)
Definition jsTrim (s : string) : string :=
  string_of_list_ascii
    (rev (trimEndCharsRev (rev (trimStartChars (list_ascii_of_string s))))).

(** The variation selector U+FE0E or U+FE0F starts at the byte [a], which
    [rest] follows. *)
Definition startsSelector (a : ascii) (rest : list ascii) : bool :=
  match rest with
  | b :: c :: _ =>
      isByte 239 a && isByte 184 b && (isByte 142 c || isByte 143 c)
  | _ => false
  end.

Fixpoint validatorLengthChars (l : list ascii) : Z :=
  match l with
  | [] => 0
  | a :: rest =>
      (if isContinuation a || startsSelector a rest then 0 else 1)
      + validatorLengthChars rest
  end.

(** The length validator.js's [isLength] compares with its bounds:
    [str.length] less the number of surrogate pairs and of variation
    selectors, that is, the code points other than U+FE0E and U+FE0F. *)
Definition validatorLength (s : string) : Z :=
  validatorLengthChars (list_ascii_of_string s).

(** ** Tables *)

Section Tables.
Context {A : Type}.

Fixpoint updateFirst (p : A -> bool) (f : A -> A) (l : list A) : list A :=
  match l with
  | [] => []
  | x :: l' => if p x then f x :: l' else x :: updateFirst p f l'
  end.

Fixpoint deleteFirst (p : A -> bool) (l : list A) : list A :=
  match l with
  | [] => []
  | x :: l' => if p x then l' else x :: deleteFirst p l'
  end.

Definition updateMany (p : A -> bool) (f : A -> A) (l : list A) : list A :=
  map (fun x => if p x then f x else x) l.

Definition countWhere (p : A -> bool) (l : list A) : Z :=
  Z.of_nat (length (List.filter p l)).

End Tables.

Record User : Type := mkUser {
  uId : string;
  uFullName : string;
  uEmail : string;
  uPhoneNumber : option string;
  uRole : string;
  uWardId : option string;
  uDepartment : option string;
  uPassword : option string;
  uIsActive : bool;
  uJoinedOn : Z
}.

Record Ward : Type := mkWard {
  wId : string;
  wName : string;
  wDescription : option string;
  wIsActive : bool
}.

Record SubZone : Type := mkSubZone {
  szId : string;
  szName : string;
  szWardId : string;
  szDescription : option string;
  szIsActive : bool
}.

Record Complaint : Type := mkComplaint {
  cId : string;
  cComplaintId : string;
  cTitle : string;
  cType : string;
  cPriority : string;
  cStatus : ComplaintStatus;
  cWardId : string;
  cSubZoneId : option string;
  cSubmittedById : option string;
  cSubmittedOn : Z;
  cUpdatedAt : Z
}.

Record StatusLog : Type := mkStatusLog {
  slComplaintId : string;
  slUserId : string;
  slFromStatus : option ComplaintStatus;
  slToStatus : ComplaintStatus;
  slComment : string;
  slTimestamp : Z
}.

Record OTPSession : Type := mkOTPSession {
  oId : string;
  oUserId : option string;
  oEmail : string;
  oOtpCode : string;
  oPurpose : string;
  oIsVerified : bool;
  oExpiresAt : Z;
  oVerifiedAt : option Z
}.

Record Db : Type := mkDb {
  users : list User;
  wards : list Ward;
  subZones : list SubZone;
  complaints : list Complaint;
  statusLogs : list StatusLog;
  otpSessions : list OTPSession
}.

Definition withUsers (db : Db) (us : list User) : Db :=
  mkDb us (wards db) (subZones db) (complaints db) (statusLogs db)
    (otpSessions db).

Definition withWards (db : Db) (ws : list Ward) : Db :=
  mkDb (users db) ws (subZones db) (complaints db) (statusLogs db)
    (otpSessions db).

Definition withSubZones (db : Db) (zs : list SubZone) : Db :=
  mkDb (users db) (wards db) zs (complaints db) (statusLogs db)
    (otpSessions db).

Definition withComplaints (db : Db) (cs : list Complaint) : Db :=
  mkDb (users db) (wards db) (subZones db) cs (statusLogs db)
    (otpSessions db).

Definition withOtpSessions (db : Db) (os : list OTPSession) : Db :=
  mkDb (users db) (wards db) (subZones db) (complaints db) (statusLogs db) os.

Definition setPassword (pw : option string) (u : User) : User :=
  mkUser (uId u) (uFullName u) (uEmail u) (uPhoneNumber u) (uRole u)
    (uWardId u) (uDepartment u) pw (uIsActive u) (uJoinedOn u).

Definition setIsActive (b : bool) (u : User) : User :=
  mkUser (uId u) (uFullName u) (uEmail u) (uPhoneNumber u) (uRole u)
    (uWardId u) (uDepartment u) (uPassword u) b (uJoinedOn u).

Definition hasId (id : string) (u : User) : bool := bool_decide (uId u = id).
Definition hasEmail (email : string) (u : User) : bool :=
  bool_decide (uEmail u = email).

Definition envelope (success : bool) (message : string) (data : Json) : Json :=
  JObj [("success", JBool success); ("message", JStr message); ("data", data)].

(** The two-field body [{success, message}]. *)
Definition messageBody (success : bool) (message : string) : Json :=
  JObj [("success", JBool success); ("message", JStr message)].

Definition userJson (u : User) : Json :=
  JObj [("id", JStr (uId u)); ("fullName", JStr (uFullName u));
        ("email", JStr (uEmail u));
        ("phoneNumber", jsonOfOption (uPhoneNumber u));
        ("role", JStr (uRole u)); ("wardId", jsonOfOption (uWardId u));
        ("department", jsonOfOption (uDepartment u));
        ("isActive", JBool (uIsActive u)); ("joinedOn", JNum (uJoinedOn u))].

(** ** The user and ward controller *)

Module UserController.

(** The double-quote character, for the JSON text the controller stores. *)
Definition dq : string := String (ascii_of_nat 34) EmptyString.

Section Handlers.

(** Pure library functions the controller calls: the hex SHA-256 digest,
    [Date.prototype.toISOString], whether [JSON.parse] accepts a text, and
    [bcrypt.compare]. *)
Variable sha256hex : string -> string.
Variable toISOString : Z -> string.
Variable jsonParses : string -> bool.
Variable bcryptCompare : string -> string -> bool.

(** *** createUser *)

(** What [sendEmail] does: it resolves to [true], resolves to [false], or
    throws. *)
Inductive MailOutcome : Type :=
  | MailSent
  | MailRefused
  | MailThrew (error : string).

(** What [createUser] obtains from outside: the id Prisma generates, the
    clock, the salted bcrypt hash of the submitted password, the random
    reset token, and the outcome of sending the verification e-mail. *)
Record CreateUserEnv : Type := mkCreateUserEnv {
  cueNewId : string;
  cueJoinedOn : Z;
  cueHashed : string;
  cueResetToken : string;
  cueNow : Z;
  cueEmailSent : MailOutcome
}.

Definition createUserValidation (fullName email role : option string)
    : list (string * Json) :=
  (if negb (truthy fullName)
      || (strLen (jsTrim (default EmptyString fullName)) <? 3)
   then [("fullName", JStr "Full name must be at least 3 characters.")]
   else []) ++
  (if negb (truthy email) then [("email", JStr "Email is required.")] else []) ++
  (if negb (truthy role) then [("role", JStr "Role is required.")] else []).

(** [JSON.stringify({resetPasswordToken, resetPasswordExpire,
    isVerificationToken: true})]. *)
Definition verificationTokenJson (tokenHash expireIso : string) : string :=
  ("{" ++ dq ++ "resetPasswordToken" ++ dq ++ ":" ++ dq ++ tokenHash ++ dq ++ ","
   ++ dq ++ "resetPasswordExpire" ++ dq ++ ":" ++ dq ++ expireIso ++ dq ++ ","
   ++ dq ++ "isVerificationToken" ++ dq ++ ":true}")%string.

Definition keepTruthy (o : option string) : option string :=
  if truthy o then o else None.

Definition createUser (env : CreateUserEnv) (req : Request) (db : Db)
    : Reply * Db :=
  let fullName := reqBody req !! "fullName" in
  let email := reqBody req !! "email" in
  let phoneNumber := reqBody req !! "phoneNumber" in
  let role := reqBody req !! "role" in
  let wardId := reqBody req !! "wardId" in
  let department := reqBody req !! "department" in
  let password := reqBody req !! "password" in
  let validationErrors := createUserValidation fullName email role in
  if (0 <? Z.of_nat (length validationErrors)) then
    (SendJson 400
       (JObj [("success", JBool false); ("message", JStr "Validation failed");
              ("errors", JObj validationErrors); ("data", JNull)]), db)
  else
    let emailV := default EmptyString email in
    let roleV := default EmptyString role in
    match List.find (hasEmail emailV) (users db) with
    | Some existingUser =>
        (SendJson 400
           (JObj [("success", JBool false);
                  ("message", JStr "User already exists with this email");
                  ("errors",
                   JObj [("email", JStr "User already exists with this email")]);
                  ("data", JNull)]), db)
    | None =>
        let '(hashedPassword, sendVerificationEmail) :=
          if bool_decide (roleV = "CITIZEN") && truthy password
          then (Some (cueHashed env), false)
          else if bool_decide (roleV = "WARD_OFFICER")
                  || bool_decide (roleV = "MAINTENANCE_TEAM")
          then (None, true)
          else if bool_decide (roleV = "ADMINISTRATOR") && truthy password
          then (Some (cueHashed env), false)
          else (None, false) in
        let user :=
          mkUser (cueNewId env) (default EmptyString fullName) emailV
            phoneNumber roleV (keepTruthy wardId) (keepTruthy department)
            (keepTruthy hashedPassword) true (cueJoinedOn env) in
        let db1 := withUsers db (users db ++ [user]) in
        if sendVerificationEmail then
          let resetPasswordToken := sha256hex (cueResetToken env) in
          let resetPasswordExpire := cueNow env + 24 * 60 * 60 * 1000 in
          let db2 :=
            withUsers db1
              (updateFirst (hasId (uId user))
                 (setPassword
                    (Some (verificationTokenJson resetPasswordToken
                             (toISOString resetPasswordExpire))))
                 (users db1)) in
          match cueEmailSent env with
          | MailThrew error => (Thrown error, db2)
          | MailRefused =>
              (SendJson 500
                 (envelope false
                    "Failed to send verification email. User creation cancelled."
                    JNull),
               withUsers db2 (deleteFirst (hasId (uId user)) (users db2)))
          | MailSent =>
              (SendJson 201
                 (envelope true
                    "User created successfully. Verification email sent."
                    (JObj [("user", userJson user)])), db2)
          end
        else
          (SendJson 201
             (envelope true "User created successfully"
                (JObj [("user", userJson user)])), db1)
    end.

(** *** deleteUser *)

Definition isActiveAdmin (u : User) : bool :=
  bool_decide (uRole u = "ADMINISTRATOR") && uIsActive u.

Definition deleteUser (req : Request) (db : Db) : Reply * Db :=
  let userId := default EmptyString (reqParams req !! "id") in
  match List.find (hasId userId) (users db) with
  | None => (SendJson 404 (envelope false "User not found" JNull), db)
  | Some user =>
      if bool_decide (uRole user = "ADMINISTRATOR")
         && (countWhere isActiveAdmin (users db) <=? 1)
      then
        (SendJson 400
           (envelope false "Cannot delete the last administrator" JNull), db)
      else
        (SendJson 200 (envelope true "User deactivated successfully" JNull),
         withUsers db
           (updateFirst (hasId userId) (setIsActive false) (users db)))
  end.

(** *** Password strength and changePassword *)

Definition anyChar (p : ascii -> bool) (s : string) : bool :=
  existsb p (list_ascii_of_string s).

Definition between (lo hi : nat) (a : ascii) : bool :=
  ((lo <=? nat_of_ascii a)%nat && (nat_of_ascii a <=? hi)%nat).

Definition isUpper : ascii -> bool := between 65 90.
Definition isLower : ascii -> bool := between 97 122.
Definition isDigit : ascii -> bool := between 48 57.

(** The special-character class of the source's last pattern (the twenty
    punctuation marks from the exclamation mark to the greater-than sign),
    by character code. *)
Definition isSpecial (a : ascii) : bool :=
  existsb (Nat.eqb (nat_of_ascii a))
    [33; 64; 35; 36; 37; 94; 38; 42; 40; 41; 44; 46; 63; 34; 58; 123; 125;
     124; 60; 62]%nat.

(** [validatePasswordStrength(password).errors]; [isValid] is the emptiness
    of this list. *)
Definition validatePasswordStrength (password : string) : list string :=
  (if strLen password <? 8
   then ["Password must be at least 8 characters long"] else []) ++
  (if negb (anyChar isUpper password)
   then ["Password must contain at least one uppercase letter"] else []) ++
  (if negb (anyChar isLower password)
   then ["Password must contain at least one lowercase letter"] else []) ++
  (if negb (anyChar isDigit password)
   then ["Password must contain at least one number"] else []) ++
  (if negb (anyChar isSpecial password)
   then ["Password must contain at least one special character"] else []).



(** *** Password-setup OTP *)

Definition setExpiresAt (t : Z) (o : OTPSession) : OTPSession :=
  mkOTPSession (oId o) (oUserId o) (oEmail o) (oOtpCode o) (oPurpose o)
    (oIsVerified o) t (oVerifiedAt o).

Definition markVerified (t : Z) (o : OTPSession) : OTPSession :=
  mkOTPSession (oId o) (oUserId o) (oEmail o) (oOtpCode o) (oPurpose o)
    true (oExpiresAt o) (Some t).

(** The value of [hasValidPassword] after the [try]/[catch]. *)
Definition hasValidPassword (pw : option string) : bool :=
  truthy pw && negb (jsonParses (default EmptyString pw)).

(** The reads of [sendPasswordSetupOTP]: the clock of the invalidating
    [updateMany], the generated six-digit code, [Date.now()], the id of the
    new session, whether the e-mail went out, and the clock of the clean-up
    in the [catch] branch. *)
Record SendOtpEnv : Type := mkSendOtpEnv {
  soeExpireNow : Z;
  soeOtpCode : string;
  soeNow : Z;
  soeNewId : string;
  soeEmailSent : bool;
  soeCleanupNow : Z
}.

Definition pendingSetup (email : string) (o : OTPSession) : bool :=
  bool_decide (oEmail o = email)
  && bool_decide (oPurpose o = "PASSWORD_SETUP")
  && negb (oIsVerified o).

Definition sendPasswordSetupOTP (env : SendOtpEnv) (req : Request) (db : Db)
    : Reply * Db :=
  let userId := default EmptyString (reqUserId req) in
  match List.find (hasId userId) (users db) with
  | None => (SendJson 404 (envelope false "User not found" JNull), db)
  | Some user =>
      if negb (uIsActive user)
      then (SendJson 400
              (envelope false
                 "Account is deactivated. Please contact support." JNull), db)
      else if hasValidPassword (uPassword user)
      then (SendJson 400
              (envelope false
                 "Password already set. Use change password instead." JNull),
            db)
      else
        let sessions1 :=
          updateMany (pendingSetup (uEmail user))
            (setExpiresAt (soeExpireNow env)) (otpSessions db) in
        let otpCode := soeOtpCode env in
        let expiresAt := soeNow env + 10 * 60 * 1000 in
        let sessions2 :=
          sessions1 ++
          [mkOTPSession (soeNewId env) (Some (uId user)) (uEmail user) otpCode
             "PASSWORD_SETUP" false expiresAt None] in
        if soeEmailSent env
        then (SendJson 200
                (envelope true "OTP sent to your email for password setup"
                   (JObj [("email", JStr (uEmail user));
                          ("expiresAt", JNum expiresAt)])),
              withOtpSessions db sessions2)
        else (SendJson 500
                (envelope false "Failed to send OTP. Please try again." JNull),
              withOtpSessions db
                (updateMany
                   (fun o => bool_decide (oEmail o = uEmail user)
                             && bool_decide (oPurpose o = "PASSWORD_SETUP")
                             && bool_decide (oOtpCode o = otpCode))
                   (setExpiresAt (soeCleanupNow env)) sessions2))
  end.

(** The [where] clause of the session lookup in [verifyPasswordSetupOTP]. *)
Definition otpMatches (email otpCode : string) (now : Z) (o : OTPSession)
    : bool :=
  bool_decide (oEmail o = email)
  && bool_decide (oOtpCode o = otpCode)
  && bool_decide (oPurpose o = "PASSWORD_SETUP")
  && negb (oIsVerified o)
  && (now <? oExpiresAt o).

(** The clock of the lookup and the clock stored as [verifiedAt]. *)
Record VerifyOtpEnv : Type := mkVerifyOtpEnv {
  voeNow : Z;
  voeVerifiedAt : Z
}.

Definition verifyPasswordSetupOTP (env : VerifyOtpEnv) (req : Request)
    (db : Db) : Reply * Db :=
  let otpCode := reqBody req !! "otpCode" in
  let userId := default EmptyString (reqUserId req) in
  if negb (truthy otpCode)
  then (SendJson 400 (envelope false "OTP code is required" JNull), db)
  else
    match List.find (hasId userId) (users db) with
    | None => (SendJson 404 (envelope false "User not found" JNull), db)
    | Some user =>
        if negb (uIsActive user)
        then (SendJson 400
                (envelope false
                   "Account is deactivated. Please contact support." JNull),
              db)
        else
          match List.find
                  (otpMatches (uEmail user) (default EmptyString otpCode)
                     (voeNow env)) (otpSessions db) with
          | None =>
              (SendJson 400 (envelope false "Invalid or expired OTP" JNull), db)
          | Some otpSession =>
              (SendJson 200
                 (envelope true "OTP verified successfully"
                    (JObj [("email", JStr (uEmail user));
                           ("verified", JBool true)])),
               withOtpSessions db
                 (updateFirst (fun o => bool_decide (oId o = oId otpSession))
                    (markVerified (voeVerifiedAt env)) (otpSessions db)))
          end
    end.

(** [Date.now()] of the 30-minute window, the salted hash of the password,
    and the clock of the final invalidation. *)
Record SetPasswordEnv : Type := mkSetPasswordEnv {
  speNow : Z;
  speHashed : string;
  speExpireNow : Z
}.

Definition recentlyVerified (email : string) (since : Z) (o : OTPSession)
    : bool :=
  bool_decide (oEmail o = email)
  && bool_decide (oPurpose o = "PASSWORD_SETUP")
  && oIsVerified o
  && match oVerifiedAt o with Some t => since <? t | None => false end.

Definition setPasswordAfterOTP (env : SetPasswordEnv) (req : Request)
    (db : Db) : Reply * Db :=
  let password := reqBody req !! "password" in
  let confirmPassword := reqBody req !! "confirmPassword" in
  let userId := default EmptyString (reqUserId req) in
  if negb (truthy password) || negb (truthy confirmPassword)
  then (SendJson 400
          (envelope false "Password and confirm password are required" JNull),
        db)
  else if negb (bool_decide (password = confirmPassword))
  then (SendJson 400 (envelope false "Passwords do not match" JNull), db)
  else
    let errors := validatePasswordStrength (default EmptyString password) in
    if negb (bool_decide (errors = []))
    then (SendJson 400
            (envelope false "Password does not meet security requirements"
               (JObj [("errors", JArr (map JStr errors))])), db)
    else
      match List.find (hasId userId) (users db) with
      | None => (SendJson 404 (envelope false "User not found" JNull), db)
      | Some user =>
          if negb (uIsActive user)
          then (SendJson 400
                  (envelope false
                     "Account is deactivated. Please contact support." JNull),
                db)
          else if hasValidPassword (uPassword user)
          then (SendJson 400
                  (envelope false
                     "Password already set. Use change password instead."
                     JNull), db)
          else
            match List.find
                    (recentlyVerified (uEmail user)
                       (speNow env - 30 * 60 * 1000)) (otpSessions db) with
            | None =>
                (SendJson 400
                   (envelope false
                      "OTP verification required or expired. Please request a new OTP."
                      JNull), db)
            | Some verifiedOTPSession =>
                (SendJson 200
                   (envelope true "Password set successfully"
                      (JObj [("hasPassword", JBool true)])),
                 withOtpSessions
                   (withUsers db
                      (updateFirst (hasId userId)
                         (setPassword (Some (speHashed env))) (users db)))
                   (updateMany
                      (fun o => bool_decide (oEmail o = uEmail user)
                                && bool_decide (oPurpose o = "PASSWORD_SETUP"))
                      (setExpiresAt (speExpireNow env)) (otpSessions db)))
            end
      end.

End Handlers.
End UserController.

(** ** Ward and sub-zone deletion (same controller file) *)

Module WardController.

(** What the database does to the sub-zones of a ward being removed:
    remove them with it, or refuse the delete. *)
Inductive ZoneAction : Type := CascadeZones | RestrictZones.

(** What the database does to a complaint that references a sub-zone being
    removed: clear the optional reference, or refuse the delete. *)
Inductive RefAction : Type := SetNull | Restrict.

Definition clearSubZone (c : Complaint) : Complaint :=
  mkComplaint (cId c) (cComplaintId c) (cTitle c) (cType c) (cPriority c)
    (cStatus c) (cWardId c) None (cSubmittedById c) (cSubmittedOn c)
    (cUpdatedAt c).

(** Modelled from the spec: the Prisma schema file is not among the sources.
    The specification describes conventional relational modelling with
    foreign keys, so [prisma.ward.delete] acts under the foreign key of a
    sub-zone to its ward.  The schema excerpt in
    docs/quick-complaint-form-end-to-end-flow.md declares this relation with
    [onDelete: Cascade] ([CascadeZones]: the sub-zones of the ward go with
    it); Prisma's default for a required relation is to refuse
    ([RestrictZones]).  The action on complaints that reference a removed
    sub-zone is not documented and is the parameter [onSubZoneDelete].
    [None] is the foreign-key error Prisma throws when a delete is
    refused. *)
Definition wardDelete (onWardDelete : ZoneAction) (onSubZoneDelete : RefAction)
    (wardId : string) (db : Db) : option Db :=
  let removed :=
    List.filter (fun z => bool_decide (szWardId z = wardId)) (subZones db) in
  let kept :=
    List.filter (fun z => negb (bool_decide (szWardId z = wardId)))
      (subZones db) in
  let orphaned (c : Complaint) : bool :=
    match cSubZoneId c with
    | Some z => existsb (fun r => bool_decide (szId r = z)) removed
    | None => false
    end in
  let wards' := deleteFirst (fun w => bool_decide (wId w = wardId)) (wards db) in
  match onWardDelete with
  | RestrictZones =>
      if bool_decide (removed = []) then Some (withWards db wards') else None
  | CascadeZones =>
      match onSubZoneDelete with
      | Restrict =>
          if existsb orphaned (complaints db) then None
          else Some (withSubZones (withWards db wards') kept)
      | SetNull =>
          Some (withComplaints (withSubZones (withWards db wards') kept)
                  (map (fun c => if orphaned c then clearSubZone c else c)
                     (complaints db)))
      end
  end.

Definition deleteWard (onWardDelete : ZoneAction) (onSubZoneDelete : RefAction)
    (req : Request) (db : Db) : Reply * Db :=
  let wardId := default EmptyString (reqParams req !! "id") in
  match List.find (fun w => bool_decide (wId w = wardId)) (wards db) with
  | None => (SendJson 404 (messageBody false "Ward not found"), db)
  | Some ward =>
      let usersInWard :=
        countWhere (fun u => bool_decide (uWardId u = Some wardId)) (users db) in
      if 0 <? usersInWard
      then (SendJson 400
              (messageBody false
                 "Cannot delete ward. There are users assigned to this ward."),
            db)
      else
        let complaintsInWard :=
          countWhere (fun c => bool_decide (cWardId c = wardId))
            (complaints db) in
        if 0 <? complaintsInWard
        then (SendJson 400
                (messageBody false
                   "Cannot delete ward. There are complaints assigned to this ward."),
              db)
        else
          match wardDelete onWardDelete onSubZoneDelete wardId db with
          | None => (Thrown "Foreign key constraint failed", db)
          | Some db' =>
              (SendJson 200 (messageBody true "Ward deleted successfully"), db')
          end
  end.

Definition deleteSubZone (req : Request) (db : Db) : Reply * Db :=
  let wardId := default EmptyString (reqParams req !! "wardId") in
  let subZoneId := default EmptyString (reqParams req !! "id") in
  match List.find (fun w => bool_decide (wId w = wardId)) (wards db) with
  | None => (SendJson 404 (messageBody false "Ward not found"), db)
  | Some ward =>
      match List.find (fun z => bool_decide (szId z = subZoneId))
              (subZones db) with
      | None => (SendJson 404 (messageBody false "Sub-zone not found"), db)
      | Some subZone =>
          if negb (bool_decide (szWardId subZone = wardId))
          then (SendJson 400
                  (messageBody false "Sub-zone does not belong to this ward"),
                db)
          else
            let complaintsInSubZone :=
              countWhere (fun c => bool_decide (cSubZoneId c = Some subZoneId))
                (complaints db) in
            if 0 <? complaintsInSubZone
            then (SendJson 400
                    (messageBody false
                       "Cannot delete sub-zone. There are complaints assigned to this sub-zone."),
                  db)
            else
              (SendJson 200 (messageBody true "Sub-zone deleted successfully"),
               withSubZones db
                 (deleteFirst (fun z => bool_decide (szId z = subZoneId))
                    (subZones db)))
      end
  end.

End WardController.

(** ** Validation middleware *)

Module Validation.

(** The standard validators used by the chains below, on the stringified
    field value ([undefined] stringifies to the empty string); [Custom] is a
    [.custom] validator, which may read the database. *)
Inductive Check : Type :=
  | IsIn (values : list string)
  | IsString
  | IsBoolean
  | NotEmpty
  | IsLength (min max : option Z)
  | Custom (holds : Db -> string -> bool).

(** A link of a validation chain: the [trim] sanitizer, or a validator with
    the message [withMessage] gives it. *)
Inductive Step : Type :=
  | Trim
  | Validate (check : Check) (message : string).

(** [body(field)], with or without [.optional()], and its links. *)
Record FieldChain : Type := mkFieldChain {
  fcField : string;
  fcOptional : bool;
  fcSteps : list Step
}.

Definition checkHolds (db : Db) (c : Check) (v : option string) : bool :=
  let s := default EmptyString v in
  match c with
  | IsIn values => bool_decide (s ∈ values)
  | IsString => match v with Some _ => true | None => false end
  | IsBoolean => bool_decide (s ∈ ["true"; "false"; "1"; "0"])
  | NotEmpty => negb (strLen s =? 0)
  | IsLength min max =>
      (default 0 min <=? validatorLength s)
      && match max with Some m => validatorLength s <=? m | None => true end
  | Custom holds => holds db s
  end.

Definition setBodyField (field : string) (v : option string) (req : Request)
    : Request :=
  mkRequest
    (match v with Some s => <[field := s]> (reqBody req) | None => reqBody req end)
    (reqParams req) (reqQuery req) (reqUserId req) (reqErrors req).

Definition addError (e : ValidationError) (req : Request) : Request :=
  mkRequest (reqBody req) (reqParams req) (reqQuery req) (reqUserId req)
    (reqErrors req ++ [e]).

(** The links of a chain run in order on the current value of the field; a
    sanitizer rewrites a present value in place, a failing validator records
    an error and the chain goes on. *)
Fixpoint runSteps (db : Db) (field : string) (steps : list Step)
    (req : Request) : Request :=
  match steps with
  | [] => req
  | Trim :: rest =>
      runSteps db field rest
        (setBodyField field (jsTrim <$> reqBody req !! field) req)
  | Validate c message :: rest =>
      let v := reqBody req !! field in
      runSteps db field rest
        (if checkHolds db c v then req
         else addError (mkValidationError field message v) req)
  end.

(** One chain as middleware: it never replies, it only annotates [req]. *)
Definition runField (db : Db) (chain : FieldChain) (req : Request) : Request :=
  if fcOptional chain && bool_decide (reqBody req !! fcField chain = None)
  then req
  else runSteps db (fcField chain) (fcSteps chain) req.

Definition runFields (db : Db) (chains : list FieldChain) (req : Request)
    : Request :=
  fold_left (fun r chain => runField db chain r) chains req.

(** What a middleware does: reply, or call [next()] with the request. *)
Inductive MwResult : Type :=
  | Done (reply : Reply)
  | Next (req : Request).

(** An entry of [formattedErrors]; [JSON.stringify] drops an undefined
    [value]. *)
Definition formatError (e : ValidationError) : Json :=
  JObj ([("field", JStr (vePath e)); ("message", JStr (veMsg e))] ++
        match veValue e with Some v => [("value", JStr v)] | None => [] end).

Definition handleValidationErrors (req : Request) : MwResult :=
  if negb (bool_decide (reqErrors req = []))
  then Done (SendJson 400
               (envelope false "Validation failed"
                  (JObj [("errors", JArr (map formatError (reqErrors req)))])))
  else Next req.

(** A route [router.METHOD(path, ...chains, handleValidationErrors,
    controller)]. *)
Definition route (chains : list FieldChain)
    (controller : Request -> Db -> Reply * Db) (req : Request) (db : Db)
    : Reply * Db :=
  match handleValidationErrors (runFields db chains req) with
  | Done reply => (reply, db)
  | Next req' => controller req' db
  end.

Definition validateComplaintUpdate : list FieldChain :=
  [mkFieldChain "status" true
     [Validate
        (IsIn ["REGISTERED"; "ASSIGNED"; "IN_PROGRESS"; "RESOLVED"; "CLOSED";
               "REOPENED"]) "Invalid status"];
   mkFieldChain "priority" true
     [Validate (IsIn ["LOW"; "MEDIUM"; "HIGH"; "CRITICAL"]) "Invalid priority"];
   mkFieldChain "assignedToId" true [Validate IsString "Invalid user ID"];
   mkFieldChain "comment" true
     [Trim;
      Validate (IsLength None (Some 1000))
        "Comment cannot exceed 1000 characters"]].

Definition validateWard : list FieldChain :=
  [mkFieldChain "name" false
     [Validate NotEmpty "Ward name is required";
      Validate (IsLength (Some 2) (Some 100))
        "Ward name must be between 2 and 100 characters"];
   mkFieldChain "description" false
     [Validate NotEmpty "Ward description is required";
      Validate (IsLength (Some 10) (Some 500))
        "Description must be between 10 and 500 characters"];
   mkFieldChain "isActive" true
     [Validate IsBoolean "isActive must be a boolean"]].

Definition validateSubZone : list FieldChain :=
  [mkFieldChain "name" false
     [Validate NotEmpty "Sub-zone name is required";
      Validate (IsLength (Some 2) (Some 100))
        "Sub-zone name must be between 2 and 100 characters"];
   mkFieldChain "description" true
     [Validate (IsLength None (Some 500))
        "Description must be less than 500 characters"];
   mkFieldChain "isActive" true
     [Validate IsBoolean "isActive must be a boolean"]].

End Validation.

(** ** The complaint seed script (five resolved complaints) *)

Module SeedComplaints.

Definition USER_ID : string := "cmjqw957o0005rhvvwqsq9kje".
Definition WARD_ID : string := "cmjqqzdag00159kyoxm2lnqu5".
Definition SUB_ZONE_ID : string := "cmjqr3nnd00179k14hsawa7d8".

Definition COMPLAINT_TITLES : list string :=
  ["Garbage not collected"; "Street light not working";
   "Water leakage on main road"; "Potholes causing traffic";
   "Illegal dumping near park"].

Definition PRIORITIES : list string := ["LOW"; "MEDIUM"; "HIGH"].
Definition COMPLAINT_CATEGORY : string := "Civic Issue".

(** The reads of one loop iteration: [Date.now()], the later [new Date()],
    and the id Prisma gives the created complaint. *)
Record IterationEnv : Type := mkIterationEnv {
  ieNow : Z;
  ieResolvedAt : Z;
  ieComplaintId : string
}.

Definition iterationLogs (env : IterationEnv) : list StatusLog :=
  let createdAt := ieNow env - 2 * 60 * 60 * 1000 in
  let registeredAt := createdAt in
  let inProgressAt := createdAt + 1 * 60 * 60 * 1000 in
  let resolvedAt := ieResolvedAt env in
  [mkStatusLog (ieComplaintId env) USER_ID None REGISTERED
     "Complaint registered successfully." registeredAt;
   mkStatusLog (ieComplaintId env) USER_ID (Some REGISTERED) IN_PROGRESS
     "Maintenance team has been assigned and work started." inProgressAt;
   mkStatusLog (ieComplaintId env) USER_ID (Some IN_PROGRESS) RESOLVED
     "Issue has been resolved and verified." resolvedAt].

(** The body of the [for] loop, with every [create] succeeding. *)
Definition seedIteration (i : nat) (env : IterationEnv) (db : Db) : Db :=
  let title := nth i COMPLAINT_TITLES EmptyString in
  let priority := nth (i mod length PRIORITIES) PRIORITIES EmptyString in
  let uniqueId := ("KSC" ++ pretty (10000 + Z.of_nat i))%string in
  let createdAt := ieNow env - 2 * 60 * 60 * 1000 in
  let resolvedAt := ieResolvedAt env in
  let complaint :=
    mkComplaint (ieComplaintId env) uniqueId title COMPLAINT_CATEGORY priority
      RESOLVED WARD_ID (Some SUB_ZONE_ID) (Some USER_ID) createdAt resolvedAt in
  mkDb (users db) (wards db) (subZones db) (complaints db ++ [complaint])
    (statusLogs db ++ iterationLogs env) (otpSessions db).

(** [main()]: [env i] are the reads of iteration [i]. *)
Definition main (env : nat -> IterationEnv) (db : Db) : Db :=
  fold_left (fun d i => seedIteration i (env i) d) (seq 0 5) db.

End SeedComplaints.

(** ** Guest routes: upload filter and file serving *)

Module GuestRoutes.

Definition slash : ascii := ascii_of_nat 47.
Definition dot : ascii := ascii_of_nat 46.

Fixpoint dropWhileChars (p : ascii -> bool) (l : list ascii) : list ascii :=
  match l with
  | a :: l' => if p a then dropWhileChars p l' else l
  | [] => []
  end.

Fixpoint takeWhileChars (p : ascii -> bool) (l : list ascii) : list ascii :=
  match l with
  | a :: l' => if p a then a :: takeWhileChars p l' else []
  | [] => []
  end.

Definition isSlash (a : ascii) : bool := bool_decide (a = slash).
Definition isDot (a : ascii) : bool := bool_decide (a = dot).

(** The last component of a POSIX path, trailing separators ignored; the
    characters are returned last to first. *)
Definition lastComponentRev (path : list ascii) : list ascii :=
  takeWhileChars (fun a => negb (isSlash a))
    (dropWhileChars isSlash (rev path)).

(** [path.extname] (POSIX): from the last dot of the last component to its
    end; empty when there is no dot, when the only dot is the first
    character, or when the component is [..]. *)
Definition extnameChars (path : list ascii) : list ascii :=
  let comp := lastComponentRev path in
  let extRev := takeWhileChars (fun a => negb (isDot a)) comp in
  let preRev := drop (S (length extRev)) comp in
  if bool_decide (length extRev = length comp) then []
  else if bool_decide (preRev = []) then []
  else if bool_decide (comp = [dot; dot]) then []
  else dot :: rev extRev.

Definition extname (path : string) : string :=
  string_of_list_ascii (extnameChars (list_ascii_of_string path)).

(** [path.basename(path, ext)]: the last component, without the suffix
    [ext] when it ends with it and is not equal to it. *)
Definition basename (path ext : string) : string :=
  let comp := rev (lastComponentRev (list_ascii_of_string path)) in
  let e := list_ascii_of_string ext in
  let n := (length comp - length e)%nat in
  if bool_decide (drop n comp = e) && negb (bool_decide (comp = e))
  then string_of_list_ascii (take n comp)
  else string_of_list_ascii comp.

Definition lowerChar (a : ascii) : ascii :=
  let n := nat_of_ascii a in
  if ((65 <=? n)%nat && (n <=? 90)%nat) then ascii_of_nat (n + 32) else a.

(** [String.prototype.toLowerCase] as the filter needs it: the letters A to
    Z are lowered.  JavaScript lowers letters outside ASCII as well, to
    characters outside ASCII; the two that yield an ASCII letter (U+0130, an
    i followed by a combining dot, and U+212A, a k) cannot complete one of
    the filter's words. *)
Definition toLowerCase (s : string) : string :=
  string_of_list_ascii (map lowerChar (list_ascii_of_string s)).

(** [s.substring(1)]. *)
Definition substring1 (s : string) : string :=
  match s with String _ s' => s' | EmptyString => EmptyString end.

(** [needle] occurs somewhere in [s]. *)
Fixpoint occursIn (needle s : string) : bool :=
  String.prefix needle s
  || match s with
     | String _ s' => occursIn needle s'
     | EmptyString => false
     end.

(** The alternatives of [/jpeg|jpg|png|gif|pdf|doc|docx|txt/]. *)
Definition allowedTypes : list string :=
  ["jpeg"; "jpg"; "png"; "gif"; "pdf"; "doc"; "docx"; "txt"].

(** [regex.test(s)] for a pattern that is an alternation of literals
    without anchors: some alternative occurs in [s]. *)
Definition alternationTest (alternatives : list string) (s : string) : bool :=
  existsb (fun alt => occursIn alt s) alternatives.

Inductive FilterResult : Type :=
  | Accept
  | Reject (message : string).

Definition invalidFileType : string :=
  "Invalid file type. Only images (JPEG, PNG, GIF) and documents (PDF, DOC, DOCX, TXT) are allowed".

Definition fileFilter (originalname : string) : FilterResult :=
  let fileExtension := substring1 (toLowerCase (extname originalname)) in
  if alternationTest allowedTypes fileExtension then Accept
  else Reject invalidFileType.

(** The [limits] of the multer instance. *)
Definition fileSizeLimit : Z := 10 * 1024 * 1024.
Definition filesLimit : Z := 5.

(** A file part of a multipart request: its name, its size in bytes, and
    the suffix [Date.now() + "-" + Math.round(Math.random() * 1e9)] the
    storage draws for it. *)
Record UploadedFile : Type := mkUploadedFile {
  ufOriginalName : string;
  ufSize : Z;
  ufUniqueSuffix : string
}.

(** The [filename] callback of the disk storage. *)
Definition storageFilename (f : UploadedFile) : string :=
  let extension := extname (ufOriginalName f) in
  let baseName := basename (ufOriginalName f) extension in
  (baseName ++ "-" ++ ufUniqueSuffix f ++ extension)%string.

Inductive UploadOutcome : Type :=
  | Stored (files : list (string * string))
  | UploadError (code : string).

(** How multer (a library, not part of the repository) applies the
    configuration to the file parts of one request, in the order they
    arrive: a part beyond the [files] limit aborts with LIMIT_FILE_COUNT, a
    part the filter rejects aborts with the filter's error, a part of
    [fileSize] bytes or more aborts with LIMIT_FILE_SIZE (the limit is hit
    when the bytes read reach it); otherwise the part is
    written to the destination directory under the storage's file name. *)
Fixpoint receiveFiles (dir : string) (files : list UploadedFile)
    (stored : list (string * string)) : UploadOutcome :=
  match files with
  | [] => Stored stored
  | f :: rest =>
      if filesLimit <=? Z.of_nat (length stored)
      then UploadError "LIMIT_FILE_COUNT"
      else
        match fileFilter (ufOriginalName f) with
        | Reject message => UploadError message
        | Accept =>
            if fileSizeLimit <=? ufSize f then UploadError "LIMIT_FILE_SIZE"
            else receiveFiles dir rest (stored ++ [(dir, storageFilename f)])
        end
  end.

Definition upload (guestUploadDir : string) (files : list UploadedFile)
    : UploadOutcome :=
  receiveFiles guestUploadDir files [].

Section FileServing.

(** The file system and path library as the route sees them. *)
Variable existsSync : string -> bool.
Variable pathJoin : string -> string -> string.
Variable pathResolve : string -> string.


End FileServing.

End GuestRoutes.

(** ** The client store: locations in the data slice *)

Module DataSlice.

(** [CachedData<T>]. *)
Record CachedData (T : Type) : Type := mkCachedData {
  cdData : T;
  cdTimestamp : Z;
  cdIsStale : option bool
}.
Arguments mkCachedData {T} _ _ _.
Arguments cdData {T} _.
Arguments cdTimestamp {T} _.
Arguments cdIsStale {T} _.

(** The [subZones] property of a ward of the payload: absent (or null), an
    array, or some other value with its truthiness. *)
Inductive SubZonesField : Type :=
  | SubZonesAbsent
  | SubZonesArray (zones : list SubZone)
  | SubZonesOther (isTruthy : bool).

Record WardPayload : Type := mkWardPayload {
  wpId : string;
  wpName : string;
  wpDescription : option string;
  wpIsActive : bool;
  wpSubZones : SubZonesField
}.

(** [state.locations]. *)
Record Locations : Type := mkLocations {
  locWards : option (CachedData (list WardPayload));
  locSubZones : gmap string (CachedData (list SubZone))
}.

(** The slice state; [Rest] stands for the branches other than
    [locations], which the reducers below do not mention. *)
Record DataState (Rest : Type) : Type := mkDataState {
  locations : Locations;
  otherBranches : Rest
}.
Arguments mkDataState {Rest} _ _.
Arguments locations {Rest} _.
Arguments otherBranches {Rest} _.

(** [ward.subZones && Array.isArray(ward.subZones)]. *)
Definition subZonesArray (w : WardPayload) : option (list SubZone) :=
  match wpSubZones w with
  | SubZonesArray zones => Some zones
  | _ => None
  end.

(** [ward.subZones && Array.isArray(ward.subZones) &&
    ward.subZones.length > 0]. *)
Definition carriesSubZones (w : WardPayload) : bool :=
  match subZonesArray w with
  | Some zones => (0 <? length zones)%nat
  | None => false
  end.

(** The [forEach] that normalizes sub-zones into the map; [clock k] is the
    value of the [k]-th [Date.now()] of the reducer, [k] counting the reads
    made so far. *)
Fixpoint normalizeSubZones (clock : nat -> Z) (k : nat)
    (payload : list WardPayload) (m : gmap string (CachedData (list SubZone)))
    : gmap string (CachedData (list SubZone)) :=
  match payload with
  | [] => m
  | w :: rest =>
      match subZonesArray w with
      | Some zones =>
          normalizeSubZones clock (S k) rest
            (<[wpId w := mkCachedData zones (clock k) None]> m)
      | None => normalizeSubZones clock k rest m
      end
  end.

Section Reducers.
Context {Rest : Type}.

Definition setWards (clock : nat -> Z) (payload : list WardPayload)
    (state : DataState Rest) : DataState Rest :=
  mkDataState
    (mkLocations (Some (mkCachedData payload (clock 0%nat) None))
       (normalizeSubZones clock 1 payload (locSubZones (locations state))))
    (otherBranches state).

Definition setSubZones (clock : nat -> Z) (wardId : string)
    (data : list SubZone) (state : DataState Rest) : DataState Rest :=
  mkDataState
    (mkLocations (locWards (locations state))
       (<[wardId := mkCachedData data (clock 0%nat) None]>
          (locSubZones (locations state))))
    (otherBranches state).

Definition setWardsWithSubZones (clock : nat -> Z)
    (payload : list WardPayload) (state : DataState Rest) : DataState Rest :=
  let hasSubZones := existsb carriesSubZones payload in
  let wards' := Some (mkCachedData payload (clock 0%nat) None) in
  mkDataState
    (mkLocations wards'
       (if hasSubZones then normalizeSubZones clock 1 payload ∅
        else locSubZones (locations state)))
    (otherBranches state).

End Reducers.

End DataSlice.
(** ** The client's API helpers (store/api/baseApi.ts) *)

Module BaseApi.

(** A JavaScript value as the list helpers see it: a primitive, or a
    reference to an object or array, identified by its address.  Numbers
    are integers. *)
Inductive JsValue : Type :=
  | VUndefined
  | VNull
  | VBool (b : bool)
  | VNum (n : Z)
  | VStr (s : string)
  | VRef (address : nat).

#[global] Instance JsValue_eq_dec : EqDecision JsValue.
Proof. solve_decision. Defined.

(** A plain object: its own properties. *)
Definition JsObject : Type := gmap string JsValue.

(** [o[key]]: a missing property reads as [undefined]. *)
Definition getProp (key : string) (o : JsObject) : JsValue :=
  default VUndefined (o !! key).

(** [a === b]: primitives by value, references by identity. *)
Definition strictEq (a b : JsValue) : bool := bool_decide (a = b).

(** [{ ...a, ...b }]: the properties of [b] win. *)
Definition spread (a b : JsObject) : JsObject := b ∪ a.

(** [optimisticUpdate(items, updatedItem, idField)]. *)
Definition optimisticUpdate (items : list JsObject) (updatedItem : JsObject)
    (idField : string) : list JsObject :=
  map (fun item =>
         if strictEq (getProp idField item) (getProp "id" updatedItem)
         then spread item updatedItem else item) items.

(** [rollbackUpdate(items, originalItem, idField)]. *)
Definition rollbackUpdate (items : list JsObject) (originalItem : JsObject)
    (idField : string) : list JsObject :=
  map (fun item =>
         if strictEq (getProp idField item) (getProp idField originalItem)
         then originalItem else item) items.

(** *** getApiErrorMessage

    The error is any JSON value or [undefined] ([None]); a property that is
    absent reads as [undefined]. *)

(** JavaScript truthiness. *)
Definition jsTruthy (j : Json) : bool :=
  match j with
  | JNull => false
  | JBool b => b
  | JNum n => negb (n =? 0)
  | JStr s => negb (bool_decide (s = EmptyString))
  | JArr _ | JObj _ => true
  end.

(** [v?.key]. *)
Definition member (key : string) (v : option Json) : option Json :=
  v ≫= jsonGet key.

(** The value of [v] when it is truthy. *)
Definition whenTruthy (v : option Json) : option Json :=
  match v with
  | Some j => if jsTruthy j then Some j else None
  | None => None
  end.

Definition unexpectedError : string :=
  "An unexpected error occurred. Please try again.".

(** [error?.message?.includes("Failed to fetch")]; [None] is the TypeError
    of calling [includes] on a value that has no such method. *)
Definition includesFailedToFetch (message : option Json) : option bool :=
  match message with
  | None | Some JNull => Some false
  | Some (JStr s) => Some (GuestRoutes.occursIn "Failed to fetch" s)
  | Some (JArr items) =>
      Some (existsb
              (fun x => match x with
                        | JStr s => bool_decide (s = "Failed to fetch")
                        | _ => false
                        end) items)
  | Some (JBool _) | Some (JNum _) | Some (JObj _) => None
  end.

(** [v === s] for a string literal [s]. *)
Definition isLiteral (s : string) (v : option Json) : bool :=
  match v with
  | Some (JStr x) => bool_decide (x = s)
  | _ => false
  end.

Section ErrorMessage.

(** [Number.prototype.toString]: decimal digits for an integer below
    10^21 in magnitude, exponent notation from there on. *)
Variable numberToString : Z -> string.

(** [JSON.parse]; [None] when it throws. *)
Variable jsonParse : string -> option Json.

(** The string a template literal makes of a value. *)
Fixpoint toStringJs (j : Json) : string :=
  match j with
  | JNull => "null"
  | JBool true => "true"
  | JBool false => "false"
  | JNum n => numberToString n
  | JStr s => s
  | JArr items =>
      String.concat ","
        (map (fun x => match x with JNull => EmptyString | _ => toStringJs x end)
           items)
  | JObj _ => "[object Object]"
  end.

(** The [switch] on a truthy [error.status]; a [case] matches by [===]. *)
Definition statusMessage (status : Json) : string :=
  let other := ("An error occurred (" ++ toStringJs status ++ ")")%string in
  match status with
  | JNum n =>
      if n =? 400 then "Bad request - please check your input"
      else if n =? 401 then "Unauthorized - please login again"
      else if n =? 403 then "Forbidden - you do not have permission"
      else if n =? 404 then "Resource not found"
      else if n =? 409 then "Conflict - resource already exists"
      else if n =? 422 then "Validation error - please check your input"
      else if n =? 429 then "Too many requests - please try again later"
      else if n =? 500 then "Internal server error - please try again later"
      else other
  | _ => other
  end.


(** The branch for a serialized error: [Some r] when it returns [r], [None]
    when control falls through to the status fallback. *)
Definition serializedMessage (data : option Json) : option Json :=
  match data with
  | Some (JStr d) =>
      match jsonParse d with
      | None => Some (JStr d)
      | Some JNull => Some (JStr d)
      | Some parsedError => whenTruthy (jsonGet "message" parsedError)
      end
  | _ => None
  end.

Definition getApiErrorMessage (error : option Json) : Json :=
  let data := member "data" error in
  let message := member "message" error in
  let status := member "status" error in
  match whenTruthy (member "message" data) with
  | Some m => m
  | None =>
  match whenTruthy (member "error" data) with
  | Some (JStr e) => JStr e
  | Some _ => JStr "An error occurred"
  | None =>
  match whenTruthy message with
  | Some m => m
  | None =>
  match serializedMessage data with
  | Some r => r
  | None =>
  match whenTruthy status with
  | Some st => JStr (statusMessage st)
  | None =>
  match includesFailedToFetch message with
  | None => JStr unexpectedError
  | Some failedToFetch =>
      if failedToFetch || isLiteral "NETWORK_ERROR" status
      then JStr "Cannot connect to the server. Please check your internet connection and try again."
      else if isLiteral "TIMEOUT_ERROR" status
      then JStr "Request timed out. Please try again."
      else if isLiteral "CONNECTION_ERROR" status
      then JStr "Network connection error. Please check your connection and try again."
      else if isLiteral "FETCH_ERROR" status
      then JStr "Network request failed. Please try again."
      else
        match whenTruthy (member "error" error) with
        | Some _ => JStr "Network error - please check your connection"
        | None => JStr unexpectedError
        end
  end end end end end end.

End ErrorMessage.

End BaseApi.

(** ** The client store: the other reducers and the selectors of the data
    slice, and the ward query that feeds it *)

Module DataCache.
Import DataSlice BaseApi.

Definition CACHE_TTL : Z := 5 * 60 * 1000.

(** The branches of the slice besides [locations].  Complaints are objects
    the reducers look into; [Any] stands for the payloads the slice stores
    as they come. *)
Record Branches (Any : Type) : Type := mkBranches {
  complaintsList : option (CachedData (list JsObject));
  complaintsDetails : gmap string (CachedData JsObject);
  serviceRequestsList : option (CachedData (list Any));
  serviceRequestsDetails : gmap string (CachedData Any);
  usersList : option (CachedData (list Any));
  usersProfile : option (CachedData Any);
  configComplaintTypes : option (CachedData (list Any));
  configSystemSettings : option (CachedData Any);
  analyticsComplaintStats : option (CachedData Any);
  analyticsUserStats : option (CachedData Any);
  analyticsWardStats : gmap string (CachedData Any);
  activeComplaints : option (CachedData (list Any));
  recentUpdates : option (CachedData (list Any))
}.
Arguments mkBranches {Any} _ _ _ _ _ _ _ _ _ _ _ _ _.
Arguments complaintsList {Any} _.
Arguments complaintsDetails {Any} _.
Arguments serviceRequestsList {Any} _.
Arguments serviceRequestsDetails {Any} _.
Arguments usersList {Any} _.
Arguments usersProfile {Any} _.
Arguments configComplaintTypes {Any} _.
Arguments configSystemSettings {Any} _.
Arguments analyticsComplaintStats {Any} _.
Arguments analyticsUserStats {Any} _.
Arguments analyticsWardStats {Any} _.
Arguments activeComplaints {Any} _.
Arguments recentUpdates {Any} _.

Section Slice.
Context {Any : Type}.

Definition State : Type := DataState (Branches Any).

Definition initialState : State :=
  mkDataState (mkLocations None ∅)
    (mkBranches None ∅ None ∅ None None None None None None ∅ None None).

Definition withComplaints (list : option (CachedData (list JsObject)))
    (details : gmap string (CachedData JsObject)) (b : Branches Any)
    : Branches Any :=
  mkBranches list details (serviceRequestsList b) (serviceRequestsDetails b)
    (usersList b) (usersProfile b) (configComplaintTypes b)
    (configSystemSettings b) (analyticsComplaintStats b)
    (analyticsUserStats b) (analyticsWardStats b) (activeComplaints b)
    (recentUpdates b).

(** [setComplaintsList] and [setComplaintDetails]; [now] is the value of
    [Date.now()]. *)
Definition setComplaintsList (now : Z) (payload : list JsObject)
    (state : State) : State :=
  let b := otherBranches state in
  mkDataState (locations state)
    (withComplaints (Some (mkCachedData payload now None))
       (complaintsDetails b) b).

Definition setComplaintDetails (now : Z) (id : string) (data : JsObject)
    (state : State) : State :=
  let b := otherBranches state in
  mkDataState (locations state)
    (withComplaints (complaintsList b)
       (<[id := mkCachedData data now None]> (complaintsDetails b)) b).

(** [complaint.id === id]. *)
Definition hasComplaintId (id : string) (complaint : JsObject) : bool :=
  strictEq (getProp "id" complaint) (VStr id).

(** The same entry with other data. *)
Definition withData {T : Type} (data : T) (cached : CachedData T)
    : CachedData T :=
  mkCachedData data (cdTimestamp cached) (cdIsStale cached).

(** [updateComplaintInList]: [findIndex] gives the first element with the
    id; the entry of the details record is patched when there is one. *)
Definition updateComplaintInList (id : string) (updates : JsObject)
    (state : State) : State :=
  let b := otherBranches state in
  let list' :=
    match complaintsList b with
    | Some cached =>
        Some (withData
                (updateFirst (hasComplaintId id)
                   (fun complaint => spread complaint updates)
                   (cdData cached)) cached)
    | None => None
    end in
  let details' :=
    match complaintsDetails b !! id with
    | Some cached =>
        <[id := withData (spread (cdData cached) updates) cached]>
          (complaintsDetails b)
    | None => complaintsDetails b
    end in
  mkDataState (locations state) (withComplaints list' details' b).

(** [now - cached.timestamp > CACHE_TTL || cached.isStale]. *)
Definition expired {T : Type} (now : Z) (cached : CachedData T) : bool :=
  (CACHE_TTL <? now - cdTimestamp cached) || default false (cdIsStale cached).

(** The helper [clearIfStale] of [clearStaleData]. *)
Definition clearIfStale {T : Type} (now : Z) (cached : option (CachedData T))
    : option (CachedData T) :=
  match cached with
  | None => None
  | Some c => if expired now c then None else Some c
  end.

(** The two loops that delete the stale entries of a details record. *)
Definition clearDetails {T : Type} (now : Z) (details : gmap string (CachedData T))
    : gmap string (CachedData T) :=
  filter (fun entry => expired now (snd entry) = false) details.

(** [clearStaleData]; [now] is the one [Date.now()] it reads. *)
Definition clearStaleData (now : Z) (state : State) : State :=
  let loc := locations state in
  let b := otherBranches state in
  mkDataState
    (mkLocations (clearIfStale now (locWards loc)) (locSubZones loc))
    (mkBranches
       (clearIfStale now (complaintsList b))
       (clearDetails now (complaintsDetails b))
       (clearIfStale now (serviceRequestsList b))
       (clearDetails now (serviceRequestsDetails b))
       (clearIfStale now (usersList b))
       (clearIfStale now (usersProfile b))
       (clearIfStale now (configComplaintTypes b))
       (clearIfStale now (configSystemSettings b))
       (clearIfStale now (analyticsComplaintStats b))
       (clearIfStale now (analyticsUserStats b))
       (analyticsWardStats b)
       (activeComplaints b)
       (recentUpdates b)).

(** [clearAllData]. *)
Definition clearAllData (state : State) : State := initialState.

End Slice.

(** *** Selectors *)

Section Selectors.
Context {Rest : Type}.

(** [selectWardsArray]: [wardsData?.data || []]. *)
Definition selectWardsArray (state : DataState Rest) : list WardPayload :=
  match locWards (locations state) with
  | Some cached => cdData cached
  | None => []
  end.

(** [selectSubZonesByWardId(wardId)]: [subZonesData?.data || []]. *)
Definition selectSubZonesByWardId (wardId : string) (state : DataState Rest)
    : list SubZone :=
  match locSubZones (locations state) !! wardId with
  | Some cached => cdData cached
  | None => []
  end.

(** [selectWardById(wardId)]; [None] is [null]. *)
Definition selectWardById (wardId : string) (state : DataState Rest)
    : option WardPayload :=
  List.find (fun ward => bool_decide (wpId ward = wardId))
    (selectWardsArray state).

End Selectors.

(** *** The ward query (store/api/wardApi.ts) *)

(** The body of a fulfilled [getWards] query: [success] and [data?.wards]. *)
Record WardsResponse : Type := mkWardsResponse {
  wrSuccess : bool;
  wrWards : option (list WardPayload)
}.

(** [{ ...ward, subZones: ward.subZones || [] }]. *)
Definition ensureSubZones (ward : WardPayload) : WardPayload :=
  mkWardPayload (wpId ward) (wpName ward) (wpDescription ward)
    (wpIsActive ward)
    (match wpSubZones ward with
     | SubZonesAbsent | SubZonesOther false => SubZonesArray []
     | SubZonesArray zones => SubZonesArray zones
     | SubZonesOther true => SubZonesOther true
     end).

(** [onQueryStarted] of the [getWards] endpoint; [fulfilled] is [None] when
    the query fails, and [clock] gives the reads of [Date.now()] of the
    dispatched reducer. *)
Definition onQueryStarted {Rest : Type} (clock : nat -> Z)
    (fulfilled : option WardsResponse) (state : DataState Rest)
    : DataState Rest :=
  match fulfilled with
  | Some response =>
      match wrSuccess response, wrWards response with
      | true, Some wards =>
          setWardsWithSubZones clock (map ensureSubZones wards) state
      | _, _ => state
      end
  | None => state
  end.

End DataCache.

(** ** Wards and sub-zones: listing, creation and update (user controller) *)

Module WardAdmin.
Import DataSlice.

(** A boolean of the JSON body is held in the request as the string [true]
    or [false] (the form the validation chains check); [Some None] is a
    missing field, [None] a value that is not a boolean, which makes Prisma
    reject the query before it reaches the database. *)
Definition boolField (v : option string) : option (option bool) :=
  match v with
  | None => Some None
  | Some s =>
      if bool_decide (s = "true") then Some (Some true)
      else if bool_decide (s = "false") then Some (Some false)
      else None
  end.

Definition validationError : string := "PrismaClientValidationError".
Definition recordNotFound : string := "Record to update not found".
Definition uniqueConstraintFailed : string :=
  "Unique constraint failed on the fields: (name)".

Definition wardJson (w : Ward) : Json :=
  JObj [("id", JStr (wId w)); ("name", JStr (wName w));
        ("description", jsonOfOption (wDescription w));
        ("isActive", JBool (wIsActive w))].

Definition subZoneJson (z : SubZone) : Json :=
  JObj [("id", JStr (szId z)); ("name", JStr (szName z));
        ("wardId", JStr (szWardId z));
        ("description", jsonOfOption (szDescription z));
        ("isActive", JBool (szIsActive z))].

Definition hasWardId (id : string) (w : Ward) : bool := bool_decide (wId w = id).
Definition hasSubZoneId (id : string) (z : SubZone) : bool :=
  bool_decide (szId z = id).

(** *** getWards *)

Section Listing.

(** [orderBy: { name: "asc" }]: the order in which the database returns the
    rows it was asked to sort by name. *)
Variable orderByName : forall A : Type, (A -> string) -> list A -> list A.

(** [where: fetchAll ? {} : { isActive: true }]. *)
Definition listed (req : Request) (w : Ward) : bool :=
  bool_decide (reqQuery req !! "all" = Some "true") || wIsActive w.

(** The [subZones] relation of a ward under
    [include: { subZones: { where: { isActive: true } } }]. *)
Definition activeSubZones (db : Db) (wardId : string) : list SubZone :=
  List.filter (fun z => bool_decide (szWardId z = wardId) && szIsActive z)
    (subZones db).

(** The [wards] of the response. *)
Definition getWardsData (req : Request) (db : Db) : list WardPayload :=
  let includeSubZones :=
    bool_decide (reqQuery req !! "include" = Some "subzones") in
  map (fun w =>
         mkWardPayload (wId w) (wName w) (wDescription w) (wIsActive w)
           (if includeSubZones
            then SubZonesArray
                   (orderByName SubZone szName (activeSubZones db (wId w)))
            else SubZonesAbsent))
    (orderByName Ward wName (List.filter (listed req) (wards db))).



End Listing.

(** *** createWard and updateWard

    [Ward.name] is unique in the schema ([createWard] looks a ward up by
    it). *)

(** [newId] is the id the database generates. *)
Definition createWard (newId : string) (req : Request) (db : Db)
    : Reply * Db :=
  match reqBody req !! "name" with
  | None => (Thrown validationError, db)
  | Some name =>
      match List.find (fun w => bool_decide (wName w = name)) (wards db) with
      | Some existingWard =>
          (SendJson 400
             (envelope false "Ward with this name already exists" JNull), db)
      | None =>
          let ward := mkWard newId name (reqBody req !! "description") true in
          (SendJson 201
             (envelope true "Ward created successfully"
                (JObj [("ward", wardJson ward)])),
           withWards db (wards db ++ [ward]))
      end
  end.

(** [prisma.ward.update]: a field that is [undefined] is left as it is; a
    missing row and a name another ward has are errors the database
    raises. *)
Definition updateWard (req : Request) (db : Db) : Reply * Db :=
  let name := reqBody req !! "name" in
  let description := reqBody req !! "description" in
  let wardId := default EmptyString (reqParams req !! "id") in
  match boolField (reqBody req !! "isActive") with
  | None => (Thrown validationError, db)
  | Some isActive =>
      match List.find (hasWardId wardId) (wards db) with
      | None => (Thrown recordNotFound, db)
      | Some old =>
          if existsb (fun w => bool_decide (Some (wName w) = name)
                               && negb (hasWardId wardId w)) (wards db)
          then (Thrown uniqueConstraintFailed, db)
          else
            let ward :=
              mkWard (wId old) (default (wName old) name)
                (match description with
                 | Some d => Some d
                 | None => wDescription old
                 end)
                (default (wIsActive old) isActive) in
            (SendJson 200
               (envelope true "Ward updated successfully"
                  (JObj [("ward", wardJson ward)])),
             withWards db
               (updateFirst (hasWardId wardId) (fun _ => ward) (wards db)))
      end
  end.

(** *** createSubZone and updateSubZone *)

(** The filter [{ name, wardId }] of [findFirst]: an [undefined] name does
    not restrict the search. *)
Definition sameNameInWard (name : option string) (wardId : string)
    (z : SubZone) : bool :=
  match name with
  | Some n => bool_decide (szName z = n)
  | None => true
  end && bool_decide (szWardId z = wardId).

Definition createSubZone (newId : string) (req : Request) (db : Db)
    : Reply * Db :=
  let name := reqBody req !! "name" in
  let description := reqBody req !! "description" in
  let wardId := default EmptyString (reqParams req !! "wardId") in
  match List.find (hasWardId wardId) (wards db) with
  | None => (SendJson 404 (messageBody false "Ward not found"), db)
  | Some ward =>
      match List.find (sameNameInWard name wardId) (subZones db) with
      | Some existingSubZone =>
          (SendJson 400
             (messageBody false "Sub-zone name already exists in this ward"),
           db)
      | None =>
          match name, boolField (reqBody req !! "isActive") with
          | Some n, Some isActive =>
              let subZone :=
                mkSubZone newId n wardId description (default true isActive) in
              (SendJson 201
                 (envelope true "Sub-zone created successfully"
                    (subZoneJson subZone)),
               withSubZones db (subZones db ++ [subZone]))
          | _, _ => (Thrown validationError, db)
          end
      end
  end.

Definition updateSubZone (req : Request) (db : Db) : Reply * Db :=
  let name := reqBody req !! "name" in
  let description := reqBody req !! "description" in
  let wardId := default EmptyString (reqParams req !! "wardId") in
  let subZoneId := default EmptyString (reqParams req !! "id") in
  match List.find (hasWardId wardId) (wards db) with
  | None => (SendJson 404 (messageBody false "Ward not found"), db)
  | Some ward =>
      match List.find (hasSubZoneId subZoneId) (subZones db) with
      | None => (SendJson 404 (messageBody false "Sub-zone not found"), db)
      | Some existingSubZone =>
          if negb (bool_decide (szWardId existingSubZone = wardId))
          then (SendJson 400
                  (messageBody false "Sub-zone does not belong to this ward"),
                db)
          else
            match boolField (reqBody req !! "isActive") with
            | None => (Thrown validationError, db)
            | Some isActive =>
                let subZone :=
                  mkSubZone (szId existingSubZone)
                    (default (szName existingSubZone) name)
                    (szWardId existingSubZone)
                    (match description with
                     | Some d => Some d
                     | None => szDescription existingSubZone
                     end)
                    (default (szIsActive existingSubZone) isActive) in
                (SendJson 200
                   (envelope true "Sub-zone updated successfully"
                      (subZoneJson subZone)),
                 withSubZones db
                   (updateFirst (hasSubZoneId subZoneId) (fun _ => subZone)
                      (subZones db)))
            end
      end
  end.

End WardAdmin.

(** ** Users: update, statistics and account verification (user controller) *)

Module UserAdmin.
Import WardAdmin.

(** *** updateUser *)

Definition allowedFields : list string :=
  ["fullName"; "phoneNumber"; "role"; "wardId"; "department"; "isActive";
   "language"].

(** The object [updates]: the allowed keys of the body. *)
Definition allowedUpdates (req : Request) : gmap string string :=
  filter (fun entry => fst entry ∈ allowedFields) (reqBody req).

(** Whether the database enforces the reference from a user to a ward; the
    schema is not among the sources. *)
Inductive WardReference : Type := Enforced | NotEnforced.

Definition foreignKeyFailed : string := "Foreign key constraint failed".

(** A present value replaces the old one ([undefined] leaves it). *)
Definition orKeep (new old : option string) : option string :=
  match new with Some v => Some v | None => old end.

(** [prisma.user.update]: a field that is [undefined] is left as it is; the
    columns [language], [avatar] and [lastLogin] are not represented.  A
    missing row is an error the database raises. *)
Definition updateUser (reference : WardReference) (req : Request) (db : Db)
    : Reply * Db :=
  let userId := default EmptyString (reqParams req !! "id") in
  let updates := allowedUpdates req in
  match boolField (updates !! "isActive") with
  | None => (Thrown validationError, db)
  | Some isActive =>
      match List.find (hasId userId) (users db) with
      | None => (Thrown recordNotFound, db)
      | Some old =>
          let wardKnown :=
            match reference, updates !! "wardId" with
            | Enforced, Some w => existsb (hasWardId w) (wards db)
            | _, _ => true
            end in
          if negb wardKnown then (Thrown foreignKeyFailed, db)
          else
            let user :=
              mkUser (uId old) (default (uFullName old) (updates !! "fullName"))
                (uEmail old) (orKeep (updates !! "phoneNumber") (uPhoneNumber old))
                (default (uRole old) (updates !! "role"))
                (orKeep (updates !! "wardId") (uWardId old))
                (orKeep (updates !! "department") (uDepartment old))
                (uPassword old) (default (uIsActive old) isActive)
                (uJoinedOn old) in
            (SendJson 200
               (envelope true "User updated successfully"
                  (JObj [("user", userJson user)])),
             withUsers db
               (updateFirst (hasId userId) (fun _ => user) (users db)))
      end
  end.

(** *** getUserStats *)

(** [prisma.user.groupBy({ by: ["role"], _count: { role: true } })]: one
    group for each role that occurs, here in the order of first occurrence
    (the database fixes no order). *)
Definition roleDistribution (us : list User) : list (string * Z) :=
  map (fun role => (role, countWhere (fun u => bool_decide (uRole u = role)) us))
    (remove_dups (map uRole us)).

Record UserStats : Type := mkUserStats {
  stTotal : Z;
  stActive : Z;
  stInactive : Z;
  stRecentRegistrations : Z;
  stByRole : gmap string Z
}.

(** The object [stats]; [now] is the value of [Date.now()]. *)
Definition userStats (now : Z) (db : Db) : UserStats :=
  let totalUsers := Z.of_nat (length (users db)) in
  let activeUsers := countWhere uIsActive (users db) in
  let recentRegistrations :=
    countWhere (fun u => now - 30 * 24 * 60 * 60 * 1000 <=? uJoinedOn u)
      (users db) in
  mkUserStats totalUsers activeUsers (totalUsers - activeUsers)
    recentRegistrations
    (fold_left (fun acc item => <[fst item := snd item]> acc)
       (roleDistribution (users db)) ∅).



(** *** verifyAccount *)

Section Verify.

(** Library functions: the hex SHA-256 digest; [JSON.parse] ([None] when it
    throws); and the time value of [new Date(v)] for a property [v] that may
    be missing ([None] for an invalid date). *)
Variable sha256hex : string -> string.
Variable jsonParse : string -> option Json.
Variable dateValue : option Json -> option Z.

(** The callback of [users.find]; [now] is the [new Date()] it compares
    with.  A password that does not parse, or parses to [null], ends in the
    [catch]. *)
Definition holdsToken (resetPasswordToken : string) (now : Z) (u : User)
    : bool :=
  match uPassword u with
  | None => false
  | Some password =>
      if bool_decide (password = EmptyString) then false
      else
        match jsonParse password with
        | None | Some JNull => false
        | Some resetData =>
            BaseApi.isLiteral resetPasswordToken
              (jsonGet "resetPasswordToken" resetData)
            && match dateValue (jsonGet "resetPasswordExpire" resetData) with
               | Some expire => now <? expire
               | None => false
               end
            && match jsonGet "isVerificationToken" resetData with
               | Some (JBool true) => true
               | _ => false
               end
        end
  end.

(** [Array.prototype.find] with the position of each element at hand. *)
Fixpoint findFrom {A : Type} (p : nat -> A -> bool) (i : nat) (l : list A)
    : option A :=
  match l with
  | [] => None
  | x :: rest => if p i x then Some x else findFrom p (S i) rest
  end.

Definition activate (hashedPassword : string) (u : User) : User :=
  setIsActive true (setPassword (Some hashedPassword) u).

(** [clock i] is the [new Date()] read for the candidate at position [i] of
    the rows the query returns; [hashedPassword] is the salted hash of the
    submitted password. *)
Definition verifyAccount (clock : nat -> Z) (hashedPassword : string)
    (req : Request) (db : Db) : Reply * Db :=
  let password := reqBody req !! "password" in
  let token := default EmptyString (reqParams req !! "token") in
  let resetPasswordToken := sha256hex token in
  let candidates :=
    List.filter
      (fun u => match uPassword u with
                | Some stored => GuestRoutes.occursIn resetPasswordToken stored
                | None => false
                end) (users db) in
  match findFrom (fun i u => holdsToken resetPasswordToken (clock i) u) 0
          candidates with
  | None =>
      (SendJson 400
         (envelope false "Invalid or expired verification token" JNull), db)
  | Some user =>
      match password with
      | None => (Thrown "Illegal arguments: undefined, string", db)
      | Some _ =>
          (SendJson 200
             (envelope true "Account verified and password set successfully"
                (JObj [("user", userJson (activate hashedPassword user))])),
           withUsers db
             (updateFirst (hasId (uId user)) (activate hashedPassword)
                (users db)))
      end
  end.

End Verify.

End UserAdmin.


(** ** The Kochi seeding script: configuration, wards and sub-zones *)

Module KochiSeed.

Record ComplaintTypeData : Type := mkComplaintTypeData {
  ctName : string;
  ctPriority : string;
  ctSlaHours : Z
}.

Definition COMPLAINT_TYPES : list ComplaintTypeData :=
  [mkComplaintTypeData "Water Supply" "HIGH" 24;
   mkComplaintTypeData "Electricity" "HIGH" 12;
   mkComplaintTypeData "Road Repair" "MEDIUM" 72;
   mkComplaintTypeData "Waste Management" "MEDIUM" 48;
   mkComplaintTypeData "Street Lighting" "LOW" 48;
   mkComplaintTypeData "Drainage" "HIGH" 24;
   mkComplaintTypeData "Air Pollution" "MEDIUM" 48;
   mkComplaintTypeData "Noise Pollution" "LOW" 72].







Section Seeding.

(** The ids the database gives to created rows, in the order of creation. *)
Variable newId : nat -> string.






End Seeding.

End KochiSeed.

(** * Vocabulary of the properties and sample data *)

Module SlaSpec.

Definition isDone (s : ComplaintStatus) : bool :=
  match s with RESOLVED | CLOSED => true | _ => false end.

End SlaSpec.

Module UserSpec.
Import UserController.

Definition targetId (req : Request) : string :=
  default EmptyString (reqParams req !! "id").

(** The users of a table that are administrators and active. *)
Definition activeAdministrators (us : list User) : list User :=
  List.filter
    (fun u => bool_decide (uRole u = "ADMINISTRATOR" /\ uIsActive u = true)) us.

(** [u'] is the row [u] with [isActive] false and every other column as it
    was. *)
Definition deactivated (u u' : User) : Prop :=
  u' = mkUser (uId u) (uFullName u) (uEmail u) (uPhoneNumber u) (uRole u)
         (uWardId u) (uDepartment u) (uPassword u) false (uJoinedOn u).


(** A database with exactly one active administrator. *)
Definition soleAdminDb : Db :=
  mkDb [mkUser "u1" "Asha Admin" "admin@kochi.gov.in" None "ADMINISTRATOR"
          None None (Some "$2a$10$abc") true 0;
        mkUser "u2" "Citizen User 1" "citizen1@example.com" None "CITIZEN"
          None None (Some "$2a$10$def") true 0]
    [] [] [] [] [].

Definition deleteRequest (id : string) : Request :=
  mkRequest ∅ {[ "id" := id ]} ∅ (Some "u1") [].

Definition registrationRequest (fullName email role : string) : Request :=
  mkRequest {[ "fullName" := fullName; "email" := email; "role" := role ]}
    ∅ ∅ (Some "u1") [].

Definition sampleCreateEnv : CreateUserEnv :=
  mkCreateUserEnv "u3" 1000 "$2a$10$xyz" "c0ffee" 1000 MailSent.

End UserSpec.

Module OtpProtocol.
Import UserController.


















(** A user without a password, and the request and reads of one OTP round. *)
Definition otpUserDb : Db :=
  mkDb [mkUser "u7" "Ward Officer 1" "wardofficer1@kochi.gov.in" None
          "WARD_OFFICER" (Some "w1") None None true 0]
    [] [] [] [] [].

Definition otpRequest (code : string) : Request :=
  mkRequest {[ "otpCode" := code ]} ∅ ∅ (Some "u7") [].

Definition sampleSendEnv : SendOtpEnv :=
  mkSendOtpEnv 1000 "483920" 1001 "otp1" true 1002.


End OtpProtocol.

Module WardSpec.
Import WardController.

Definition wardExists (db : Db) (wardId : string) : Prop :=
  exists w, w ∈ wards db /\ wId w = wardId.

(** Every sub-zone and every complaint references a ward of the table. *)
Definition referentialIntegrity (db : Db) : Prop :=
  (forall z, z ∈ subZones db -> wardExists db (szWardId z)) /\
  (forall c, c ∈ complaints db -> wardExists db (cWardId c)).

(** [req.params.id]: the ward of [deleteWard], the sub-zone of
    [deleteSubZone]; and [req.params.wardId] of the latter. *)
Definition idParam (req : Request) : string :=
  default EmptyString (reqParams req !! "id").

Definition wardIdParam (req : Request) : string :=
  default EmptyString (reqParams req !! "wardId").

(** Two wards; the first holds a sub-zone, an officer and a complaint, the
    second only a sub-zone. *)
Definition twoWardsDb : Db :=
  mkDb [mkUser "u7" "Ward Officer 1" "wardofficer1@kochi.gov.in" None
          "WARD_OFFICER" (Some "w1") None None true 0]
    [mkWard "w1" "Ward 1 - Fort Kochi" None true;
     mkWard "w2" "Ward 2 - Mattancherry" None true]
    [mkSubZone "z1" "Parade Ground" "w1" None true;
     mkSubZone "z2" "Jew Town" "w2" None true]
    [mkComplaint "c1" "KMC00001" "Water Supply Issue in Parade Ground"
       "Water Supply" "HIGH" ASSIGNED "w1" (Some "z1") (Some "u7") 0 0]
    [] [].

Definition wardRequest (id : string) : Request :=
  mkRequest ∅ {[ "id" := id ]} ∅ (Some "u1") [].

Definition subZoneRequest (wardId id : string) : Request :=
  mkRequest ∅ {[ "wardId" := wardId; "id" := id ]} ∅ (Some "u1") [].

End WardSpec.

Module ValidationSpec.
Import Validation.

(** The errors one chain adds to a request. *)
Definition chainErrors (db : Db) (chain : FieldChain) (req : Request)
    : list ValidationError :=
  drop (length (reqErrors req)) (reqErrors (runField db chain req)).

(** Whether a validator, a link, a chain reads the database. *)
Definition checkReadsDb (c : Check) : bool :=
  match c with Custom _ => true | _ => false end.

Definition stepReadsDb (s : Step) : bool :=
  match s with Validate c _ => checkReadsDb c | Trim => false end.

Definition chainReadsDb (chain : FieldChain) : bool :=
  existsb stepReadsDb (fcSteps chain).

Definition validationFailedReply (errors : list ValidationError) : Reply :=
  SendJson 400
    (envelope false "Validation failed"
       (JObj [("errors", JArr (map formatError errors))])).

Definition emptyDb : Db := mkDb [] [] [] [] [] [].



End ValidationSpec.

Module LifecycleSpec.
Import Validation SeedComplaints.

(** The lifecycle in the specification's words: REGISTERED, ASSIGNED,
    IN_PROGRESS, RESOLVED, CLOSED in this order, one step at a time, with
    REOPENED leading from a resolved or closed complaint back into the
    active states; the first log of a complaint has no previous status. *)
Definition permittedEdge (from : option ComplaintStatus) (to : ComplaintStatus)
    : bool :=
  match from, to with
  | None, REGISTERED => true
  | Some REGISTERED, ASSIGNED => true
  | Some ASSIGNED, IN_PROGRESS => true
  | Some IN_PROGRESS, RESOLVED => true
  | Some RESOLVED, CLOSED => true
  | Some RESOLVED, REOPENED => true
  | Some CLOSED, REOPENED => true
  | Some REOPENED, ASSIGNED => true
  | Some REOPENED, IN_PROGRESS => true
  | _, _ => false
  end.

(** The first chain of [validateComplaintUpdate]. *)
Definition statusChain : FieldChain :=
  mkFieldChain "status" true
    [Validate
       (IsIn ["REGISTERED"; "ASSIGNED"; "IN_PROGRESS"; "RESOLVED"; "CLOSED";
              "REOPENED"]) "Invalid status"].

Definition logEdge (l : StatusLog) : option ComplaintStatus * ComplaintStatus :=
  (slFromStatus l, slToStatus l).

Definition statusNames : list string := map statusName allStatuses.

Definition statusUpdateRequest (status : string) : Request :=
  mkRequest {[ "status" := status ]} {[ "id" := "c1" ]} ∅ (Some "u7") [].

Definition sampleSeedEnv (i : nat) : IterationEnv :=
  mkIterationEnv (7200000 + Z.of_nat i) (7200005 + Z.of_nat i)
    ("c" ++ pretty (Z.of_nat i))%string.

End LifecycleSpec.

Module UploadSpec.
Import GuestRoutes.

(** The extension the filter tests: lower-cased, without its dot. *)
Definition testedExtension (originalname : string) : string :=
  substring1 (toLowerCase (extname originalname)).

Definition acceptable (f : UploadedFile) : Prop :=
  fileFilter (ufOriginalName f) = Accept /\ ufSize f < fileSizeLimit.

Definition macroDocument : UploadedFile :=
  mkUploadedFile "report.docm" 2048 "1700000000000-42".

End UploadSpec.

Module EnvelopeSpec.



Definition repliesWithoutData (r : Reply) : Prop :=
  exists st b m, r = SendJson st (messageBody b m).



End EnvelopeSpec.

Module DataSliceSpec.
Import DataSlice.

(** The array of the last ward of the payload that has identifier [id] and
    an array of sub-zones. *)
Fixpoint lastArrayFor (id : string) (payload : list WardPayload)
    : option (list SubZone) :=
  match payload with
  | [] => None
  | w :: rest =>
      match lastArrayFor id rest with
      | Some zones => Some zones
      | None => if bool_decide (wpId w = id) then subZonesArray w else None
      end
  end.

Definition paradeGround : SubZone :=
  mkSubZone "z1" "Parade Ground" "w1" None true.

Definition shallowPayload : list WardPayload :=
  [mkWardPayload "w1" "Ward 1 - Fort Kochi" None true SubZonesAbsent;
   mkWardPayload "w2" "Ward 2 - Mattancherry" None true (SubZonesArray [])].

Definition deepPayload : list WardPayload :=
  [mkWardPayload "w1" "Ward 1 - Fort Kochi" None true
     (SubZonesArray [paradeGround]);
   mkWardPayload "w2" "Ward 2 - Mattancherry" None true (SubZonesArray [])].

Definition cachedState : DataState unit :=
  mkDataState
    (mkLocations None {[ "w5" := mkCachedData [paradeGround] 10 None ]}) tt.

End DataSliceSpec.

(** * Vocabulary and sample data of the further properties *)

Module BaseApiSpec.
Import BaseApi.

(** The four messages of the network branches of [getApiErrorMessage]. *)
Definition networkMessages : list string :=
  ["Cannot connect to the server. Please check your internet connection and try again.";
   "Request timed out. Please try again.";
   "Network connection error. Please check your connection and try again.";
   "Network request failed. Please try again."].

(** The error itself holds the text [m]: as [data.message], [data.error],
    [message], or in a string [data] (as the string, or as the [message] of
    the JSON it parses to). *)
Definition carries (jsonParse : string -> option Json) (error : option Json)
    (m : string) : Prop :=
  member "message" (member "data" error) = Some (JStr m) \/
  member "error" (member "data" error) = Some (JStr m) \/
  member "message" error = Some (JStr m) \/
  exists d, member "data" error = Some (JStr d) /\
            (d = m \/
             exists parsed, jsonParse d = Some parsed /\
                            jsonGet "message" parsed = Some (JStr m)).

(** The error RTK Query reports when the request could not be made. *)
Definition fetchError (status detail : string) : option Json :=
  Some (JObj [("status", JStr status); ("error", JStr detail)]).

Definition complaintA : JsObject :=
  {[ "id" := VStr "c1"; "status" := VStr "REGISTERED"; "ward" := VRef 7 ]}.
Definition complaintB : JsObject :=
  {[ "id" := VStr "c2"; "status" := VStr "ASSIGNED" ]}.
Definition statusPatch : JsObject :=
  {[ "id" := VStr "c1"; "status" := VStr "RESOLVED" ]}.

End BaseApiSpec.

Module DataCacheSpec.
Import DataSlice DataCache BaseApi.

(** A state whose complaint list holds two complaints and whose details
    record holds the first of them. *)
Definition complaintsState : State (Any := unit) :=
  setComplaintDetails 20 "c1" BaseApiSpec.complaintA
    (setComplaintsList 10
       [BaseApiSpec.complaintA; BaseApiSpec.complaintB] initialState).

(** An entry that [clearStaleData] keeps at the clock value [now]: at most
    [CACHE_TTL] old and not marked stale. *)
Definition fresh {T : Type} (now : Z) (cached : CachedData T) : Prop :=
  now - cdTimestamp cached <= CACHE_TTL /\ cdIsStale cached <> Some true.

(** A single place after the clearing holds what it held before, when that
    was fresh, and nothing otherwise. *)
Definition clearedEntry {T : Type} (now : Z)
    (before after : option (CachedData T)) : Prop :=
  forall cached, after = Some cached <-> before = Some cached /\ fresh now cached.

(** A details record after the clearing holds exactly the fresh entries it
    held before. *)
Definition clearedRecord {T : Type} (now : Z)
    (before after : gmap string (CachedData T)) : Prop :=
  forall id cached,
    after !! id = Some cached <-> before !! id = Some cached /\ fresh now cached.

End DataCacheSpec.

Module WardAdminSpec.
Import WardAdmin WardSpec.

(** What must be unique for [createSubZone]: the name within the ward. *)
Definition zoneKey (z : SubZone) : string * string := (szWardId z, szName z).

(** A request to the ward routes: the route parameters and the form. *)
Definition wardFormRequest (params body : list (string * string)) : Request :=
  mkRequest (list_to_map body) (list_to_map params) ∅ (Some "u1") [].

(** The ward query with [include=subzones]. *)
Definition deepRequest : Request :=
  mkRequest ∅ ∅ {[ "include" := "subzones" ]} None [].

(** One ward with two sub-zones, and the request that gives the second the
    name of the first. *)
Definition paradeGround : SubZone := mkSubZone "z1" "Parade Ground" "w1" None true.
Definition veli : SubZone := mkSubZone "z2" "Veli" "w1" None true.

Definition crowdedWardDb : Db :=
  mkDb [] [mkWard "w1" "Ward 1 - Fort Kochi" None true] [paradeGround; veli]
    [] [] [].

Definition renameRequest : Request :=
  wardFormRequest [("wardId", "w1"); ("id", "z2")] [("name", "Parade Ground")].

End WardAdminSpec.

Module UserAdminSpec.
Import UserAdmin UserSpec.

(** The sum of the counts of the groups. *)
Definition totalCount (groups : list (string * Z)) : Z :=
  fold_right Z.add 0 (map snd groups).

(** A request to deactivate the user [id]. *)
Definition deactivateRequest (id : string) : Request :=
  mkRequest {[ "isActive" := "false" ]} {[ "id" := id ]} ∅ (Some "u1") [].

(** The object [createUser] stores, as JSON text, in the password column
    of an account that awaits verification. *)
Definition verificationObject (tokenHash expireIso : string) : Json :=
  JObj [("resetPasswordToken", JStr tokenHash);
        ("resetPasswordExpire", JStr expireIso);
        ("isVerificationToken", JBool true)].

Definition verificationSent (data : Json) : Reply :=
  SendJson 201
    (envelope true "User created successfully. Verification email sent." data).

Definition invalidToken : Reply :=
  SendJson 400 (envelope false "Invalid or expired verification token" JNull).

(** The request of the verification link with the token [token]. *)
Definition verifyRequest (token password : string) : Request :=
  mkRequest {[ "password" := password ]} {[ "token" := token ]} ∅ None [].

(** The account [sampleCreateEnv] creates for a ward officer. *)
Definition sampleOfficer : User :=
  mkUser "u3" "Ward Officer 9" "wo9@kochi.gov.in" None "WARD_OFFICER" None
    None None true 1000.

(** Sample library functions for one token: the digest is the token
    itself, every date prints as the same text, and that text and the JSON
    text of the token are the only inputs parsed. *)
Definition sampleIso : string := "1970-01-02T00:00:01.000Z".

Definition sampleParse (text : string) : option Json :=
  if bool_decide
       (text = UserController.verificationTokenJson "c0ffee" sampleIso)
  then Some (verificationObject "c0ffee" sampleIso)
  else None.

Definition sampleDate (v : option Json) : option Z :=
  match v with
  | Some (JStr text) =>
      if bool_decide (text = sampleIso) then Some 86401000 else None
  | _ => None
  end.

End UserAdminSpec.

Module PasswordSpec.
Import UserController.

(** The twenty characters of the special-character rule; the last is the
    double quote. *)
Definition specialCharacters : list ascii :=
  list_ascii_of_string "!@#$%^&*(),.?:{}|<>" ++ [ascii_of_nat 34].

(** Some character of the password has the property [p]. *)
Definition holdsCharacter (p : ascii -> Prop) (password : string) : Prop :=
  exists a, a ∈ list_ascii_of_string password /\ p a.

(** The five rules of a strong password: at least eight UTF-16 code units,
    a letter from A to Z, a letter from a to z, a digit, and one of the
    special characters. *)
Definition strong (password : string) : Prop :=
  8 <= strLen password /\
  holdsCharacter (fun a => (65 <= nat_of_ascii a <= 90)%nat) password /\
  holdsCharacter (fun a => (97 <= nat_of_ascii a <= 122)%nat) password /\
  holdsCharacter (fun a => (48 <= nat_of_ascii a <= 57)%nat) password /\
  holdsCharacter (fun a => a ∈ specialCharacters) password.

Definition callerId (req : Request) : string :=
  default EmptyString (reqUserId req).

(** A user who signed in with a password changes it. *)
Definition changeRequest (old new : string) : Request :=
  mkRequest
    {[ "oldPassword" := old; "newPassword" := new; "confirmPassword" := new ]}
    ∅ ∅ (Some "u2") [].

End PasswordSpec.


Module WardFormSpec.
Import Validation.

(** The request with its recorded errors replaced. *)
Definition withErrors (req : Request) (errors : list ValidationError)
    : Request :=
  mkRequest (reqBody req) (reqParams req) (reqQuery req) (reqUserId req) errors.

(** The error a link records for the field value [v]. *)
Definition stepErrors (db : Db) (field : string) (v : option string)
    (step : Step) : list ValidationError :=
  match step with
  | Validate check message =>
      if checkHolds db check v then []
      else [mkValidationError field message v]
  | Trim => []
  end.

Definition fieldErrors (db : Db) (body : gmap string string)
    (chain : FieldChain) : list ValidationError :=
  if fcOptional chain && bool_decide (body !! fcField chain = None) then []
  else flat_map (stepErrors db (fcField chain) (body !! fcField chain))
         (fcSteps chain).

Definition isValidator (step : Step) : Prop :=
  match step with Validate _ _ => True | Trim => False end.

(** The field is present and the number of its characters (code points,
    variation selectors not counted) lies between [lo] and [hi]. *)
Definition lengthWithin (lo hi : Z) (v : option string) : Prop :=
  exists s, v = Some s /\ lo <= validatorLength s <= hi.

(** The field is absent, or one of the four spellings of a boolean. *)
Definition absentOrBoolean (v : option string) : Prop :=
  v = None \/ exists s, v = Some s /\ s ∈ ["true"; "false"; "1"; "0"].

Definition wardFormAccepted (body : gmap string string) : Prop :=
  lengthWithin 2 100 (body !! "name") /\
  lengthWithin 10 500 (body !! "description") /\
  absentOrBoolean (body !! "isActive").

Definition subZoneFormAccepted (body : gmap string string) : Prop :=
  lengthWithin 2 100 (body !! "name") /\
  (body !! "description" = None \/
   exists s, body !! "description" = Some s /\ validatorLength s <= 500) /\
  absentOrBoolean (body !! "isActive").

End WardFormSpec.

Module UploadNameSpec.
Import GuestRoutes.

(** An upload whose original name carries directories. *)
Definition traversingUpload : UploadedFile :=
  mkUploadedFile "../../etc/photo.JPG" 1000 "1700000000000-123456789".

End UploadNameSpec.

Module KochiSeedSpec.
Import Sla KochiSeed.

(** The values the draws of one loop iteration can take for a complaint
    type with [slaHours]: [randomInt(1, 6)], [randomInt(1, slaHours)],
    [Math.floor(slaHours * p)] for a [p] from one half to nine tenths, and
    [randomInt(1, 7)]. *)
Definition drawsInRange (slaHours assignHours breachHours withinHours
    closeDays : Z) : Prop :=
  1 <= assignHours <= 6 /\
  1 <= breachHours <= slaHours /\
  slaHours / 2 <= withinHours <= slaHours * 9 / 10 /\
  1 <= closeDays <= 7.






End KochiSeedSpec.
(** * Properties *)

(** ** Properties of the SLA computation *)

Module SlaFacts.
Import Sla SlaSpec.

Lemma daysRemaining_neg deadline now :
  (daysRemaining deadline now < 0)%Q <-> deadline < now.
Proof.
  unfold daysRemaining, Qlt, Qdiv, msPerDay. simpl. lia.
Qed.

Lemma daysRemaining_at_most_one deadline now :
  (daysRemaining deadline now <= 1)%Q <-> deadline <= now + 86400000.
Proof.
  unfold daysRemaining, Qle, Qdiv, msPerDay. simpl. lia.
Qed.

(** The body of [calculateSLAStatus] over the integers. *)
Lemma calculateSLAStatus_unfold now submittedOn deadline resolvedOn st :
  calculateSLAStatus now submittedOn deadline resolvedOn st =
    if isDone st then COMPLETED
    else if deadline <? now then OVERDUE
    else if deadline <=? now + 86400000 then WARNING
    else ON_TIME.
Proof.
  unfold calculateSLAStatus.
  assert (Hover : (if Qlt_le_dec (daysRemaining deadline now) 0 then true else false)
                  = (deadline <? now)).
  { destruct (Qlt_le_dec _ 0) as [Hlt | Hge]; symmetry.
    - apply Z.ltb_lt, daysRemaining_neg, Hlt.
    - apply Z.ltb_ge. destruct (Z.lt_ge_cases deadline now) as [Hc | Hc]; [|exact Hc].
      apply daysRemaining_neg in Hc. destruct (Qlt_not_le _ _ Hc Hge). }
  assert (Hwarn : Qle_bool (daysRemaining deadline now) 1
                  = (deadline <=? now + 86400000)).
  { apply eq_true_iff_eq.
    rewrite Qle_bool_iff, Z.leb_le. apply daysRemaining_at_most_one. }
  rewrite Hwarn.
  destruct st; simpl; try reflexivity;
    rewrite <- Hover;
    destruct (Qlt_le_dec _ 0); reflexivity.
Qed.

Lemma isDone_spec st : isDone st = true <-> st = RESOLVED \/ st = CLOSED.
Proof. destruct st; simpl; split; intros H; try discriminate; auto;
  destruct H as [H | H]; discriminate. Qed.

(** C1 (counterexample).  With the four arguments held fixed, two calls that
    read different clock values return different statuses, so the result is
    not a function of the submission time, the deadline and the resolution
    time (nor of these together with the current status). *)
Lemma sla_status_varies_with_clock :
  calculateSLAStatus 0 0 (addHours 0 48) None ASSIGNED = ON_TIME /\
  calculateSLAStatus (addHours 0 49) 0 (addHours 0 48) None ASSIGNED = OVERDUE /\
  ~ (exists f : Z -> Z -> option Z -> ComplaintStatus -> SLAStatus,
       forall now submittedOn deadline resolvedOn st,
         calculateSLAStatus now submittedOn deadline resolvedOn st
         = f submittedOn deadline resolvedOn st).
Proof.
  assert (H1 : calculateSLAStatus 0 0 (addHours 0 48) None ASSIGNED = ON_TIME)
    by (rewrite calculateSLAStatus_unfold; reflexivity).
  assert (H2 : calculateSLAStatus (addHours 0 49) 0 (addHours 0 48) None ASSIGNED
               = OVERDUE)
    by (rewrite calculateSLAStatus_unfold; reflexivity).
  split; [exact H1 | split; [exact H2 |]].
  intros [f Hf].
  rewrite Hf in H1. rewrite Hf in H2. congruence.
Qed.

(** C1 (amended).  For the clock value [now] read inside the call,
    [calculateSLAStatus] is determined by the deadline, the current status
    and [now]: COMPLETED exactly for RESOLVED and CLOSED, otherwise OVERDUE
    exactly when the deadline is before [now], WARNING exactly when at most
    one day remains, ON_TIME exactly when more than one day remains; the
    submission and resolution arguments do not influence it.  In the seeding
    loop the deadline is the submission time plus the type's SLA hours. *)
Theorem sla_status_of_deadline_status_and_clock :
  forall (now submittedOn deadline : Z) (resolvedOn : option Z)
         (st : ComplaintStatus),
    let r := calculateSLAStatus now submittedOn deadline resolvedOn st in
    (r = COMPLETED <-> st = RESOLVED \/ st = CLOSED) /\
    (r = OVERDUE <-> ~ (st = RESOLVED \/ st = CLOSED) /\ deadline < now) /\
    (r = WARNING <->
       ~ (st = RESOLVED \/ st = CLOSED) /\
       now <= deadline /\ deadline - now <= msPerDay) /\
    (r = ON_TIME <->
       ~ (st = RESOLVED \/ st = CLOSED) /\ msPerDay < deadline - now) /\
    (forall submittedOn' resolvedOn',
       calculateSLAStatus now submittedOn' deadline resolvedOn' st = r) /\
    (forall slaHours status assignHours breach breachHours withinHours closeDays,
       let d := seedDates now submittedOn slaHours status assignHours breach
                  breachHours withinHours closeDays in
       sdDeadline d = submittedOn + slaHours * 3600000 /\
       sdSlaStatus d =
         calculateSLAStatus now submittedOn (sdDeadline d)
           (orElse (sdResolvedOn d) (sdClosedOn d)) status).
Proof.
  intros now submittedOn deadline resolvedOn st r. subst r.
  rewrite calculateSLAStatus_unfold.
  pose proof (isDone_spec st) as Hd.
  unfold msPerDay.
  destruct (isDone st) eqn:Edone.
  - assert (Hst : st = RESOLVED \/ st = CLOSED) by (apply Hd; reflexivity).
    repeat split; try discriminate; try tauto.
    + intros. rewrite calculateSLAStatus_unfold, Edone. reflexivity.
    + unfold seedDates, addHours; simpl; lia.
  - assert (Hst : ~ (st = RESOLVED \/ st = CLOSED)).
    { intros H. apply Hd in H. discriminate. }
    destruct (Z.ltb_spec deadline now) as [Hlt | Hge];
      [| destruct (Z.leb_spec deadline (now + 86400000)) as [Hle | Hgt]];
      (repeat split; try discriminate; try tauto; try lia;
       try (intros; rewrite calculateSLAStatus_unfold, Edone;
            repeat match goal with
                   | |- context [?a <? ?b] => destruct (Z.ltb_spec a b); try lia
                   | |- context [?a <=? ?b] => destruct (Z.leb_spec a b); try lia
                   end; reflexivity);
       try (unfold seedDates, addHours; simpl; lia);
       try (intros [_ H]; lia); try (intros [_ [H1 H2]]; lia)).
Qed.

End SlaFacts.

(** ** Tables *)

Module TableFacts.

Section Lemmas.
Context {A : Type}.
Implicit Types (p q : A -> bool) (f : A -> A) (l : list A).

Lemma updateFirst_map {B} (g : A -> B) p f l :
  (forall x, g (f x) = g x) -> map g (updateFirst p f l) = map g l.
Proof.
  intros Hg. induction l as [| x l IH]; simpl; [reflexivity |].
  destruct (p x); simpl; [rewrite Hg | rewrite IH]; reflexivity.
Qed.

Lemma updateFirst_none p f l :
  List.find p l = None -> updateFirst p f l = l.
Proof.
  induction l as [| x l IH]; simpl; [reflexivity |].
  destruct (p x); [discriminate |]. intros H. rewrite IH; auto.
Qed.

(** When a row matches, [updateFirst] rewrites exactly the row [List.find]
    returns. *)
Lemma updateFirst_some p f l x :
  List.find p l = Some x ->
  exists l1 l2, l = l1 ++ x :: l2 /\ updateFirst p f l = l1 ++ f x :: l2 /\
                List.find p l1 = None.
Proof.
  induction l as [| y l IH]; simpl; [discriminate |].
  destruct (p y) eqn:Hy.
  - intros [= ->]. exists [], l. auto.
  - intros H. destruct (IH H) as (l1 & l2 & -> & -> & Hn).
    exists (y :: l1), l2. simpl. rewrite Hy. auto.
Qed.

Lemma find_some_holds p l x : List.find p l = Some x -> x ∈ l /\ p x = true.
Proof.
  intros H. apply List.find_some in H as [Hin Hp].
  split; [apply list_elem_of_In, Hin | exact Hp].
Qed.

Lemma find_none_all p l x : List.find p l = None -> x ∈ l -> p x = false.
Proof.
  intros H Hin. apply (List.find_none _ _ H), list_elem_of_In, Hin.
Qed.

Lemma deleteFirst_sublist p l : sublist (deleteFirst p l) l.
Proof.
  induction l as [| x l IH]; simpl; [constructor |].
  destruct (p x); [apply sublist_cons, reflexivity | apply sublist_skip, IH].
Qed.

Lemma deleteFirst_elem p l x : x ∈ deleteFirst p l -> x ∈ l.
Proof. apply (sublist_subseteq _ _ (deleteFirst_sublist p l)). Qed.


Lemma countWhere_app q l1 l2 :
  countWhere q (l1 ++ l2) = countWhere q l1 + countWhere q l2.
Proof.
  unfold countWhere. rewrite List.filter_app, length_app. lia.
Qed.

Lemma countWhere_cons q x l :
  countWhere q (x :: l) = (if q x then 1 else 0) + countWhere q l.
Proof.
  unfold countWhere. simpl. destruct (q x); simpl; lia.
Qed.

Lemma countWhere_nonneg q l : 0 <= countWhere q l.
Proof. unfold countWhere. lia. Qed.

Lemma countWhere_zero q l :
  countWhere q l = 0 <-> forall x, x ∈ l -> q x = false.
Proof.
  induction l as [| y l IH].
  - split; [intros _ x Hx; inversion Hx | reflexivity].
  - rewrite countWhere_cons. pose proof (countWhere_nonneg q l). split.
    + intros H0 x Hx. destruct (q y) eqn:Hy; [lia |].
      apply elem_of_cons in Hx as [-> | Hx]; [exact Hy |].
      apply IH; [lia | exact Hx].
    + intros Hall. rewrite (Hall y) by left.
      assert (countWhere q l = 0) by (apply IH; intros x Hx; apply Hall; right; exact Hx).
      lia.
Qed.

(** Rewriting one row changes a count by at most one. *)
Lemma countWhere_updateFirst_ge q p f l :
  countWhere q l - 1 <= countWhere q (updateFirst p f l).
Proof.
  destruct (List.find p l) as [x |] eqn:Hf.
  - destruct (updateFirst_some p f l x Hf) as (l1 & l2 & -> & -> & _).
    rewrite !countWhere_app, !countWhere_cons.
    destruct (q x), (q (f x)); lia.
  - rewrite updateFirst_none by exact Hf. lia.
Qed.

Lemma countWhere_updateFirst_same q p f l x :
  List.find p l = Some x -> q (f x) = q x ->
  countWhere q (updateFirst p f l) = countWhere q l.
Proof.
  intros Hf Hq.
  destruct (updateFirst_some p f l x Hf) as (l1 & l2 & -> & -> & _).
  rewrite !countWhere_app, !countWhere_cons, Hq. reflexivity.
Qed.

End Lemmas.
End TableFacts.

(** ** User management *)

Module UserFacts.
Import UserController UserSpec TableFacts.

Lemma countWhere_activeAdministrators us :
  countWhere isActiveAdmin us = Z.of_nat (length (activeAdministrators us)).
Proof.
  unfold countWhere, activeAdministrators. f_equal. f_equal.
  apply List.filter_ext. intros u. unfold isActiveAdmin.
  destruct (decide (uRole u = "ADMINISTRATOR")) as [Hr | Hr],
           (uIsActive u) eqn:Ha.
  - rewrite !bool_decide_eq_true_2 by auto. reflexivity.
  - rewrite bool_decide_eq_true_2 by exact Hr.
    rewrite bool_decide_eq_false_2 by (intros [_ H]; discriminate). reflexivity.
  - rewrite !bool_decide_eq_false_2 by tauto. reflexivity.
  - rewrite !bool_decide_eq_false_2 by tauto. reflexivity.
Qed.

(** C9.  [deleteUser] never removes a user row: the ids of the table are
    the same list.  For an id that no user has it answers 404 and changes
    nothing.  For an administrator, when at most one user is an active
    administrator, it answers 400 and changes nothing.  Otherwise it
    answers 200 and replaces the row it found by the same row with
    [isActive] false, every other row and every other table staying as they
    were.  So a table with an active administrator still has one
    afterwards. *)
Theorem deleteUser_soft_delete_keeps_an_admin :
  forall (req : Request) (db : Db),
    let reply := fst (deleteUser req db) in
    let db' := snd (deleteUser req db) in
    map uId (users db') = map uId (users db) /\
    ((1 <= length (activeAdministrators (users db)))%nat ->
     (1 <= length (activeAdministrators (users db')))%nat) /\
    (List.find (hasId (targetId req)) (users db) = None ->
     replyStatus reply = Some 404 /\ db' = db) /\
    (forall user,
       List.find (hasId (targetId req)) (users db) = Some user ->
       (uRole user = "ADMINISTRATOR" ->
        (length (activeAdministrators (users db)) <= 1)%nat ->
        reply = SendJson 400
                  (envelope false "Cannot delete the last administrator" JNull)
        /\ db' = db) /\
       (~ (uRole user = "ADMINISTRATOR" /\
           (length (activeAdministrators (users db)) <= 1)%nat) ->
        reply = SendJson 200
                  (envelope true "User deactivated successfully" JNull) /\
        exists l1 l2 user',
          users db = l1 ++ user :: l2 /\
          deactivated user user' /\
          uIsActive user' = false /\
          db' = withUsers db (l1 ++ user' :: l2))).
Proof.
  intros req db reply db'. subst reply db'. unfold deleteUser. fold (targetId req).
  pose proof (countWhere_activeAdministrators (users db)) as Hcount0.
  destruct (List.find (hasId (targetId req)) (users db)) as [user |] eqn:Hfind.
  - destruct (bool_decide (uRole user = "ADMINISTRATOR")
              && (countWhere isActiveAdmin (users db) <=? 1)) eqn:Hguard; simpl.
    + apply andb_true_iff in Hguard as [Hrole Hcount].
      apply bool_decide_eq_true in Hrole. apply Z.leb_le in Hcount.
      split; [reflexivity |]. split; [auto |]. split; [discriminate |].
      intros u [= <-]. split; [auto |]. intros Hn. destruct Hn.
      split; [exact Hrole | lia].
    + assert (Hn : ~ (uRole user = "ADMINISTRATOR" /\
                      countWhere isActiveAdmin (users db) <= 1)).
      { intros [Hrole Hcount]. apply andb_false_iff in Hguard as [H | H].
        - apply bool_decide_eq_false in H. auto.
        - apply Z.leb_gt in H. lia. }
      split; [apply updateFirst_map; reflexivity |].
      split.
      { intros Hone.
        assert (Hgoal : 1 <= countWhere isActiveAdmin
                               (updateFirst (hasId (targetId req))
                                  (setIsActive false) (users db))).
        { destruct (bool_decide (uRole user = "ADMINISTRATOR")) eqn:Hrole.
          - simpl in Hguard. apply Z.leb_gt in Hguard.
            pose proof (countWhere_updateFirst_ge isActiveAdmin
                          (hasId (targetId req)) (setIsActive false) (users db)).
            lia.
          - rewrite (countWhere_updateFirst_same _ _ _ _ user Hfind); [lia |].
            unfold isActiveAdmin. simpl. rewrite Hrole. reflexivity. }
        rewrite countWhere_activeAdministrators in Hgoal. lia. }
      split; [discriminate |].
      intros u [= <-]. split.
      * intros Hrole Hcount. destruct Hn. split; [exact Hrole | lia].
      * intros _. split; [reflexivity |].
        destruct (updateFirst_some _ (setIsActive false) _ _ Hfind)
          as (l1 & l2 & Hl & Hu & _).
        exists l1, l2, (setIsActive false user). rewrite Hu.
        split; [exact Hl |]. split; [reflexivity |]. split; reflexivity.
  - simpl. split; [reflexivity |]. split; [auto |]. split; [auto |].
    intros u [=].
Qed.

(** The last administrator cannot be deactivated; a citizen can, its row
    then has [isActive] false, and an active administrator remains. *)
Lemma deleteUser_soft_delete_witness :
  fst (deleteUser (deleteRequest "u1") soleAdminDb)
  = SendJson 400 (envelope false "Cannot delete the last administrator" JNull)
  /\ snd (deleteUser (deleteRequest "u1") soleAdminDb) = soleAdminDb
  /\ (1 <= length (activeAdministrators
                     (users (snd (deleteUser (deleteRequest "u2") soleAdminDb)))))%nat
  /\ (uIsActive <$> users (snd (deleteUser (deleteRequest "u2") soleAdminDb)))
     = [true; false].
Proof.
  pose proof (deleteUser_soft_delete_keeps_an_admin (deleteRequest "u1") soleAdminDb)
    as (_ & _ & _ & H1).
  pose proof (deleteUser_soft_delete_keeps_an_admin (deleteRequest "u2") soleAdminDb)
    as (_ & H2 & _ & H3).
  destruct (H1 (mkUser "u1" "Asha Admin" "admin@kochi.gov.in" None "ADMINISTRATOR"
                  None None (Some "$2a$10$abc") true 0)) as [Ha _];
    [vm_compute; reflexivity |].
  destruct Ha as [Hr Hd]; [reflexivity | vm_compute; lia |].
  split; [exact Hr | split; [exact Hd |]].
  split; [apply H2; vm_compute; lia |].
  destruct (H3 (mkUser "u2" "Citizen User 1" "citizen1@example.com" None "CITIZEN"
                  None None (Some "$2a$10$def") true 0)) as [_ Hb];
    [vm_compute; reflexivity |].
  destruct Hb as (_ & l1 & l2 & user' & Hl & Hd' & Hfalse & Hdb);
    [intros [Hrole _]; discriminate |].
  reflexivity.
Defined.




Section CreateUser.
Variable sha256hex : string -> string.
Variable toISOString : Z -> string.



End CreateUser.


End UserFacts.

(** ** Password-setup OTP *)

Module OtpFacts.
Import UserController OtpProtocol TableFacts.







(** *** The verified flag is never cleared *)






Section Runs.
Variable jsonParses : string -> bool.




End Runs.

(** *** One verification request *)







(** *** The flow maintains its invariant *)









Section Flow.
Variable jsonParses : string -> bool.





End Flow.

(** *** After a success *)






Section Later.
Variable jsonParses : string -> bool.






End Later.

(** *** Single use *)




End OtpFacts.

(** ** Ward and sub-zone deletion *)

Module WardFacts.
Import WardController WardSpec TableFacts.

Lemma none_counted {A} (p : A -> bool) (l : list A) :
  (0 <? countWhere p l) = false <-> forall x, x ∈ l -> p x = false.
Proof.
  rewrite <- countWhere_zero. pose proof (countWhere_nonneg p l).
  rewrite Z.ltb_ge. lia.
Qed.

Lemma deleteFirst_keeps {A} (p : A -> bool) (l : list A) x :
  x ∈ l -> p x = false -> x ∈ deleteFirst p l.
Proof.
  induction l as [| y l IH]; intros Hin Hp; [inversion Hin |].
  simpl. apply elem_of_cons in Hin as [-> | Hin].
  - rewrite Hp. left.
  - destruct (p y); [exact Hin | right; apply IH; assumption].
Qed.

Lemma elem_of_filter_bool {A} (p : A -> bool) (l : list A) x :
  x ∈ List.filter p l <-> x ∈ l /\ p x = true.
Proof. rewrite !list_elem_of_In. apply List.filter_In. Qed.

Lemma wardExists_after_delete db wards' wardId id :
  wards' = deleteFirst (fun w => bool_decide (wId w = wardId)) (wards db) ->
  id <> wardId -> wardExists db id ->
  exists w, w ∈ wards' /\ wId w = id.
Proof.
  intros -> Hne (w & Hin & Hid). exists w. split; [| exact Hid].
  apply deleteFirst_keeps; [exact Hin |].
  apply bool_decide_eq_false. congruence.
Qed.

Lemma filter_nil_none {A} (p : A -> bool) (l : list A) x :
  List.filter p l = [] -> x ∈ l -> p x = false.
Proof.
  intros Hnil Hin. destruct (p x) eqn:Hp; [| reflexivity].
  assert (Hx : x ∈ List.filter p l) by (apply elem_of_filter_bool; auto).
  rewrite Hnil in Hx. inversion Hx.
Qed.

(** [prisma.ward.delete] keeps the references to the other wards valid,
    and leaves no sub-zone of the deleted ward behind, provided no complaint
    references the deleted ward. *)
Lemma wardDelete_integrity zact act wardId db db' :
  wardDelete zact act wardId db = Some db' ->
  (forall c, c ∈ complaints db -> cWardId c <> wardId) ->
  referentialIntegrity db -> referentialIntegrity db'.
Proof.
  intros Hdel Hnone [Hz Hc]. unfold wardDelete in Hdel.
  assert (Hzones : forall ws zs,
            ws = deleteFirst (fun w => bool_decide (wId w = wardId)) (wards db) ->
            zs = List.filter (fun z => negb (bool_decide (szWardId z = wardId)))
                   (subZones db) ->
            forall z, z ∈ zs -> exists w, w ∈ ws /\ wId w = szWardId z).
  { intros ws zs Hws -> z Hin. apply elem_of_filter_bool in Hin as [Hin Hkeep].
    apply negb_true_iff, bool_decide_eq_false in Hkeep.
    apply (wardExists_after_delete db ws wardId); auto. }
  destruct zact.
  - destruct act.
    + injection Hdel as <-. split; simpl.
      * intros z Hin. apply (Hzones _ _ eq_refl eq_refl z Hin).
      * intros c Hin. change (map ?g ?l) with (g <$> l) in Hin.
        apply list_elem_of_fmap in Hin as (c0 & -> & Hin0).
        assert (Hw : forall b : bool,
                  cWardId (if b then clearSubZone c0 else c0) = cWardId c0)
          by (intros []; reflexivity).
        rewrite Hw.
        apply (wardExists_after_delete db _ wardId); auto.
    + destruct (existsb _ (complaints db)); [discriminate |].
      injection Hdel as <-. split; simpl.
      * intros z Hin. apply (Hzones _ _ eq_refl eq_refl z Hin).
      * intros c Hin. apply (wardExists_after_delete db _ wardId); auto.
  - destruct (bool_decide _) eqn:Hnil; [| discriminate].
    apply bool_decide_eq_true in Hnil. injection Hdel as <-. split; simpl.
    + intros z Hin. apply (wardExists_after_delete db _ wardId); auto.
      pose proof (filter_nil_none _ _ z Hnil Hin) as Hne. simpl in Hne.
      apply bool_decide_eq_false in Hne. exact Hne.
    + intros c Hin. apply (wardExists_after_delete db _ wardId); auto.
Qed.

(** C5.  [deleteWard] removes a ward only when no user and no complaint
    references it; when the ward exists and is referenced it answers 400 and
    changes nothing.  [deleteSubZone] removes a sub-zone only when it belongs
    to the given ward and no complaint references it.  Unless a reply has
    status 200 the database is unchanged, and after either handler every
    sub-zone and every complaint still references an existing ward. *)
Theorem ward_deletes_preserve_integrity :
  forall (zact : ZoneAction) (act : RefAction) (req : Request) (db : Db),
    let rw := deleteWard zact act req db in
    let rz := deleteSubZone req db in
    (replyStatus (fst rw) = Some 200 ->
     (forall u, u ∈ users db -> uWardId u <> Some (idParam req)) /\
     (forall c, c ∈ complaints db -> cWardId c <> idParam req) /\
     wards (snd rw)
     = deleteFirst (fun w => bool_decide (wId w = idParam req)) (wards db)) /\
    (wardExists db (idParam req) ->
     (exists u, u ∈ users db /\ uWardId u = Some (idParam req)) \/
     (exists c, c ∈ complaints db /\ cWardId c = idParam req) ->
     replyStatus (fst rw) = Some 400 /\ snd rw = db) /\
    (replyStatus (fst rw) <> Some 200 -> snd rw = db) /\
    (referentialIntegrity db -> referentialIntegrity (snd rw)) /\
    (replyStatus (fst rz) = Some 200 ->
     exists z,
       List.find (fun z => bool_decide (szId z = idParam req)) (subZones db)
       = Some z /\
       szWardId z = wardIdParam req /\
       (forall c, c ∈ complaints db -> cSubZoneId c <> Some (idParam req)) /\
       snd rz
       = withSubZones db
           (deleteFirst (fun z => bool_decide (szId z = idParam req))
              (subZones db))) /\
    (replyStatus (fst rz) <> Some 200 -> snd rz = db) /\
    (referentialIntegrity db -> referentialIntegrity (snd rz)).
Proof.
  intros zact act req db rw rz. subst rw rz.
  unfold deleteWard, deleteSubZone.
  fold (idParam req). fold (wardIdParam req).
  set (wid := idParam req).
  (* deleteWard *)
  assert (Hward :
    let rw :=
      match List.find (fun w => bool_decide (wId w = wid)) (wards db) with
      | Some _ =>
          if 0 <? countWhere (fun u => bool_decide (uWardId u = Some wid)) (users db)
          then (SendJson 400
                  (messageBody false
                     "Cannot delete ward. There are users assigned to this ward."),
                db)
          else if 0 <? countWhere (fun c => bool_decide (cWardId c = wid))
                         (complaints db)
          then (SendJson 400
                  (messageBody false
                     "Cannot delete ward. There are complaints assigned to this ward."),
                db)
          else match wardDelete zact act wid db with
               | Some db' =>
                   (SendJson 200 (messageBody true "Ward deleted successfully"), db')
               | None => (Thrown "Foreign key constraint failed", db)
               end
      | None => (SendJson 404 (messageBody false "Ward not found"), db)
      end in
    (replyStatus (fst rw) = Some 200 ->
     (forall u, u ∈ users db -> uWardId u <> Some wid) /\
     (forall c, c ∈ complaints db -> cWardId c <> wid) /\
     wards (snd rw)
     = deleteFirst (fun w => bool_decide (wId w = wid)) (wards db)) /\
    (wardExists db wid ->
     (exists u, u ∈ users db /\ uWardId u = Some wid) \/
     (exists c, c ∈ complaints db /\ cWardId c = wid) ->
     replyStatus (fst rw) = Some 400 /\ snd rw = db) /\
    (replyStatus (fst rw) <> Some 200 -> snd rw = db) /\
    (referentialIntegrity db -> referentialIntegrity (snd rw))).
  { destruct (List.find _ (wards db)) as [w |] eqn:Hfind; simpl.
    - destruct (0 <? countWhere _ (users db)) eqn:Husers; simpl.
      { split; [discriminate |]. split; [auto |]. split; auto. }
      destruct (0 <? countWhere _ (complaints db)) eqn:Hcompl; simpl.
      { split; [discriminate |]. split; [auto |]. split; auto. }
      pose proof (proj1 (none_counted _ _) Husers) as Hnu.
      pose proof (proj1 (none_counted _ _) Hcompl) as Hnc.
      assert (Hnu' : forall u, u ∈ users db -> uWardId u <> Some wid)
        by (intros u Hu; apply (proj1 (bool_decide_eq_false _)), (Hnu u Hu)).
      assert (Hnc' : forall c, c ∈ complaints db -> cWardId c <> wid)
        by (intros c Hc; apply (proj1 (bool_decide_eq_false _)), (Hnc c Hc)).
      assert (Hguard : (exists u, u ∈ users db /\ uWardId u = Some wid) \/
                       (exists c, c ∈ complaints db /\ cWardId c = wid) -> False).
      { intros [(u & Hu & He) | (c & Hc & He)];
          [apply (Hnu' u Hu He) | apply (Hnc' c Hc He)]. }
      destruct (wardDelete zact act wid db) as [db' |] eqn:Hdel; simpl.
      + split.
        { intros _. split; [exact Hnu' |]. split; [exact Hnc' |].
          unfold wardDelete in Hdel. destruct zact; [destruct act |].
          - injection Hdel as <-. reflexivity.
          - destruct (existsb _ _); [discriminate |]. injection Hdel as <-.
            reflexivity.
          - destruct (bool_decide _); [| discriminate]. injection Hdel as <-.
            reflexivity. }
        split; [intros _ H; destruct (Hguard H) |].
        split; [intros H; destruct H; reflexivity |].
        apply (wardDelete_integrity zact act wid db db' Hdel Hnc').
      + split; [discriminate |].
        split; [intros _ H; destruct (Hguard H) |]. split; auto.
    - split; [discriminate |]. split; [| split; auto].
      intros (w & Hin & Hid) _. exfalso.
      pose proof (find_none_all _ _ w Hfind Hin) as Hf.
      apply bool_decide_eq_false in Hf. auto. }
  destruct Hward as (Hw1 & Hw2 & Hw3 & Hw4).
  split; [exact Hw1 |]. split; [exact Hw2 |]. split; [exact Hw3 |].
  split; [exact Hw4 |]. clear Hw1 Hw2 Hw3 Hw4.
  (* deleteSubZone *)
  destruct (List.find (fun w => bool_decide (wId w = wardIdParam req))
              (wards db)) as [w |]; simpl;
    [| split; [discriminate | split; auto]].
  destruct (List.find (fun z => bool_decide (szId z = wid)) (subZones db))
    as [z |] eqn:Hz; simpl; [| split; [discriminate | split; auto]].
  destruct (negb (bool_decide (szWardId z = wardIdParam req))) eqn:Hbelongs;
    simpl; [split; [discriminate | split; auto] |].
  destruct (0 <? countWhere _ (complaints db)) eqn:Hcompl; simpl;
    [split; [discriminate | split; auto] |].
  apply negb_false_iff, bool_decide_eq_true in Hbelongs.
  pose proof (proj1 (none_counted _ _) Hcompl) as Hnc.
  split.
  { intros _. exists z. split; [reflexivity |]. split; [exact Hbelongs |].
    split; [| reflexivity].
    intros c Hc. apply (proj1 (bool_decide_eq_false _)), (Hnc c Hc). }
  split; [intros H; destruct H; reflexivity |].
  intros [Hzs Hcs]. split; simpl.
  - intros z' Hin. apply Hzs. eapply deleteFirst_elem, Hin.
  - exact Hcs.
Qed.

(** A ward with an officer is kept; the other ward and its sub-zone go, and
    the references stay valid. *)
Lemma ward_deletes_witness :
  fst (deleteWard CascadeZones SetNull (wardRequest "w1") twoWardsDb)
  = SendJson 400
      (messageBody false
         "Cannot delete ward. There are users assigned to this ward.")
  /\ snd (deleteWard CascadeZones SetNull (wardRequest "w1") twoWardsDb) = twoWardsDb
  /\ replyStatus (fst (deleteWard CascadeZones SetNull (wardRequest "w2") twoWardsDb)) = Some 200
  /\ referentialIntegrity (snd (deleteWard CascadeZones SetNull (wardRequest "w2") twoWardsDb))
  /\ referentialIntegrity
       (snd (deleteSubZone (subZoneRequest "w2" "z2") twoWardsDb)).
Proof.
  assert (Hint : referentialIntegrity twoWardsDb).
  { split.
    - intros z Hz. apply list_elem_of_In in Hz. simpl in Hz.
      destruct Hz as [<- | [<- | []]];
        [exists (mkWard "w1" "Ward 1 - Fort Kochi" None true)
        | exists (mkWard "w2" "Ward 2 - Mattancherry" None true)];
        (split; [apply list_elem_of_In; simpl; auto | reflexivity]).
    - intros c Hc. apply list_elem_of_In in Hc. simpl in Hc.
      destruct Hc as [<- | []].
      exists (mkWard "w1" "Ward 1 - Fort Kochi" None true).
      split; [apply list_elem_of_In; simpl; auto | reflexivity]. }
  pose proof (ward_deletes_preserve_integrity CascadeZones SetNull (wardRequest "w1") twoWardsDb)
    as (_ & _ & H1 & _).
  pose proof (ward_deletes_preserve_integrity CascadeZones SetNull (wardRequest "w2") twoWardsDb)
    as (_ & _ & _ & H2 & _).
  pose proof (ward_deletes_preserve_integrity CascadeZones SetNull (subZoneRequest "w2" "z2")
                twoWardsDb) as (_ & _ & _ & _ & _ & _ & H3).
  split; [reflexivity |].
  split; [apply H1; vm_compute; discriminate |].
  split; [reflexivity |].
  split; [apply H2, Hint | apply H3, Hint].
Defined.

End WardFacts.

(** ** Validation middleware *)

Module ValidationFacts.
Import Validation ValidationSpec.

(** A chain only appends errors, each carrying the chain's field and the
    message of one of its validators. *)
Lemma runSteps_errors db field steps : forall req,
  exists es,
    reqErrors (runSteps db field steps req) = reqErrors req ++ es /\
    forall e, e ∈ es ->
      vePath e = field /\ exists check, Validate check (veMsg e) ∈ steps.
Proof.
  induction steps as [| step steps IH]; intros req; simpl.
  - exists []. rewrite app_nil_r. split; [reflexivity |]. intros e He. inversion He.
  - destruct step as [| check message].
    + destruct (IH (setBodyField field (jsTrim <$> reqBody req !! field) req))
        as (es & Hes & Hall).
      exists es. split; [exact Hes |].
      intros e He. destruct (Hall e He) as (Hp & c & Hc).
      split; [exact Hp |]. exists c. right. exact Hc.
    + destruct (checkHolds db check (reqBody req !! field)).
      * destruct (IH req) as (es & Hes & Hall).
        exists es. split; [exact Hes |].
        intros e He. destruct (Hall e He) as (Hp & c & Hc).
        split; [exact Hp |]. exists c. right. exact Hc.
      * destruct (IH (addError
                        (mkValidationError field message (reqBody req !! field))
                        req)) as (es & Hes & Hall).
        exists (mkValidationError field message (reqBody req !! field) :: es).
        split; [rewrite Hes; simpl; rewrite <- app_assoc; reflexivity |].
        intros e He. apply elem_of_cons in He as [-> | He].
        -- split; [reflexivity |]. exists check. left.
        -- destruct (Hall e He) as (Hp & c & Hc).
           split; [exact Hp |]. exists c. right. exact Hc.
Qed.

Lemma runField_errors db chain req :
  reqErrors (runField db chain req) = reqErrors req ++ chainErrors db chain req /\
  forall e, e ∈ chainErrors db chain req ->
    vePath e = fcField chain /\
    exists check, Validate check (veMsg e) ∈ fcSteps chain.
Proof.
  unfold chainErrors, runField.
  destruct (fcOptional chain && bool_decide (reqBody req !! fcField chain = None)).
  - rewrite drop_all, app_nil_r. split; [reflexivity |]. intros e He. inversion He.
  - destruct (runSteps_errors db (fcField chain) (fcSteps chain) req)
      as (es & Hes & Hall).
    rewrite Hes, drop_app_length. split; [reflexivity | exact Hall].
Qed.

Lemma runFields_app db chains1 chains2 req :
  runFields db (chains1 ++ chains2) req
  = runFields db chains2 (runFields db chains1 req).
Proof. unfold runFields. apply fold_left_app. Qed.

Lemma runFields_errors db chains : forall req,
  exists es,
    reqErrors (runFields db chains req) = reqErrors req ++ es /\
    (forall e, e ∈ es ->
       exists chain check,
         chain ∈ chains /\ vePath e = fcField chain /\
         Validate check (veMsg e) ∈ fcSteps chain) /\
    (es <> [] ->
     exists before chain after,
       chains = before ++ chain :: after /\
       chainErrors db chain (runFields db before req) <> []).
Proof.
  induction chains as [| chain chains IH] using rev_ind; intros req.
  - exists []. simpl. rewrite app_nil_r. split; [reflexivity |].
    split; [intros e He; inversion He | intros H; destruct H; reflexivity].
  - rewrite runFields_app. simpl.
    destruct (IH req) as (es & Hes & Hall & Hsome).
    destruct (runField_errors db chain (runFields db chains req)) as [Hrun Hchain].
    exists (es ++ chainErrors db chain (runFields db chains req)).
    split; [rewrite Hrun, Hes, app_assoc; reflexivity |].
    split.
    + intros e He. apply elem_of_app in He as [He | He].
      * destruct (Hall e He) as (c & check & Hin & Hp & Hv).
        exists c, check. split; [apply elem_of_app; left; exact Hin | auto].
      * destruct (Hchain e He) as (Hp & check & Hv).
        exists chain, check.
        split; [apply elem_of_app; right; left | auto].
    + intros Hne.
      destruct (chainErrors db chain (runFields db chains req)) as [| e0 es0] eqn:Hce.
      * rewrite app_nil_r in Hne.
        destruct (Hsome Hne) as (before & c & after & -> & Hc).
        exists before, c, (after ++ [chain]).
        split; [rewrite <- app_assoc; reflexivity | exact Hc].
      * exists chains, chain, []. split; [reflexivity |].
        rewrite Hce. discriminate.
Qed.

(** Chains without custom validators give the same result on every
    database. *)
Lemma runSteps_db_free db db' field steps : forall req,
  existsb stepReadsDb steps = false ->
  runSteps db field steps req = runSteps db' field steps req.
Proof.
  induction steps as [| step steps IH]; intros req Hfree; [reflexivity |].
  simpl in Hfree. apply orb_false_iff in Hfree as [Hstep Hrest].
  destruct step as [| check message]; simpl.
  - apply IH, Hrest.
  - assert (Hc : checkHolds db check (reqBody req !! field)
                 = checkHolds db' check (reqBody req !! field))
      by (destruct check; try reflexivity; discriminate).
    rewrite Hc. apply IH, Hrest.
Qed.

Lemma runFields_db_free db db' chains : forall req,
  existsb chainReadsDb chains = false ->
  runFields db chains req = runFields db' chains req.
Proof.
  induction chains as [| chain chains IH]; intros req Hfree; [reflexivity |].
  simpl in Hfree. apply orb_false_iff in Hfree as [Hchain Hrest].
  unfold runFields in *. simpl.
  assert (Hfield : runField db chain req = runField db' chain req).
  { unfold runField. rewrite (runSteps_db_free db db' _ _ req Hchain).
    reflexivity. }
  rewrite Hfield. apply IH, Hrest.
Qed.


Lemma route_with_errors chains controller req db :
  reqErrors (runFields db chains req) <> [] ->
  route chains controller req db
  = (validationFailedReply (reqErrors (runFields db chains req)), db).
Proof.
  intros Hne. unfold route, handleValidationErrors.
  rewrite bool_decide_eq_false_2 by exact Hne. reflexivity.
Qed.




End ValidationFacts.

(** ** Status values and recorded transitions *)

Module LifecycleFacts.
Import Validation ValidationSpec SeedComplaints LifecycleSpec ValidationFacts.

Lemma seed_logs_fold env (rounds : list nat) : forall db,
  statusLogs (fold_left (fun d i => seedIteration i (env i) d) rounds db)
  = statusLogs db ++ flat_map (fun i => iterationLogs (env i)) rounds.
Proof.
  induction rounds as [| i rounds IH]; intros db; simpl.
  - rewrite app_nil_r. reflexivity.
  - rewrite IH. simpl. rewrite <- app_assoc. reflexivity.
Qed.

Lemma main_logs env db :
  statusLogs (main env db)
  = statusLogs db ++ flat_map (fun i => iterationLogs (env i)) (seq 0 5).
Proof. apply seed_logs_fold. Qed.

Lemma status_chain_errors db req s :
  reqBody req !! "status" = Some s ->
  chainErrors db statusChain req
  = if bool_decide (s ∈ statusNames) then []
    else [mkValidationError "status" "Invalid status" (Some s)].
Proof.
  intros Hs. unfold chainErrors, runField, statusChain. simpl.
  rewrite Hs. simpl.
  change (bool_decide (s ∈ ["REGISTERED"; "ASSIGNED"; "IN_PROGRESS"; "RESOLVED";
                            "CLOSED"; "REOPENED"]))
    with (bool_decide (s ∈ statusNames)).
  destruct (bool_decide (s ∈ statusNames)); simpl.
  - apply drop_all.
  - apply drop_app_length.
Qed.

(** The errors of [validateComplaintUpdate] are those of the status chain
    followed by errors on the other three fields. *)
Lemma complaint_update_errors db req :
  reqErrors req = [] ->
  exists rest,
    reqErrors (runFields db validateComplaintUpdate req)
    = chainErrors db statusChain req ++ rest /\
    forall e, e ∈ rest -> vePath e <> "status".
Proof.
  intros Hnil.
  change validateComplaintUpdate with ([statusChain] ++ tl validateComplaintUpdate).
  rewrite runFields_app.
  destruct (runField_errors db statusChain req) as [H1 _].
  destruct (runFields_errors db (tl validateComplaintUpdate)
              (runFields db [statusChain] req)) as (rest & Hrest & Hall & _).
  exists rest. split.
  - rewrite Hrest. simpl. rewrite H1, Hnil. reflexivity.
  - intros e He. destruct (Hall e He) as (chain & check & Hin & Hp & _).
    rewrite Hp. apply list_elem_of_In in Hin. simpl in Hin.
    destruct Hin as [<- | [<- | [<- | []]]]; discriminate.
Qed.

(** C3 (counterexample).  The seed script itself records the transition
    REGISTERED to IN_PROGRESS, which passes over ASSIGNED, and the validator
    of status updates lets a request for CLOSED through to the controller
    whatever the database holds. *)
Lemma seed_records_a_skipped_state :
  (exists l, l ∈ statusLogs (main sampleSeedEnv emptyDb) /\
             logEdge l = (Some REGISTERED, IN_PROGRESS)) /\
  permittedEdge (Some REGISTERED) IN_PROGRESS = false /\
  ~ (forall l, l ∈ statusLogs (main sampleSeedEnv emptyDb) ->
               permittedEdge (slFromStatus l) (slToStatus l) = true) /\
  (forall controller db,
     route validateComplaintUpdate controller (statusUpdateRequest "CLOSED") db
     = controller (statusUpdateRequest "CLOSED") db).
Proof.
  assert (Hin : mkStatusLog "c0" USER_ID (Some REGISTERED) IN_PROGRESS
                  "Maintenance team has been assigned and work started." 3600000
                ∈ statusLogs (main sampleSeedEnv emptyDb)).
  { rewrite main_logs. apply list_elem_of_In. vm_compute. auto. }
  split; [eexists; split; [exact Hin | reflexivity] |].
  split; [reflexivity |].
  split; [intros H; specialize (H _ Hin); discriminate |].
  intros controller db. reflexivity.
Qed.

(** C3 (amended).  [validateComplaintUpdate] restricts a submitted status to
    the six lifecycle states: any other value yields the 400 reply with an
    [Invalid status] entry and the controller does not run, while each of
    the six is accepted; the check does not depend on the database, hence
    not on the complaint's current status.  The seed script records, for
    each complaint, the three transitions none to REGISTERED, REGISTERED to
    IN_PROGRESS and IN_PROGRESS to RESOLVED, each starting where the
    previous one ended. *)
Theorem status_values_validated_and_seed_logs_chained :
  (forall (controller : Request -> Db -> Reply * Db) (req : Request) (db : Db)
          (s : string),
     reqErrors req = [] -> reqBody req !! "status" = Some s ->
     (s ∈ statusNames ->
      forall e, e ∈ reqErrors (runFields db validateComplaintUpdate req) ->
                vePath e <> "status") /\
     (s ∉ statusNames ->
      mkValidationError "status" "Invalid status" (Some s)
      ∈ reqErrors (runFields db validateComplaintUpdate req) /\
      route validateComplaintUpdate controller req db
      = (validationFailedReply
           (reqErrors (runFields db validateComplaintUpdate req)), db))) /\
  (forall (req : Request) (db db' : Db),
     runFields db validateComplaintUpdate req
     = runFields db' validateComplaintUpdate req) /\
  (forall st controller db,
     route validateComplaintUpdate controller
       (statusUpdateRequest (statusName st)) db
     = controller (statusUpdateRequest (statusName st)) db) /\
  (forall env db,
     statusLogs (main env db)
     = statusLogs db ++ flat_map (fun i => iterationLogs (env i)) (seq 0 5)) /\
  (forall env,
     map logEdge (iterationLogs env)
     = [(None, REGISTERED); (Some REGISTERED, IN_PROGRESS);
        (Some IN_PROGRESS, RESOLVED)]).
Proof.
  split; [| split; [| split; [| split]]].
  - intros controller req db s Hnil Hs.
    destruct (complaint_update_errors db req Hnil) as (rest & Herr & Hrest).
    rewrite (status_chain_errors db req s Hs) in Herr.
    split.
    + intros Hin e He. rewrite Herr, bool_decide_eq_true_2 in He by exact Hin.
      apply Hrest, He.
    + intros Hout. rewrite bool_decide_eq_false_2 in Herr by exact Hout.
      assert (Hmem : mkValidationError "status" "Invalid status" (Some s)
                     ∈ reqErrors (runFields db validateComplaintUpdate req))
        by (rewrite Herr; left).
      split; [exact Hmem |].
      apply route_with_errors.
      intros Hempty. rewrite Hempty in Hmem. inversion Hmem.
  - intros req db db'. apply runFields_db_free. reflexivity.
  - intros st controller db. destruct st; vm_compute; reflexivity.
  - apply main_logs.
  - intros env. reflexivity.
Qed.

End LifecycleFacts.

(** ** Upload filter *)

Module UploadFacts.
Import GuestRoutes UploadSpec.

Lemma prefix_refl s : String.prefix s s = true.
Proof.
  induction s as [| a s IH]; simpl; [reflexivity |].
  destruct (ascii_dec a a); [exact IH | congruence].
Qed.

Lemma occursIn_refl s : occursIn s s = true.
Proof.
  destruct s as [| a s]; [reflexivity |].
  cbn [occursIn]. rewrite prefix_refl. reflexivity.
Qed.

Lemma fileFilter_accept_iff name :
  fileFilter name = Accept <->
  exists alt, alt ∈ allowedTypes /\ occursIn alt (testedExtension name) = true.
Proof.
  unfold fileFilter, alternationTest. fold (testedExtension name).
  destruct (existsb _ allowedTypes) eqn:H.
  - apply existsb_exists in H as (alt & Hin & Halt).
    split; [| reflexivity]. intros _. exists alt.
    split; [apply list_elem_of_In, Hin | exact Halt].
  - split; [discriminate |]. intros (alt & Hin & Halt).
    assert (existsb (fun alt => occursIn alt (testedExtension name)) allowedTypes
            = true) as Ht.
    { apply existsb_exists. exists alt. split; [apply list_elem_of_In, Hin | exact Halt]. }
    rewrite Ht in H. discriminate.
Qed.

Lemma receiveFiles_stored dir files : forall stored ps,
  receiveFiles dir files stored = Stored ps <->
  (files = [] \/ Z.of_nat (length stored + length files) <= filesLimit) /\
  Forall acceptable files /\
  ps = stored ++ map (fun f => (dir, storageFilename f)) files.
Proof.
  induction files as [| f files IH]; intros stored ps; simpl.
  - rewrite app_nil_r. split.
    + intros [= <-]. auto.
    + intros (_ & _ & ->). reflexivity.
  - destruct (Z.leb_spec filesLimit (Z.of_nat (length stored))) as [Hfull | Hroom].
    { split; [discriminate |]. intros ([Hnil | Hcount] & _); [discriminate | lia]. }
    destruct (fileFilter (ufOriginalName f)) eqn:Hfilter.
    2:{ split; [discriminate |]. intros (_ & Hall & _).
        apply Forall_cons in Hall as [[Hacc _] _]. congruence. }
    destruct (Z.leb_spec fileSizeLimit (ufSize f)) as [Hbig | Hfits].
    { split; [discriminate |]. intros (_ & Hall & _).
      apply Forall_cons in Hall as [[_ Hsize] _]. lia. }
    rewrite IH, length_app. simpl. rewrite <- app_assoc. simpl.
    split.
    + intros (Hcount & Hall & ->). split; [right | split].
      * destruct Hcount as [-> | Hcount]; simpl; lia.
      * apply Forall_cons. split; [split; assumption | exact Hall].
      * reflexivity.
    + intros ([Hnil | Hcount] & Hall & ->); [discriminate |].
      apply Forall_cons in Hall as [_ Hall].
      split; [right; lia | split; [exact Hall | reflexivity]].
Qed.

(** C7 (the code at the failing input, and what the code does in
    general).  The filter accepts [report.docm], whose extension [docm] is
    not in the list, and the upload stores it: the pattern is tested for an
    occurrence anywhere in the extension.  In general a file name is
    accepted exactly when some listed word occurs in its lower-cased
    extension, so every listed extension is accepted; and an upload is
    stored exactly when it has at most five parts, each accepted by the
    filter and smaller than 10 MB (a part of exactly 10 MB is refused),
    every part going to the upload directory. *)
Theorem fileFilter_accepts_unlisted_extension :
  testedExtension "report.docm" = "docm" /\
  ("docm" ∉ allowedTypes) /\
  fileFilter "report.docm" = Accept /\
  upload "./uploads/complaints" [macroDocument]
  = Stored [("./uploads/complaints", "report-1700000000000-42.docm")] /\
  (forall name,
     fileFilter name = Accept <->
     exists alt, alt ∈ allowedTypes /\ occursIn alt (testedExtension name) = true) /\
  (forall name, testedExtension name ∈ allowedTypes -> fileFilter name = Accept) /\
  (forall name, fileFilter name <> Accept -> fileFilter name = Reject invalidFileType) /\
  (forall dir files ps,
     upload dir files = Stored ps <->
     Z.of_nat (length files) <= 5 /\
     Forall acceptable files /\
     ps = map (fun f => (dir, storageFilename f)) files).
Proof.
  split; [reflexivity |].
  split; [intros H; apply list_elem_of_In in H; simpl in H;
          repeat destruct H as [H | H]; try discriminate; exact H |].
  split; [reflexivity |]. split; [reflexivity |].
  split; [exact fileFilter_accept_iff |].
  split.
  { intros name Hin. apply fileFilter_accept_iff.
    exists (testedExtension name). split; [exact Hin | apply occursIn_refl]. }
  split.
  { intros name. unfold fileFilter. destruct (alternationTest _ _); congruence. }
  intros dir files ps. unfold upload. rewrite receiveFiles_stored. simpl.
  unfold filesLimit. split.
  - intros ([-> | Hcount] & Hall & ->); simpl; split; auto; lia.
  - intros (Hcount & Hall & ->). split; [right; exact Hcount | auto].
Qed.

End UploadFacts.

(** ** Shapes of the JSON replies *)

Module EnvelopeFacts.
Import UserController WardController GuestRoutes Validation ValidationSpec
       UserSpec EnvelopeSpec.





Section Shapes.
Variable sha256hex : string -> string.
Variable toISOString : Z -> string.
Variable jsonParses : string -> bool.
Variable bcryptCompare : string -> string -> bool.
Variable existsSync : string -> bool.
Variable pathJoin : string -> string -> string.
Variable pathResolve : string -> string.


End Shapes.

End EnvelopeFacts.

(** ** The client store *)

Module DataSliceFacts.
Import DataSlice DataSliceSpec.

Lemma normalizeSubZones_lookup clock payload : forall k m id,
  cdData <$> (normalizeSubZones clock k payload m !! id)
  = match lastArrayFor id payload with
    | Some zones => Some zones
    | None => cdData <$> (m !! id)
    end.
Proof.
  induction payload as [| w rest IH]; intros k m id; simpl; [reflexivity |].
  destruct (subZonesArray w) as [zones |] eqn:Harr.
  - rewrite IH. destruct (lastArrayFor id rest); [reflexivity |].
    destruct (decide (wpId w = id)) as [-> | Hne].
    + rewrite bool_decide_eq_true_2 by reflexivity.
      rewrite lookup_insert_eq. reflexivity.
    + rewrite bool_decide_eq_false_2 by exact Hne.
      rewrite lookup_insert_ne by exact Hne. reflexivity.
  - rewrite IH. destruct (lastArrayFor id rest); [reflexivity |].
    destruct (bool_decide (wpId w = id)); reflexivity.
Qed.

Lemma lastArrayFor_some id payload zones :
  lastArrayFor id payload = Some zones ->
  exists w, w ∈ payload /\ wpId w = id /\ subZonesArray w = Some zones.
Proof.
  induction payload as [| x rest IH]; simpl; [discriminate |].
  destruct (lastArrayFor id rest) as [zs |].
  - intros [= ->]. destruct (IH eq_refl) as (w & Hin & Hw).
    exists w. split; [right; exact Hin | exact Hw].
  - destruct (bool_decide (wpId x = id)) eqn:Hid; [| discriminate].
    apply bool_decide_eq_true in Hid. intros Hx.
    exists x. split; [left | auto].
Qed.

Lemma lastArrayFor_none id payload :
  (forall w, w ∈ payload -> wpId w = id -> subZonesArray w = None) ->
  lastArrayFor id payload = None.
Proof.
  intros Hall. destruct (lastArrayFor id payload) as [zones |] eqn:H;
    [| reflexivity].
  apply lastArrayFor_some in H as (w & Hin & Hid & Harr).
  rewrite (Hall w Hin Hid) in Harr. discriminate.
Qed.

Lemma lastArrayFor_unique payload : forall w zones,
  NoDup (map wpId payload) -> w ∈ payload -> subZonesArray w = Some zones ->
  lastArrayFor (wpId w) payload = Some zones.
Proof.
  induction payload as [| x rest IH]; intros w zones Hnd Hin Harr;
    [inversion Hin |].
  simpl in Hnd. apply NoDup_cons in Hnd as [Hx Hnd]. simpl.
  apply elem_of_cons in Hin as [-> | Hin].
  - rewrite lastArrayFor_none.
    + rewrite bool_decide_eq_true_2 by reflexivity. exact Harr.
    + intros w Hw Hid. destruct Hx. rewrite <- Hid.
      apply (list_elem_of_fmap_2 wpId), Hw.
  - rewrite (IH w zones Hnd Hin Harr). reflexivity.
Qed.

(** C10.  [setWardsWithSubZones] replaces the cached ward list and leaves
    every other branch of the state alone.  When no ward of the payload has
    a non-empty array of sub-zones the sub-zone map is exactly the previous
    one.  When some ward has, the map is rebuilt from nothing: an
    identifier is mapped to the array of the (last) payload ward that has
    this identifier and an array, hence, identifiers being distinct, each
    ward with an array to its own array, and identifiers without such a
    ward are absent. *)
Theorem setWardsWithSubZones_frame :
  forall (Rest : Type) (clock : nat -> Z) (payload : list WardPayload)
         (state : DataState Rest),
    let state' := setWardsWithSubZones clock payload state in
    otherBranches state' = otherBranches state /\
    cdData <$> locWards (locations state') = Some payload /\
    ((forall w, w ∈ payload -> carriesSubZones w = false) ->
     locSubZones (locations state') = locSubZones (locations state)) /\
    ((exists w, w ∈ payload /\ carriesSubZones w = true) ->
     (forall id,
        cdData <$> (locSubZones (locations state') !! id)
        = lastArrayFor id payload) /\
     (NoDup (map wpId payload) ->
      forall w zones,
        w ∈ payload -> subZonesArray w = Some zones ->
        cdData <$> (locSubZones (locations state') !! wpId w) = Some zones) /\
     (forall id,
        (forall w, w ∈ payload -> wpId w = id -> subZonesArray w = None) ->
        locSubZones (locations state') !! id = None)).
Proof.
  intros Rest clock payload state state'. subst state'.
  unfold setWardsWithSubZones. simpl.
  split; [reflexivity |]. split; [reflexivity |]. split.
  - intros Hnone.
    assert (Hex : existsb carriesSubZones payload = false).
    { destruct (existsb carriesSubZones payload) eqn:H; [| reflexivity].
      apply existsb_exists in H as (w & Hin & Hw).
      rewrite (Hnone w) in Hw by (apply list_elem_of_In, Hin). discriminate. }
    rewrite Hex. reflexivity.
  - intros (w & Hin & Hw).
    assert (Hex : existsb carriesSubZones payload = true).
    { apply existsb_exists. exists w. split; [apply list_elem_of_In, Hin | exact Hw]. }
    rewrite Hex.
    assert (Hlookup : forall id,
              cdData <$> (normalizeSubZones clock 1 payload ∅ !! id)
              = lastArrayFor id payload).
    { intros id. rewrite normalizeSubZones_lookup, lookup_empty.
      destruct (lastArrayFor id payload); reflexivity. }
    split; [exact Hlookup |]. split.
    + intros Hnd w' zones Hin' Harr. rewrite Hlookup.
      apply lastArrayFor_unique; assumption.
    + intros id Hall. specialize (Hlookup id).
      rewrite (lastArrayFor_none id payload Hall) in Hlookup.
      destruct (normalizeSubZones clock 1 payload ∅ !! id); [discriminate | reflexivity].
Qed.

(** A shallow payload keeps the cached sub-zones; a deep one replaces
    them. *)
Lemma setWardsWithSubZones_witness :
  locSubZones (locations (setWardsWithSubZones (fun k => Z.of_nat k)
                            shallowPayload cachedState))
  = locSubZones (locations cachedState)
  /\ cdData <$> (locSubZones
                   (locations (setWardsWithSubZones (fun k => Z.of_nat k)
                                 deepPayload cachedState)) !! "w1")
     = Some [paradeGround]
  /\ locSubZones
       (locations (setWardsWithSubZones (fun k => Z.of_nat k)
                     deepPayload cachedState)) !! "w5"
     = None.
Proof.
  pose proof (setWardsWithSubZones_frame unit (fun k => Z.of_nat k)
                shallowPayload cachedState) as (_ & _ & Hshallow & _).
  pose proof (setWardsWithSubZones_frame unit (fun k => Z.of_nat k)
                deepPayload cachedState) as (_ & _ & _ & Hdeep).
  split.
  - apply Hshallow. intros w Hw. apply list_elem_of_In in Hw. simpl in Hw.
    destruct Hw as [<- | [<- | []]]; reflexivity.
  - destruct Hdeep as (Hall & _ & Hgone).
    + exists (mkWardPayload "w1" "Ward 1 - Fort Kochi" None true
                (SubZonesArray [paradeGround])).
      split; [left | reflexivity].
    + split; [rewrite Hall; reflexivity |].
      apply Hgone. intros w Hw Hid. apply list_elem_of_In in Hw. simpl in Hw.
      destruct Hw as [<- | [<- | []]]; discriminate.
Defined.

End DataSliceFacts.
(** * Further properties *)

(** ** The client's API helpers *)

Module BaseApiFacts.
Import BaseApi BaseApiSpec.

Lemma whenTruthy_some v j : whenTruthy v = Some j -> v = Some j /\ jsTruthy j = true.
Proof.
  destruct v as [x|]; simpl; [|discriminate].
  destruct (jsTruthy x) eqn:Hx; [|discriminate]. intros [= <-]. auto.
Qed.

Lemma getProp_spread k (item upd : JsObject) :
  getProp k (spread item upd)
  = match upd !! k with Some v => v | None => getProp k item end.
Proof.
  unfold getProp, spread, JsObject in *.
  rewrite (lookup_union upd item k).
  destruct (upd !! k), (item !! k); reflexivity.
Qed.

Lemma statusMessage_cases numberToString st :
  statusMessage numberToString st
  = ("An error occurred (" ++ toStringJs numberToString st ++ ")")%string \/
  statusMessage numberToString st
  ∈ ["Bad request - please check your input";
     "Unauthorized - please login again";
     "Forbidden - you do not have permission";
     "Resource not found";
     "Conflict - resource already exists";
     "Validation error - please check your input";
     "Too many requests - please try again later";
     "Internal server error - please try again later"].
Proof.
  unfold statusMessage. destruct st; try (left; reflexivity).
  repeat match goal with
         | |- context [if ?b then _ else _] =>
             destruct b; [right; set_solver |]
         end.
  left; reflexivity.
Qed.

Lemma statusMessage_not_network numberToString st m :
  m ∈ networkMessages -> statusMessage numberToString st <> m.
Proof.
  intros Hm Heq.
  destruct (statusMessage_cases numberToString st) as [Hd | Hf].
  - rewrite Hd in Heq. unfold networkMessages in Hm.
    repeat (apply elem_of_cons in Hm as [-> | Hm]; [discriminate Heq |]).
    inversion Hm.
  - rewrite Heq in Hf. unfold networkMessages in Hm.
    repeat (apply elem_of_cons in Hm as [-> | Hm];
            [repeat (apply elem_of_cons in Hf as [Hf | Hf]; [discriminate Hf |]);
             inversion Hf |]).
    inversion Hm.
Qed.

Lemma serializedMessage_carries jsonParse error r m :
  serializedMessage jsonParse (member "data" error) = Some r -> r = JStr m ->
  carries jsonParse error m.
Proof.
  unfold serializedMessage. intros Hs ->.
  destruct (member "data" error) as [[| | |d| |]|] eqn:Hd; try discriminate.
  right; right; right. exists d. split; [exact Hd|].
  destruct (jsonParse d) as [parsed|] eqn:Hp.
  - destruct parsed;
      first [ injection Hs as ->; left; reflexivity
            | apply whenTruthy_some in Hs as [Hs _];
              right; eexists; split; [reflexivity | exact Hs] ].
  - injection Hs as ->. left; reflexivity.
Qed.

(** X1 (getApiErrorMessage): the function never produces one of its four
    network messages itself.  A result equal to one of them was carried by
    the error (as its message, or in its data), since a truthy status has
    already been answered by the status fallback; so the errors reported for
    a request that could not be made, which hold a non-empty status string
    and an error text, are shown as the status fallback with that string. *)
Theorem network_messages_only_pass_through :
  (forall (numberToString : Z -> string) (jsonParse : string -> option Json)
          (error : option Json) (m : string),
     m ∈ networkMessages ->
     getApiErrorMessage numberToString jsonParse error = JStr m ->
     carries jsonParse error m) /\
  (forall (numberToString : Z -> string) (jsonParse : string -> option Json)
          (status detail : string),
     status <> EmptyString ->
     getApiErrorMessage numberToString jsonParse (fetchError status detail)
     = JStr ("An error occurred (" ++ status ++ ")")).
Proof.
  split.
  - intros numberToString jsonParse error m Hm. unfold getApiErrorMessage.
    destruct (whenTruthy (member "message" (member "data" error))) as [j|] eqn:H1.
    { intros ->. apply whenTruthy_some in H1 as [H1 _]. left; exact H1. }
    destruct (whenTruthy (member "error" (member "data" error))) as [j|] eqn:H2.
    { apply whenTruthy_some in H2 as [H2 _].
      destruct j as [| | |e| |]; intros Heq.
      4: { injection Heq as ->. right; left; exact H2. }
      all: injection Heq as <-; unfold networkMessages in Hm;
        repeat (apply elem_of_cons in Hm as [Hm | Hm]; [discriminate Hm |]);
        inversion Hm. }
    destruct (whenTruthy (member "message" error)) as [j|] eqn:H3.
    { intros ->. apply whenTruthy_some in H3 as [H3 _]. right; right; left; exact H3. }
    destruct (serializedMessage jsonParse (member "data" error)) as [r|] eqn:H4.
    { intros Heq. eapply serializedMessage_carries; eauto. }
    destruct (whenTruthy (member "status" error)) as [st|] eqn:H5.
    { intros [= Heq].
      destruct (statusMessage_not_network numberToString st m Hm Heq). }
    assert (Hst : forall s, s <> EmptyString -> isLiteral s (member "status" error) = false).
    { intros s Hs. unfold isLiteral.
      destruct (member "status" error) as [[| | |x| |]|] eqn:Hx; try reflexivity.
      apply bool_decide_eq_false. intros ->.
      simpl in H5. rewrite bool_decide_eq_false_2 in H5 by exact Hs. discriminate. }
    assert (Hinc : includesFailedToFetch (member "message" error) = Some false \/
                   includesFailedToFetch (member "message" error) = None).
    { destruct (member "message" error) as [[| | |x| |]|] eqn:Hx; simpl; auto.
      - simpl in H3. destruct (bool_decide (x = EmptyString)) eqn:Hb; [|discriminate].
        apply bool_decide_eq_true in Hb as ->. left; reflexivity.
      - simpl in H3. discriminate. }
    assert (Hother : forall s, s ∈ networkMessages -> s <> unexpectedError /\
                       s <> "Network error - please check your connection").
    { intros s Hs. unfold networkMessages in Hs.
      repeat (apply elem_of_cons in Hs as [-> | Hs]; [split; discriminate |]).
      inversion Hs. }
    destruct Hinc as [-> | ->].
    + rewrite !Hst by discriminate. simpl.
      destruct (whenTruthy (member "error" error)); intros [= Heq];
        destruct (Hother m Hm) as [Ha Hb]; congruence.
    + intros [= Heq]. destruct (Hother m Hm) as [Ha Hb]; congruence.
  - intros numberToString jsonParse status detail Hne.
    unfold getApiErrorMessage, fetchError. simpl.
    rewrite bool_decide_eq_false_2 by exact Hne. simpl. reflexivity.
Qed.

Lemma same_id_same_item (idField : string) (items : list JsObject)
    (a b : JsObject) :
  NoDup (map (getProp idField) items) -> a ∈ items -> b ∈ items ->
  getProp idField a = getProp idField b -> a = b.
Proof.
  induction items as [|x items IH]; intros Hnd Ha Hb Heq.
  - inversion Ha.
  - simpl in Hnd. apply NoDup_cons in Hnd as [Hx Hnd].
    apply elem_of_cons in Ha as [-> | Ha]; apply elem_of_cons in Hb as [-> | Hb].
    + reflexivity.
    + destruct Hx. rewrite Heq. apply list_elem_of_fmap. exists b; auto.
    + destruct Hx. rewrite <- Heq. apply list_elem_of_fmap. exists a; auto.
    + apply IH; assumption.
Qed.

Lemma optimisticUpdate_no_match (items : list JsObject) (upd : JsObject)
    (idField : string) :
  (forall item, item ∈ items -> getProp idField item <> getProp "id" upd) ->
  optimisticUpdate items upd idField = items.
Proof.
  intros Hno. unfold optimisticUpdate.
  induction items as [|x items IH]; [reflexivity|]. simpl.
  unfold strictEq. rewrite bool_decide_eq_false_2 by (apply Hno; left).
  f_equal. apply IH. intros item Hitem. apply Hno. right; exact Hitem.
Qed.

(** X2 (optimisticUpdate, rollbackUpdate): when the items have pairwise
    different values in the id field, and the update does not overwrite that
    field (it is the default [id], or the update does not mention it),
    rolling back to the original item undoes the optimistic update exactly:
    the optimistic list differs from the given one only at the original
    item, which is replaced by its merge with the update, and the rollback
    returns the given list. *)
Theorem rollback_undoes_optimistic_update :
  forall (items : list JsObject) (updatedItem originalItem : JsObject)
         (idField : string),
    idField = "id" \/ updatedItem !! idField = None ->
    NoDup (map (getProp idField) items) ->
    originalItem ∈ items ->
    getProp idField originalItem = getProp "id" updatedItem ->
    (exists before after,
       items = before ++ originalItem :: after /\
       optimisticUpdate items updatedItem idField
       = before ++ spread originalItem updatedItem :: after) /\
    rollbackUpdate (optimisticUpdate items updatedItem idField) originalItem
      idField = items.
Proof.
  intros items upd orig idField Hfield Hnd Hin Hid.
  assert (Hmerged : getProp idField (spread orig upd) = getProp idField orig).
  { rewrite getProp_spread. destruct Hfield as [-> | ->]; [|reflexivity].
    rewrite Hid. unfold getProp. destruct (upd !! "id"); reflexivity. }
  assert (Hother : forall item, item ∈ items -> item <> orig ->
                                getProp idField item <> getProp "id" upd).
  { intros item Hitem Hne Heq. apply Hne.
    apply (same_id_same_item idField items); auto. congruence. }
  split.
  - apply list_elem_of_split in Hin as (before & after & ->).
    exists before, after. split; [reflexivity|].
    rewrite fmap_app, fmap_cons in Hnd.
    apply NoDup_app in Hnd as (_ & Hdisj & Hnd').
    apply NoDup_cons in Hnd' as [Hnotin _].
    unfold optimisticUpdate. rewrite map_app. simpl.
    fold (optimisticUpdate before upd idField).
    fold (optimisticUpdate after upd idField).
    assert (Hafter : forall item, item ∈ after ->
                       getProp idField item <> getProp "id" upd).
    { intros item Hitem Heq. apply Hnotin. rewrite Hid, <- Heq.
      apply list_elem_of_fmap. exists item; auto. }
    assert (Hbefore : forall item, item ∈ before ->
                        getProp idField item <> getProp "id" upd).
    { intros item Hitem Heq. apply (Hdisj (getProp idField item)).
      - apply list_elem_of_fmap. exists item; auto.
      - rewrite Heq, <- Hid. left. }
    rewrite (optimisticUpdate_no_match before upd idField Hbefore).
    rewrite (optimisticUpdate_no_match after upd idField Hafter).
    unfold strictEq. rewrite bool_decide_eq_true_2 by exact Hid. reflexivity.
  - unfold rollbackUpdate, optimisticUpdate. rewrite map_map.
    rewrite <- (map_id items) at 2. apply map_ext_in.
    intros item Hitem%list_elem_of_In. unfold strictEq.
    destruct (decide (getProp idField item = getProp "id" upd)) as [Hm | Hm].
    + rewrite (bool_decide_eq_true_2 _ Hm).
      assert (item = orig) as ->.
      { apply (same_id_same_item idField items); auto. congruence. }
      rewrite bool_decide_eq_true_2 by exact Hmerged. reflexivity.
    + rewrite (bool_decide_eq_false_2 _ Hm).
      rewrite bool_decide_eq_false_2 by congruence. reflexivity.
Qed.

(** A list of two complaints: the status patch of the first is undone. *)
Lemma rollback_witness :
  rollbackUpdate (optimisticUpdate [complaintA; complaintB] statusPatch "id")
    complaintA "id" = [complaintA; complaintB].
Proof.
  apply (rollback_undoes_optimistic_update [complaintA; complaintB]
           statusPatch complaintA "id").
  - left; reflexivity.
  - compute_done.
  - left.
  - vm_compute. reflexivity.
Defined.

End BaseApiFacts.
(** ** The data slice: complaints, stale data, and the ward query *)

Module DataCacheFacts.
Import DataSlice DataSliceSpec DataCache DataCacheSpec BaseApi BaseApiFacts
  TableFacts DataSliceFacts.

Lemma spread_idemp (item updates : JsObject) :
  spread (spread item updates) updates = spread item updates.
Proof.
  unfold spread, JsObject in *.
  rewrite (assoc (∪) updates updates item), (idemp (∪) updates). reflexivity.
Qed.

Lemma hasComplaintId_spread id (complaint updates : JsObject) :
  updates !! "id" = None \/ updates !! "id" = Some (VStr id) ->
  hasComplaintId id complaint = true ->
  hasComplaintId id (spread complaint updates) = true.
Proof.
  unfold hasComplaintId, strictEq. intros Hu Hc.
  apply bool_decide_eq_true in Hc. apply bool_decide_eq_true.
  rewrite getProp_spread. destruct Hu as [-> | ->]; auto.
Qed.

Lemma updateFirst_idemp {A : Type} (p : A -> bool) (f : A -> A) (l : list A) :
  (forall x, p x = true -> p (f x) = true) ->
  (forall x, f (f x) = f x) ->
  updateFirst p f (updateFirst p f l) = updateFirst p f l.
Proof.
  intros Hp Hf. induction l as [|x l IH]; simpl; [reflexivity|].
  destruct (p x) eqn:Hx; simpl.
  - rewrite (Hp x Hx), Hf. reflexivity.
  - rewrite Hx, IH. reflexivity.
Qed.

(** X3 (updateComplaintInList): the reducer touches the complaints branch
    only, and keeps every timestamp.  In the cached list it replaces the
    first complaint with the given id by its merge with the updates and
    leaves the list as it is when no complaint has the id; in the details
    record it merges the updates into the entry under the id, when there is
    one, and leaves the other entries alone.  When the updates do not
    change the id, applying the reducer a second time changes nothing. *)
Theorem updateComplaintInList_patches_first_match :
  forall (Any : Type) (id : string) (updates : JsObject)
         (state : State (Any := Any)),
    let b := otherBranches state in
    let state' := updateComplaintInList id updates state in
    let b' := otherBranches state' in
    locations state' = locations state /\
    withComplaints (complaintsList b) (complaintsDetails b) b' = b /\
    cdTimestamp <$> complaintsList b' = cdTimestamp <$> complaintsList b /\
    (forall cached,
       complaintsList b = Some cached ->
       match List.find (hasComplaintId id) (cdData cached) with
       | Some complaint =>
           exists before after,
             cdData cached = before ++ complaint :: after /\
             List.find (hasComplaintId id) before = None /\
             cdData <$> complaintsList b'
             = Some (before ++ spread complaint updates :: after)
       | None => cdData <$> complaintsList b' = Some (cdData cached)
       end) /\
    (forall id',
       complaintsDetails b' !! id'
       = if bool_decide (id' = id)
         then (fun cached => withData (spread (cdData cached) updates) cached)
                <$> (complaintsDetails b !! id)
         else complaintsDetails b !! id') /\
    (updates !! "id" = None \/ updates !! "id" = Some (VStr id) ->
     updateComplaintInList id updates state' = state').
Proof.
  intros Any id updates [loc b]. cbn zeta.
  unfold updateComplaintInList. cbn [otherBranches locations].
  split; [reflexivity|].
  split; [destruct b; reflexivity|].
  split; [destruct b as [[l|] ?]; reflexivity|].
  split; [|split].
  - intros cached Hl. cbn [withComplaints complaintsList]. rewrite Hl.
    destruct (List.find (hasComplaintId id) (cdData cached)) as [c|] eqn:Hf.
    + destruct (updateFirst_some _ (fun complaint => spread complaint updates)
                  _ _ Hf) as (before & after & Hd & Hu & Hn).
      exists before, after. cbn. rewrite Hu. auto.
    + cbn. rewrite updateFirst_none by exact Hf. reflexivity.
  - intros id'. cbn [withComplaints complaintsDetails].
    destruct (decide (id' = id)) as [-> | Hne].
    + rewrite bool_decide_eq_true_2 by reflexivity.
      destruct (complaintsDetails b !! id) as [c|] eqn:Hc; cbn.
      * rewrite lookup_insert_eq. reflexivity.
      * exact Hc.
    + rewrite bool_decide_eq_false_2 by exact Hne.
      destruct (complaintsDetails b !! id) as [c|] eqn:Hc; [|reflexivity].
      rewrite lookup_insert_ne by congruence. reflexivity.
  - intros Hu. cbn [withComplaints complaintsList complaintsDetails].
    f_equal. unfold withComplaints. cbn.
    f_equal.
    + destruct (complaintsList b) as [cached|]; [|reflexivity].
      cbn. unfold withData. cbn. f_equal. f_equal.
      apply updateFirst_idemp.
      * intros x. apply hasComplaintId_spread, Hu.
      * intros x. apply spread_idemp.
    + destruct (complaintsDetails b !! id) as [c|] eqn:Hc.
      * rewrite lookup_insert_eq. unfold withData. cbn.
        rewrite spread_idemp, insert_insert_eq. reflexivity.
      * rewrite Hc. reflexivity.
Qed.

Lemma expired_spec {T : Type} (now : Z) (cached : CachedData T) :
  expired now cached = false <->
  now - cdTimestamp cached <= CACHE_TTL /\ cdIsStale cached <> Some true.
Proof.
  unfold expired. rewrite orb_false_iff, Z.ltb_ge.
  destruct (cdIsStale cached) as [[]|]; simpl; intuition congruence.
Qed.

Lemma expired_later {T : Type} (now1 now2 : Z) (cached : CachedData T) :
  now1 <= now2 -> expired now1 cached = true -> expired now2 cached = true.
Proof.
  unfold expired. rewrite !orb_true_iff, !Z.ltb_lt. intros Hle [H | H]; [left; lia | auto].
Qed.

Lemma clearIfStale_later {T : Type} (now1 now2 : Z)
    (cached : option (CachedData T)) :
  now1 <= now2 ->
  clearIfStale now2 (clearIfStale now1 cached) = clearIfStale now2 cached.
Proof.
  intros Hle. destruct cached as [c|]; [|reflexivity]. simpl.
  destruct (expired now1 c) eqn:H1; [|reflexivity].
  simpl. rewrite (expired_later now1 now2 c Hle H1). reflexivity.
Qed.

Lemma clearDetails_later {T : Type} (now1 now2 : Z)
    (details : gmap string (CachedData T)) :
  now1 <= now2 ->
  clearDetails now2 (clearDetails now1 details) = clearDetails now2 details.
Proof.
  intros Hle. unfold clearDetails. rewrite map_filter_filter.
  apply map_filter_ext. intros id c _. split; [tauto|].
  intros H2. split; [exact H2|]. simpl in *.
  destruct (expired now1 c) eqn:H1; [|reflexivity].
  rewrite (expired_later now1 now2 c Hle H1) in H2. discriminate.
Qed.

Lemma clearIfStale_cleared {T : Type} (now : Z)
    (before : option (CachedData T)) :
  clearedEntry now before (clearIfStale now before).
Proof.
  intros cached. unfold clearIfStale, fresh.
  destruct before as [c |]; [| split; [discriminate | intros [[=] _]]].
  pose proof (expired_spec now c) as Hs.
  destruct (expired now c); split.
  - discriminate.
  - intros [[= <-] Hf]. apply Hs in Hf. discriminate.
  - intros [= <-]. split; [reflexivity | apply Hs; reflexivity].
  - intros [[= <-] _]. reflexivity.
Qed.

Lemma clearDetails_cleared {T : Type} (now : Z)
    (before : gmap string (CachedData T)) :
  clearedRecord now before (clearDetails now before).
Proof.
  intros id cached. unfold clearDetails, fresh.
  rewrite map_lookup_filter_Some. simpl. rewrite expired_spec. reflexivity.
Qed.

(** X4 (clearStaleData, clearIfStale): each of the nine single places the
    reducer clears (the complaint, service-request and user lists, the user
    profile, the wards, the complaint types, the system settings and the
    complaint and user statistics) holds afterwards what it held before
    when that is at most [CACHE_TTL] old at the clock value read and not
    marked stale, and nothing otherwise; each of the two details records
    holds exactly such entries of its own; the sub-zone cache, the ward
    statistics and the two status-tracking lists are never cleared,
    whatever their age; and clearing at one time and again at a later time
    leaves the state that clearing at the later time alone gives (so the
    reducer is idempotent). *)
Theorem clearStaleData_composes_over_time :
  forall (Any : Type) (now : Z) (state : State (Any := Any)),
    let state' := clearStaleData now state in
    let b := otherBranches state in
    let b' := otherBranches state' in
    (locSubZones (locations state') = locSubZones (locations state) /\
     analyticsWardStats b' = analyticsWardStats b /\
     activeComplaints b' = activeComplaints b /\
     recentUpdates b' = recentUpdates b) /\
    (clearedEntry now (complaintsList b) (complaintsList b') /\
     clearedEntry now (serviceRequestsList b) (serviceRequestsList b') /\
     clearedEntry now (usersList b) (usersList b') /\
     clearedEntry now (usersProfile b) (usersProfile b') /\
     clearedEntry now (locWards (locations state))
       (locWards (locations state')) /\
     clearedEntry now (configComplaintTypes b) (configComplaintTypes b') /\
     clearedEntry now (configSystemSettings b) (configSystemSettings b') /\
     clearedEntry now (analyticsComplaintStats b)
       (analyticsComplaintStats b') /\
     clearedEntry now (analyticsUserStats b) (analyticsUserStats b')) /\
    (clearedRecord now (complaintsDetails b) (complaintsDetails b') /\
     clearedRecord now (serviceRequestsDetails b)
       (serviceRequestsDetails b')) /\
    (forall later, now <= later ->
       clearStaleData later state' = clearStaleData later state).
Proof.
  intros Any now [loc b]. cbn zeta. unfold clearStaleData.
  cbn [locations otherBranches locSubZones locWards analyticsWardStats
       activeComplaints recentUpdates complaintsList complaintsDetails
       serviceRequestsList serviceRequestsDetails usersList usersProfile
       configComplaintTypes configSystemSettings analyticsComplaintStats
       analyticsUserStats].
  split; [auto |].
  split.
  { repeat match goal with
           | |- clearedEntry _ _ _ /\ _ => split; [apply clearIfStale_cleared |]
           end.
    apply clearIfStale_cleared. }
  split.
  { split; [apply clearDetails_cleared |]. apply clearDetails_cleared. }
  intros later Hle. cbn.
  rewrite !clearIfStale_later, !clearDetails_later by exact Hle.
  reflexivity.
Qed.

Lemma selectSubZones_lookup {Rest : Type} (id : string) (state : DataState Rest) :
  selectSubZonesByWardId id state
  = default [] (cdData <$> (locSubZones (locations state) !! id)).
Proof.
  unfold selectSubZonesByWardId.
  destruct (locSubZones (locations state) !! id); reflexivity.
Qed.

(** X5 (setWards, setSubZones, selectSubZonesByWardId, selectWardsArray):
    [setWards] replaces the ward list and merges the sub-zones of the
    payload into the cache: afterwards a ward id selects the array of the
    last payload ward with that id and an array, and what it selected
    before when the payload has no such ward, so that no entry is ever
    removed.  [setSubZones] makes its ward id select the given array and
    changes no other selection. *)
Theorem setWards_merges_into_the_cache :
  forall (Rest : Type) (clock : nat -> Z) (payload : list WardPayload)
         (state : DataState Rest),
    let state' := setWards clock payload state in
    otherBranches state' = otherBranches state /\
    selectWardsArray state' = payload /\
    (forall id,
       selectSubZonesByWardId id state'
       = match lastArrayFor id payload with
         | Some zones => zones
         | None => selectSubZonesByWardId id state
         end) /\
    (forall id,
       is_Some (locSubZones (locations state) !! id) ->
       is_Some (locSubZones (locations state') !! id)) /\
    (forall wardId data,
       let state2 := setSubZones clock wardId data state in
       selectWardsArray state2 = selectWardsArray state /\
       selectSubZonesByWardId wardId state2 = data /\
       forall id, id <> wardId ->
         selectSubZonesByWardId id state2 = selectSubZonesByWardId id state).
Proof.
  intros Rest clock payload state. cbn zeta.
  split; [reflexivity|]. split; [reflexivity|].
  assert (Hlook : forall id,
            cdData <$> (locSubZones (locations (setWards clock payload state)) !! id)
            = match lastArrayFor id payload with
              | Some zones => Some zones
              | None => cdData <$> (locSubZones (locations state) !! id)
              end).
  { intros id. unfold setWards. cbn. apply normalizeSubZones_lookup. }
  split; [|split].
  - intros id. rewrite !selectSubZones_lookup, Hlook.
    destruct (lastArrayFor id payload); reflexivity.
  - intros id Hsome. specialize (Hlook id).
    destruct (lastArrayFor id payload).
    + destruct (locSubZones (locations (setWards clock payload state)) !! id);
        [eauto | discriminate].
    + destruct Hsome as [c Hc]. rewrite Hc in Hlook.
      destruct (locSubZones (locations (setWards clock payload state)) !! id);
        [eauto | discriminate].
  - intros wardId data. cbn zeta. split; [reflexivity|]. split.
    + unfold selectSubZonesByWardId, setSubZones. cbn.
      rewrite lookup_insert_eq. reflexivity.
    + intros id Hne. unfold selectSubZonesByWardId, setSubZones. cbn.
      rewrite lookup_insert_ne by congruence. reflexivity.
Qed.

Lemma ensureSubZones_id w : wpId (ensureSubZones w) = wpId w.
Proof. reflexivity. Qed.

Lemma ensureSubZones_carries w :
  carriesSubZones (ensureSubZones w) = carriesSubZones w.
Proof.
  unfold carriesSubZones, subZonesArray, ensureSubZones. cbn.
  destruct (wpSubZones w) as [|zones|[]]; reflexivity.
Qed.

Lemma ensureSubZones_array w :
  wpSubZones w <> SubZonesOther true ->
  subZonesArray (ensureSubZones w) = Some (default [] (subZonesArray w)).
Proof.
  unfold subZonesArray, ensureSubZones. cbn.
  destruct (wpSubZones w) as [|zones|[]]; intros H; try reflexivity.
  destruct H; reflexivity.
Qed.

Lemma shallow_payload_keeps_cache {Rest : Type} (clock : nat -> Z)
    (wards : list WardPayload) (state : DataState Rest) :
  (forall w, w ∈ wards -> carriesSubZones w = false) ->
  locSubZones
    (locations (setWardsWithSubZones clock (map ensureSubZones wards) state))
  = locSubZones (locations state).
Proof.
  intros Hnone. unfold setWardsWithSubZones. cbn.
  replace (existsb carriesSubZones (map ensureSubZones wards)) with false;
    [reflexivity|].
  symmetry. apply not_true_is_false. intros He.
  apply existsb_exists in He as (w' & Hin & Hc).
  apply in_map_iff in Hin as (w & <- & Hin).
  rewrite ensureSubZones_carries, (Hnone w) in Hc
    by (apply list_elem_of_In, Hin). discriminate.
Qed.

Lemma deep_payload_lookup {Rest : Type} (clock : nat -> Z)
    (wards : list WardPayload) (state : DataState Rest) (id : string) :
  (exists w, w ∈ wards /\ carriesSubZones w = true) ->
  (forall w, w ∈ wards -> wpSubZones w <> SubZonesOther true) ->
  NoDup (map wpId wards) ->
  cdData <$> (locSubZones
                (locations
                   (setWardsWithSubZones clock (map ensureSubZones wards)
                      state)) !! id)
  = match List.find (fun w => bool_decide (wpId w = id)) wards with
    | Some w => Some (default [] (subZonesArray w))
    | None => None
    end.
Proof.
  intros (w0 & Hw0 & Hc0) Harr Hnd.
  assert (Hex : existsb carriesSubZones (map ensureSubZones wards) = true).
  { apply existsb_exists. exists (ensureSubZones w0). split.
    - apply in_map, list_elem_of_In, Hw0.
    - rewrite ensureSubZones_carries. exact Hc0. }
  assert (Hnd' : NoDup (map wpId (map ensureSubZones wards))).
  { rewrite map_map. exact Hnd. }
  unfold setWardsWithSubZones. cbn. rewrite Hex.
  rewrite normalizeSubZones_lookup, lookup_empty.
  transitivity (lastArrayFor id (map ensureSubZones wards)).
  { destruct (lastArrayFor id (map ensureSubZones wards)); reflexivity. }
  destruct (List.find (fun w => bool_decide (wpId w = id)) wards)
    as [w|] eqn:Hf.
  - apply find_some_holds in Hf as [Hin Hid].
    apply bool_decide_eq_true in Hid as <-.
    rewrite <- (ensureSubZones_id w).
    apply lastArrayFor_unique; [exact Hnd' | |].
    + apply (list_elem_of_fmap_2 ensureSubZones), Hin.
    + apply ensureSubZones_array, Harr, Hin.
  - apply lastArrayFor_none. intros w' Hin' Hid.
    apply list_elem_of_fmap in Hin' as (w & -> & Hin).
    apply (find_none_all _ _ w Hf) in Hin.
    apply bool_decide_eq_false in Hin. destruct Hin. exact Hid.
Qed.

(** X6 (getWards.onQueryStarted with setWardsWithSubZones): a failed query,
    an unsuccessful response and a response without wards leave the store
    alone.  Otherwise the ward list of the store becomes the wards of the
    response, each with an array of sub-zones.  When no ward of the response
    has a non-empty array the sub-zone cache is the previous one; when some
    ward has (the sub-zone fields being arrays or missing, the ward ids
    distinct) the cache holds an entry for exactly the wards of the
    response: a ward id selects the array the response gave for it, or the
    empty array when it gave none. *)
Theorem ward_query_fills_the_cache :
  forall (Rest : Type) (clock : nat -> Z) (fulfilled : option WardsResponse)
         (state : DataState Rest),
    let state' := onQueryStarted clock fulfilled state in
    (fulfilled = None \/
     (exists response,
        fulfilled = Some response /\
        (wrSuccess response = false \/ wrWards response = None)) ->
     state' = state) /\
    (forall wards,
       fulfilled = Some (mkWardsResponse true (Some wards)) ->
       otherBranches state' = otherBranches state /\
       selectWardsArray state' = map ensureSubZones wards /\
       ((forall w, w ∈ wards -> carriesSubZones w = false) ->
        locSubZones (locations state') = locSubZones (locations state)) /\
       ((exists w, w ∈ wards /\ carriesSubZones w = true) ->
        (forall w, w ∈ wards -> wpSubZones w <> SubZonesOther true) ->
        NoDup (map wpId wards) ->
        forall id,
          (is_Some (locSubZones (locations state') !! id) <->
           id ∈ map wpId wards) /\
          selectSubZonesByWardId id state'
          = match List.find (fun w => bool_decide (wpId w = id)) wards with
            | Some w => default [] (subZonesArray w)
            | None => []
            end)).
Proof.
  intros Rest clock fulfilled state. cbn zeta. split.
  - intros [-> | (response & -> & [Hr | Hr])]; [reflexivity | |];
      unfold onQueryStarted; rewrite Hr; [reflexivity|].
    destruct (wrSuccess response); reflexivity.
  - intros wards ->. unfold onQueryStarted. cbn [wrSuccess wrWards].
    split; [reflexivity|]. split; [reflexivity|]. split.
    + apply shallow_payload_keeps_cache.
    + intros Hsome Harr Hnd id.
      pose proof (deep_payload_lookup clock wards state id Hsome Harr Hnd)
        as Hlook.
      split.
      * split.
        -- intros [c Hc]. rewrite Hc in Hlook. cbn in Hlook.
           destruct (List.find (fun w => bool_decide (wpId w = id)) wards)
             as [w|] eqn:Hf; [|discriminate].
           apply find_some_holds in Hf as [Hin Hid].
           apply bool_decide_eq_true in Hid as <-.
           apply (list_elem_of_fmap_2 wpId), Hin.
        -- intros Hin. apply list_elem_of_fmap in Hin as (w & -> & Hin).
           destruct (List.find (fun w' => bool_decide (wpId w' = wpId w)) wards)
             as [w1|] eqn:Hf.
           ++ destruct (locSubZones _ !! wpId w); [eauto | discriminate].
           ++ apply (find_none_all _ _ w Hf) in Hin.
              apply bool_decide_eq_false in Hin. destruct Hin. reflexivity.
      * rewrite selectSubZones_lookup, Hlook.
        destruct (List.find (fun w => bool_decide (wpId w = id)) wards);
          reflexivity.
Qed.

End DataCacheFacts.

(** ** Wards and sub-zones: creation and update *)

Module WardAdminFacts.
Import WardAdmin WardAdminSpec WardSpec TableFacts.

Lemma find_none_not_in {A B : Type} `{EqDecision B} (g : A -> B) (b : B)
    (l : list A) :
  List.find (fun x => bool_decide (g x = b)) l = None <-> b ∉ map g l.
Proof.
  induction l as [|x l IH]; simpl.
  - split; [intros _ H; inversion H | reflexivity].
  - destruct (decide (g x = b)) as [Hx | Hx].
    + rewrite bool_decide_eq_true_2 by exact Hx. split; [discriminate|].
      intros H. destruct H. rewrite Hx. left.
    + rewrite bool_decide_eq_false_2 by exact Hx. rewrite IH.
      rewrite not_elem_of_cons. intuition congruence.
Qed.

Lemma same_by_key {A B : Type} (g : A -> B) (l : list A) (a b : A) :
  NoDup (map g l) -> a ∈ l -> b ∈ l -> g a = g b -> a = b.
Proof.
  induction l as [|x l IH]; intros Hnd Ha Hb Heq.
  - inversion Ha.
  - simpl in Hnd. apply NoDup_cons in Hnd as [Hx Hnd].
    apply elem_of_cons in Ha as [-> | Ha]; apply elem_of_cons in Hb as [-> | Hb].
    + reflexivity.
    + destruct Hx. rewrite Heq. apply (list_elem_of_fmap_2 g), Hb.
    + destruct Hx. rewrite <- Heq. apply (list_elem_of_fmap_2 g), Ha.
    + apply IH; assumption.
Qed.

Lemma updateFirst_split_unique {A B : Type} `{EqDecision B} (g : A -> B)
    (b : B) (f : A -> A) (l : list A) (x : A) :
  NoDup (map g l) ->
  List.find (fun y => bool_decide (g y = b)) l = Some x ->
  exists l1 l2,
    l = l1 ++ x :: l2 /\
    updateFirst (fun y => bool_decide (g y = b)) f l = l1 ++ f x :: l2 /\
    g x = b /\ (b ∉ map g l1) /\ (b ∉ map g l2).
Proof.
  intros Hnd Hf.
  destruct (updateFirst_some _ f _ _ Hf) as (l1 & l2 & -> & Hu & Hn).
  apply find_some_holds in Hf as [_ Hx]. apply bool_decide_eq_true in Hx.
  exists l1, l2. split; [reflexivity|]. split; [exact Hu|].
  split; [exact Hx|]. split; [apply find_none_not_in, Hn|].
  rewrite map_app in Hnd. simpl in Hnd.
  apply NoDup_app in Hnd as (_ & _ & Hnd).
  apply NoDup_cons in Hnd as [Hnot _]. rewrite <- Hx. exact Hnot.
Qed.

(** X7 (createWard, updateWard): ward names and ward ids stay pairwise
    different, the generated id being new.  [createWard] answers 400 and
    changes nothing when a ward already has the name, and otherwise appends
    an active ward with the name and the description of the request.
    [updateWard] keeps the ids of the table in place and never answers 404:
    for an id that no ward has it raises an error and changes nothing. *)
Theorem ward_names_stay_unique :
  forall (newId : string) (req : Request) (db : Db),
    NoDup (map wName (wards db)) ->
    NoDup (map wId (wards db)) ->
    newId ∉ map wId (wards db) ->
    let created := createWard newId req db in
    let updated := updateWard req db in
    (NoDup (map wName (wards (snd created))) /\
     NoDup (map wId (wards (snd created))) /\
     forall name,
       reqBody req !! "name" = Some name ->
       (name ∈ map wName (wards db) ->
        created
        = (SendJson 400
             (envelope false "Ward with this name already exists" JNull), db)) /\
       (name ∉ map wName (wards db) ->
        replyStatus (fst created) = Some 201 /\
        snd created
        = withWards db
            (wards db ++
             [mkWard newId name (reqBody req !! "description") true]))) /\
    (NoDup (map wName (wards (snd updated))) /\
     map wId (wards (snd updated)) = map wId (wards db) /\
     replyStatus (fst updated) <> Some 404 /\
     (idParam req ∉ map wId (wards db) ->
      exists error, updated = (Thrown error, db))).
Proof.
  intros newId req db Hnames Hids Hnew. cbn zeta. split.
  - unfold createWard.
    destruct (reqBody req !! "name") as [name|] eqn:Hname.
    2: { split; [exact Hnames|]. split; [exact Hids|]. intros n [=]. }
    destruct (List.find (fun w => bool_decide (wName w = name)) (wards db))
      as [w|] eqn:Hf.
    + split; [exact Hnames|]. split; [exact Hids|].
      intros n [= <-]. split; [reflexivity|].
      intros Hnot. apply find_none_not_in in Hnot. congruence.
    + apply find_none_not_in in Hf. cbn.
      split; [|split].
      * rewrite map_app. apply NoDup_app. split; [exact Hnames|].
        split; [|apply NoDup_singleton].
        intros x Hx Hx'. apply list_elem_of_singleton in Hx'. subst x.
        exact (Hf Hx).
      * rewrite map_app. apply NoDup_app. split; [exact Hids|].
        split; [|apply NoDup_singleton].
        intros x Hx Hx'. apply list_elem_of_singleton in Hx'. subst x.
        exact (Hnew Hx).
      * intros n [= <-]. split; [intros Hin; destruct (Hf Hin)|].
        intros _. split; reflexivity.
  - unfold updateWard. fold (idParam req).
    destruct (boolField (reqBody req !! "isActive")) as [isActive|].
    2: { cbn. split; [exact Hnames|]. split; [reflexivity|].
         split; [discriminate|]. eauto. }
    destruct (List.find (hasWardId (idParam req)) (wards db)) as [old|] eqn:Hf.
    2: { cbn. split; [exact Hnames|]. split; [reflexivity|].
         split; [discriminate|]. eauto. }
    destruct (existsb _ (wards db)) eqn:Hclash.
    { cbn. split; [exact Hnames|]. split; [reflexivity|].
      split; [discriminate|]. eauto. }
    cbn [fst snd replyStatus wards withWards].
    unfold hasWardId in *.
    destruct (updateFirst_split_unique wId (idParam req)
                (fun _ => mkWard (wId old)
                            (default (wName old) (reqBody req !! "name"))
                            match reqBody req !! "description" with
                            | Some d => Some d
                            | None => wDescription old
                            end (default (wIsActive old) isActive))
                (wards db) old Hids Hf)
      as (l1 & l2 & Hl & Hu & Hid & Hn1 & Hn2).
    rewrite Hu. split; [|split; [|split]].
    + rewrite Hl in Hnames. rewrite map_app in *. simpl in *.
      destruct (reqBody req !! "name") as [n|] eqn:Hname; [|exact Hnames].
      cbn [default].
      assert (Hother : forall w, w ∈ l1 ++ l2 -> wName w <> n).
      { intros w Hw Heq.
        assert (Hin : w ∈ wards db).
        { rewrite Hl. apply elem_of_app in Hw as [Hw | Hw];
            apply elem_of_app; [left | right; right]; exact Hw. }
        assert (Hwid : wId w <> idParam req).
        { intros Hwid. apply elem_of_app in Hw as [Hw | Hw].
          - apply Hn1. rewrite <- Hwid. apply (list_elem_of_fmap_2 wId), Hw.
          - apply Hn2. rewrite <- Hwid. apply (list_elem_of_fmap_2 wId), Hw. }
        assert (Hfalse : existsb
                  (fun w0 => bool_decide (Some (wName w0) = Some n)
                             && negb (bool_decide (wId w0 = idParam req)))
                  (wards db) = true).
        { apply existsb_exists. exists w.
          split; [apply list_elem_of_In, Hin|].
          rewrite bool_decide_eq_true_2 by congruence.
          rewrite bool_decide_eq_false_2 by exact Hwid. reflexivity. }
        rewrite Hfalse in Hclash. discriminate. }
      apply NoDup_app in Hnames as (H1 & Hdisj & H2).
      apply NoDup_cons in H2 as [_ H2].
      apply NoDup_app. split; [exact H1|]. split.
      * intros x Hx Hx'. apply elem_of_cons in Hx' as [-> | Hx'].
        -- apply list_elem_of_fmap in Hx as (w & Hw & Hin).
           apply (Hother w); [apply elem_of_app; left; exact Hin |]. cbn in Hw. congruence.
        -- apply (Hdisj x Hx). right; exact Hx'.
      * apply NoDup_cons. split; [|exact H2].
        intros Hx. apply list_elem_of_fmap in Hx as (w & Hw & Hin).
        apply (Hother w); [apply elem_of_app; right; exact Hin |]. cbn in Hw. congruence.
    + rewrite Hl, !map_app. reflexivity.
    + discriminate.
    + intros Hnot. destruct Hnot. rewrite Hl, map_app. simpl.
      apply elem_of_app. right. rewrite Hid. left.
Qed.

(** A third ward is added to a table of two. *)
Lemma ward_names_witness :
  replyStatus
    (fst (createWard "w3"
            (wardFormRequest []
               [("name", "Ward 3 - Edappally"); ("description", "Edappally area")])
            twoWardsDb)) = Some 201
  /\ NoDup (map wName
              (wards (snd (createWard "w3"
                             (wardFormRequest []
                                [("name", "Ward 3 - Edappally");
                                 ("description", "Edappally area")])
                             twoWardsDb)))).
Proof.
  assert (H1 : NoDup (map wName (wards twoWardsDb))) by compute_done.
  assert (H2 : NoDup (map wId (wards twoWardsDb))) by compute_done.
  assert (H3 : "w3" ∉ map wId (wards twoWardsDb)) by compute_done.
  pose proof (ward_names_stay_unique "w3"
                (wardFormRequest []
                   [("name", "Ward 3 - Edappally"); ("description", "Edappally area")])
                twoWardsDb H1 H2 H3) as ((Hnames & _ & Hcreate) & _).
  split; [|exact Hnames].
  destruct (Hcreate "Ward 3 - Edappally" eq_refl) as [_ Hnew].
  apply Hnew. compute_done.
Defined.

Lemma wardExists_find db wardId :
  wardExists db wardId <-> exists w, List.find (hasWardId wardId) (wards db) = Some w.
Proof.
  unfold wardExists, hasWardId. split.
  - intros (w & Hin & Hid).
    destruct (List.find (fun w0 => bool_decide (wId w0 = wardId)) (wards db))
      as [w'|] eqn:Hf; [eauto|].
    apply (find_none_all _ _ w Hf) in Hin.
    apply bool_decide_eq_false in Hin. destruct Hin; exact Hid.
  - intros (w & Hf). apply find_some_holds in Hf as [Hin Hid].
    apply bool_decide_eq_true in Hid. eauto.
Qed.

Lemma sameNameInWard_none name wardId (zs : list SubZone) :
  List.find (sameNameInWard (Some name) wardId) zs = None <->
  (wardId, name) ∉ map zoneKey zs.
Proof.
  induction zs as [|z zs IH]; simpl.
  - split; [intros _ H; inversion H | reflexivity].
  - unfold sameNameInWard at 1, zoneKey at 1.
    destruct (decide (szName z = name)) as [Hn | Hn];
      destruct (decide (szWardId z = wardId)) as [Hw | Hw];
      rewrite ?(bool_decide_eq_true_2 _ Hn), ?(bool_decide_eq_false_2 _ Hn),
        ?(bool_decide_eq_true_2 _ Hw), ?(bool_decide_eq_false_2 _ Hw); simpl.
    + split; [discriminate|]. intros H. destruct H. rewrite Hn, Hw. left.
    + rewrite IH, not_elem_of_cons. intuition congruence.
    + rewrite IH, not_elem_of_cons. intuition congruence.
    + rewrite IH, not_elem_of_cons. intuition congruence.
Qed.

(** X8 (createSubZone): the handler answers 404 and changes nothing when
    the ward of the route does not exist, and 400 when a sub-zone of that
    ward already has the name.  Otherwise it appends one sub-zone, of that
    ward and with that name.  So every sub-zone still belongs to a ward of
    the table, and names that were pairwise different within each ward stay
    so. *)
Theorem createSubZone_keeps_names_unique_in_ward :
  forall (newId : string) (req : Request) (db : Db),
    let r := createSubZone newId req db in
    (referentialIntegrity db -> referentialIntegrity (snd r)) /\
    (NoDup (map zoneKey (subZones db)) ->
     NoDup (map zoneKey (subZones (snd r)))) /\
    (~ wardExists db (wardIdParam req) ->
     r = (SendJson 404 (messageBody false "Ward not found"), db)) /\
    (forall name,
       wardExists db (wardIdParam req) ->
       reqBody req !! "name" = Some name ->
       ((wardIdParam req, name) ∈ map zoneKey (subZones db) ->
        r = (SendJson 400
               (messageBody false "Sub-zone name already exists in this ward"),
             db)) /\
       ((wardIdParam req, name) ∉ map zoneKey (subZones db) ->
        forall isActive,
          boolField (reqBody req !! "isActive") = Some isActive ->
          replyStatus (fst r) = Some 201 /\
          snd r
          = withSubZones db
              (subZones db ++
               [mkSubZone newId name (wardIdParam req)
                  (reqBody req !! "description") (default true isActive)]))) /\
    (replyStatus (fst r) <> Some 201 -> snd r = db).
Proof.
  intros newId req db. cbn zeta. unfold createSubZone. fold (wardIdParam req).
  destruct (List.find (hasWardId (wardIdParam req)) (wards db)) as [ward|] eqn:Hw.
  2: { cbn. split; [auto|]. split; [auto|]. split; [auto|]. split; [|auto].
       intros name Hex. apply wardExists_find in Hex as (w & Hex). congruence. }
  assert (Hex : wardExists db (wardIdParam req)).
  { apply wardExists_find. eauto. }
  destruct (List.find (sameNameInWard (reqBody req !! "name") (wardIdParam req))
              (subZones db)) as [z|] eqn:Hz.
  { cbn. split; [auto|]. split; [auto|]. split; [intros H; destruct (H Hex)|].
    split; [|auto]. intros name _ Hname. rewrite Hname in Hz.
    split; [reflexivity|]. intros Hnot.
    apply sameNameInWard_none in Hnot. congruence. }
  destruct (reqBody req !! "name") as [name|] eqn:Hname.
  2: { cbn. split; [auto|]. split; [auto|]. split; [intros H; destruct (H Hex)|].
       split; [|auto]. intros name _ [=]. }
  apply sameNameInWard_none in Hz.
  destruct (boolField (reqBody req !! "isActive")) as [isActive|] eqn:Hact.
  2: { cbn. split; [auto|]. split; [auto|]. split; [intros H; destruct (H Hex)|].
       split; [|auto]. intros n _ [= <-].
       split; [intros Hin; destruct (Hz Hin)|]. intros _ a [=]. }
  cbn. split; [|split; [|split; [|split]]].
  - intros [Hzones Hcomplaints]. split.
    + intros z' Hz'. cbn in Hz'. apply elem_of_app in Hz' as [Hz' | Hz'].
      * destruct (Hzones z' Hz') as (w & Hin & Hid). exists w. auto.
      * apply list_elem_of_singleton in Hz'. subst z'. exact Hex.
    + intros c Hc. destruct (Hcomplaints c Hc) as (w & Hin & Hid).
      exists w. auto.
  - intros Hnd. rewrite map_app. apply NoDup_app. split; [exact Hnd|].
    split; [|apply NoDup_singleton].
    intros x Hx Hx'. apply list_elem_of_singleton in Hx'. subst x.
    exact (Hz Hx).
  - intros H; destruct (H Hex).
  - intros n _ [= <-]. split; [intros Hin; destruct (Hz Hin)|].
    intros _ a [= <-]. split; reflexivity.
  - intros H. destruct H. reflexivity.
Qed.

Lemma NoDup_map_split {A B : Type} (g : A -> B) (l1 l2 : list A) (x y : A) :
  NoDup (map g (l1 ++ x :: l2)) -> y ∈ l1 ++ l2 -> g y <> g x.
Proof.
  rewrite map_app. simpl. intros Hnd Hy Heq.
  apply NoDup_app in Hnd as (_ & Hdisj & Hnd).
  apply NoDup_cons in Hnd as [Hnot _].
  apply elem_of_app in Hy as [Hy | Hy].
  - apply (Hdisj (g y)); [apply (list_elem_of_fmap_2 g), Hy|].
    rewrite Heq. left.
  - apply Hnot. rewrite <- Heq. apply (list_elem_of_fmap_2 g), Hy.
Qed.

(** X9 (updateSubZone): the handler never changes the id or the ward of a
    sub-zone, so every sub-zone still belongs to a ward of the table, and it
    changes the table only when it answers 200, which it does only for a
    sub-zone of the ward of the route.  Unlike [createSubZone] it does not
    look for the new name among the sub-zones of the ward: renaming a
    sub-zone to the name of another sub-zone of its ward is answered 200
    and leaves two sub-zones of that ward with one name. *)
Theorem updateSubZone_keeps_ward_not_name_uniqueness :
  forall (req : Request) (db : Db),
    let r := updateSubZone req db in
    map szId (subZones (snd r)) = map szId (subZones db) /\
    map szWardId (subZones (snd r)) = map szWardId (subZones db) /\
    (referentialIntegrity db -> referentialIntegrity (snd r)) /\
    (replyStatus (fst r) = Some 200 ->
     exists z, z ∈ subZones db /\ szId z = idParam req /\
               szWardId z = wardIdParam req) /\
    (replyStatus (fst r) <> Some 200 -> snd r = db) /\
    (forall z1 z2 isActive,
       NoDup (map szId (subZones db)) ->
       z1 ∈ subZones db -> z2 ∈ subZones db -> szId z1 <> szId z2 ->
       szWardId z1 = szWardId z2 ->
       wardExists db (szWardId z2) ->
       idParam req = szId z2 -> wardIdParam req = szWardId z2 ->
       reqBody req !! "name" = Some (szName z1) ->
       boolField (reqBody req !! "isActive") = Some isActive ->
       replyStatus (fst r) = Some 200 /\
       ~ NoDup (map zoneKey (subZones (snd r)))).
Proof.
  intros req db. cbn zeta. unfold updateSubZone.
  fold (wardIdParam req). fold (idParam req).
  set (rename := fun (old : SubZone) (isActive : option bool) =>
         mkSubZone (szId old) (default (szName old) (reqBody req !! "name"))
           (szWardId old)
           match reqBody req !! "description" with
           | Some d => Some d
           | None => szDescription old
           end (default (szIsActive old) isActive)).
  assert (Hsame : forall zones old isActive,
            List.find (hasSubZoneId (idParam req)) zones = Some old ->
            map szId (updateFirst (hasSubZoneId (idParam req))
                        (fun _ => rename old isActive) zones)
            = map szId zones /\
            map szWardId (updateFirst (hasSubZoneId (idParam req))
                            (fun _ => rename old isActive) zones)
            = map szWardId zones).
  { intros zones old isActive Hf.
    destruct (updateFirst_some _ (fun _ => rename old isActive) _ _ Hf)
      as (l1 & l2 & -> & -> & _).
    rewrite !map_app. simpl. auto. }
  assert (Hunchanged :
            forall reply : Reply,
              map szId (subZones (snd (reply, db))) = map szId (subZones db) /\
              map szWardId (subZones (snd (reply, db)))
              = map szWardId (subZones db) /\
              (referentialIntegrity db -> referentialIntegrity (snd (reply, db)))).
  { intros reply. cbn. auto. }
  destruct (List.find (hasWardId (wardIdParam req)) (wards db)) as [ward|] eqn:Hw.
  2: { destruct (Hunchanged (SendJson 404 (messageBody false "Ward not found")))
         as (H1 & H2 & H3).
       split; [exact H1|]. split; [exact H2|]. split; [exact H3|].
       split; [discriminate|]. split; [reflexivity|].
       intros z1 z2 isActive _ _ _ _ _ Hex _ Heq.
       rewrite <- Heq in Hex. apply wardExists_find in Hex as (w & Hex).
       congruence. }
  destruct (List.find (hasSubZoneId (idParam req)) (subZones db)) as [old|] eqn:Hz.
  2: { destruct (Hunchanged (SendJson 404 (messageBody false "Sub-zone not found")))
         as (H1 & H2 & H3).
       split; [exact H1|]. split; [exact H2|]. split; [exact H3|].
       split; [discriminate|]. split; [reflexivity|].
       intros z1 z2 isActive _ _ Hin2 _ _ _ Hid.
       apply (find_none_all _ _ z2 Hz) in Hin2. unfold hasSubZoneId in Hin2.
       apply bool_decide_eq_false in Hin2. destruct Hin2. congruence. }
  pose proof (find_some_holds _ _ _ Hz) as [Hold Holdid].
  unfold hasSubZoneId in Holdid. apply bool_decide_eq_true in Holdid.
  destruct (decide (szWardId old = wardIdParam req)) as [Hbelongs | Hbelongs].
  2: { rewrite (bool_decide_eq_false_2 _ Hbelongs). cbn [negb].
       destruct (Hunchanged
                   (SendJson 400
                      (messageBody false "Sub-zone does not belong to this ward")))
         as (H1 & H2 & H3).
       split; [exact H1|]. split; [exact H2|]. split; [exact H3|].
       split; [discriminate|]. split; [reflexivity|].
       intros z1 z2 isActive Hnd _ Hin2 _ _ _ Hid Hwid.
       destruct Hbelongs. rewrite Hwid. f_equal.
       apply (same_by_key szId (subZones db)); auto. congruence. }
  rewrite (bool_decide_eq_true_2 _ Hbelongs). cbn [negb].
  destruct (boolField (reqBody req !! "isActive")) as [isActive|] eqn:Hact.
  2: { destruct (Hunchanged (Thrown validationError)) as (H1 & H2 & H3).
       split; [exact H1|]. split; [exact H2|]. split; [exact H3|].
       split; [discriminate|]. split; [reflexivity|].
       intros z1 z2 a _ _ _ _ _ _ _ _ _ [=]. }
  fold (rename old isActive). cbn [fst snd replyStatus subZones withSubZones].
  destruct (Hsame (subZones db) old isActive Hz) as [Hids Hwards].
  split; [exact Hids|]. split; [exact Hwards|]. split; [|split; [|split]].
  - intros [Hzones Hcomplaints]. split.
    + intros z Hin. cbn in Hin.
      assert (Hin' : szWardId z ∈ map szWardId (subZones db)).
      { rewrite <- Hwards. apply (list_elem_of_fmap_2 szWardId), Hin. }
      apply list_elem_of_fmap in Hin' as (z0 & -> & Hin0).
      destruct (Hzones z0 Hin0) as (w & Hwin & Hwid). exists w. auto.
    + intros c Hc. destruct (Hcomplaints c Hc) as (w & Hwin & Hwid).
      exists w. auto.
  - intros _. exists old. auto.
  - intros H. destruct H. reflexivity.
  - intros z1 z2 a Hnd Hin1 Hin2 Hne Hsamew _ Hid Hwid Hname _.
    split; [reflexivity|].
    assert (old = z2) as ->.
    { apply (same_by_key szId (subZones db)); auto. congruence. }
    destruct (updateFirst_some _ (fun _ => rename z2 isActive) _ _ Hz)
      as (l1 & l2 & Hl & Hu & _).
    rewrite Hu. intros Hnd'.
    assert (Hz1 : z1 ∈ l1 ++ l2).
    { rewrite Hl in Hin1. apply elem_of_app in Hin1 as [H | H].
      - apply elem_of_app; left; exact H.
      - apply elem_of_cons in H as [-> | H]; [destruct Hne; reflexivity|].
        apply elem_of_app; right; exact H. }
    apply (NoDup_map_split zoneKey l1 l2 (rename z2 isActive) z1 Hnd' Hz1).
    unfold zoneKey, rename. cbn. rewrite Hname. cbn. congruence.
Qed.

(** Renaming the second sub-zone of a ward to the name of the first. *)
Lemma updateSubZone_witness :
  replyStatus (fst (updateSubZone renameRequest crowdedWardDb)) = Some 200 /\
  ~ NoDup (map zoneKey (subZones (snd (updateSubZone renameRequest crowdedWardDb)))).
Proof.
  pose proof (updateSubZone_keeps_ward_not_name_uniqueness renameRequest
                crowdedWardDb) as H.
  cbv zeta in H. destruct H as (_ & _ & _ & _ & _ & H).
  apply (H paradeGround veli None).
  - compute_done.
  - left.
  - right. left.
  - discriminate.
  - reflexivity.
  - eexists. split; [left | reflexivity].
  - vm_compute. reflexivity.
  - vm_compute. reflexivity.
  - vm_compute. reflexivity.
  - reflexivity.
Defined.

End WardAdminFacts.

(** ** From the ward table to the sub-zone cache of the client *)

Module WardFetchFacts.
Import DataSlice DataSliceSpec DataCache DataCacheFacts WardAdmin WardAdminSpec
  WardAdminFacts
  TableFacts.

Lemma filter_sublist {A : Type} (p : A -> bool) (l : list A) :
  sublist (List.filter p l) l.
Proof.
  induction l as [|x l IH]; simpl; [constructor|].
  destruct (p x); [apply sublist_skip, IH | apply sublist_cons, IH].
Qed.

Section Fetch.

Variable orderByName : forall A : Type, (A -> string) -> list A -> list A.

(** Sorting returns the rows it was given. *)
Hypothesis orderByName_perm :
  forall (A : Type) (f : A -> string) (l : list A), orderByName A f l ≡ₚ l.

Lemma payload_ids req db :
  map wpId (getWardsData orderByName req db)
  = map wId (orderByName Ward wName (List.filter (listed req) (wards db))).
Proof. unfold getWardsData. rewrite map_map. reflexivity. Qed.

Lemma payload_ids_NoDup req db :
  NoDup (map wId (wards db)) ->
  NoDup (map wpId (getWardsData orderByName req db)).
Proof.
  intros Hnd. rewrite payload_ids.
  assert (Hp : map wId (orderByName Ward wName (List.filter (listed req) (wards db)))
               ≡ₚ map wId (List.filter (listed req) (wards db))).
  { apply fmap_Permutation, orderByName_perm. }
  rewrite Hp. apply (sublist_NoDup _ _ Hnd).
  apply (fmap_sublist wId). apply filter_sublist.
Qed.

Lemma payload_find req db id :
  NoDup (map wId (wards db)) ->
  List.find (fun w => bool_decide (wpId w = id)) (getWardsData orderByName req db)
  = if existsb (fun w => hasWardId id w && listed req w) (wards db)
    then
      Some (mkWardPayload id
              (default EmptyString (wName <$> List.find (hasWardId id) (wards db)))
              (List.find (hasWardId id) (wards db) ≫= wDescription)
              (default false (wIsActive <$> List.find (hasWardId id) (wards db)))
              (if bool_decide (reqQuery req !! "include" = Some "subzones")
               then SubZonesArray
                      (orderByName SubZone szName (activeSubZones db id))
               else SubZonesAbsent))
    else None.
Proof.
  intros Hnd.
  set (mk := fun w : Ward =>
         mkWardPayload (wId w) (wName w) (wDescription w) (wIsActive w)
           (if bool_decide (reqQuery req !! "include" = Some "subzones")
            then SubZonesArray
                   (orderByName SubZone szName (activeSubZones db (wId w)))
            else SubZonesAbsent)).
  set (rows := orderByName Ward wName (List.filter (listed req) (wards db))).
  assert (Hrows : forall w, w ∈ rows <-> w ∈ wards db /\ listed req w = true).
  { intros w. unfold rows. rewrite (orderByName_perm Ward wName).
    rewrite !list_elem_of_In, filter_In. reflexivity. }
  change (getWardsData orderByName req db) with (map mk rows).
  destruct (existsb (fun w => hasWardId id w && listed req w) (wards db)) eqn:He.
  - apply existsb_exists in He as (w & Hin & Hw).
    apply andb_true_iff in Hw as [Hid Hl]. apply list_elem_of_In in Hin.
    assert (Hfind : List.find (hasWardId id) (wards db) = Some w).
    { destruct (List.find (hasWardId id) (wards db)) as [w'|] eqn:Hf.
      - apply find_some_holds in Hf as [Hin' Hid'].
        unfold hasWardId in *. apply bool_decide_eq_true in Hid, Hid'.
        f_equal. apply (same_by_key wId (wards db)); auto. congruence.
      - apply (find_none_all _ _ w Hf) in Hin. congruence. }
    rewrite Hfind. cbn.
    unfold hasWardId in Hid. apply bool_decide_eq_true in Hid.
    transitivity (Some (mk w)); [|unfold mk; rewrite Hid; reflexivity].
    destruct (List.find (fun p => bool_decide (wpId p = id)) (map mk rows))
      as [p|] eqn:Hp.
    + apply find_some_holds in Hp as [Hpin Hpid].
      apply bool_decide_eq_true in Hpid.
      apply list_elem_of_fmap in Hpin as (w' & -> & Hw').
      apply Hrows in Hw' as [Hw' _]. f_equal. f_equal.
      apply (same_by_key wId (wards db)); auto. cbn in Hpid. congruence.
    + assert (Hmk : mk w ∈ map mk rows).
      { apply (list_elem_of_fmap_2 mk). apply Hrows. auto. }
      apply (find_none_all _ _ _ Hp) in Hmk. cbn in Hmk.
      rewrite bool_decide_eq_true_2 in Hmk by exact Hid. discriminate.
  - destruct (List.find (fun p => bool_decide (wpId p = id)) (map mk rows))
      as [p|] eqn:Hp; [|reflexivity].
    apply find_some_holds in Hp as [Hpin Hpid].
    apply list_elem_of_fmap in Hpin as (w' & -> & Hw').
    apply Hrows in Hw' as [Hw' Hl].
    assert (Ht : existsb (fun w => hasWardId id w && listed req w) (wards db)
                 = true).
    { apply existsb_exists. exists w'. split; [apply list_elem_of_In, Hw'|].
      unfold hasWardId. cbn in Hpid. rewrite Hpid, Hl. reflexivity. }
    congruence.
Qed.

(** X10 (getWards with getWards.onQueryStarted and setWardsWithSubZones):
    the store after a fulfilled ward query, ward ids being distinct in the
    table.  The ward list of the store holds the wards the query lists (the
    active ones, or all of them).  Without [include=subzones] the sub-zone
    cache is the previous one, and so it is when no listed ward has an
    active sub-zone.  Otherwise the id of a listed ward selects its active
    sub-zones, and any other id selects nothing, whatever was cached
    before. *)
Theorem fetched_wards_reach_the_store :
  forall (Rest : Type) (clock : nat -> Z) (req : Request) (db : Db)
         (state : DataState Rest),
    NoDup (map wId (wards db)) ->
    let response :=
      mkWardsResponse true (Some (getWardsData orderByName req db)) in
    let state' := onQueryStarted clock (Some response) state in
    map wpId (selectWardsArray state')
    ≡ₚ map wId (List.filter (listed req) (wards db)) /\
    (reqQuery req !! "include" <> Some "subzones" ->
     locSubZones (locations state') = locSubZones (locations state)) /\
    (reqQuery req !! "include" = Some "subzones" ->
     ((forall w, w ∈ wards db -> listed req w = true ->
                 activeSubZones db (wId w) = []) ->
      locSubZones (locations state') = locSubZones (locations state)) /\
     ((exists w, w ∈ wards db /\ listed req w = true /\
                 activeSubZones db (wId w) <> []) ->
      forall id,
        selectSubZonesByWardId id state'
        ≡ₚ if existsb (fun w => hasWardId id w && listed req w) (wards db)
           then activeSubZones db id else [])).
Proof.
  intros Rest clock req db state Hnd. cbn zeta.
  unfold onQueryStarted. cbn [wrSuccess wrWards].
  assert (Hrows : forall w,
            w ∈ orderByName Ward wName (List.filter (listed req) (wards db))
            <-> w ∈ wards db /\ listed req w = true).
  { intros w. rewrite (orderByName_perm Ward wName).
    rewrite !list_elem_of_In, filter_In. reflexivity. }
  split; [|split].
  - unfold selectWardsArray, setWardsWithSubZones. cbn.
    rewrite map_map.
    transitivity (map wpId (getWardsData orderByName req db));
      [reflexivity|].
    rewrite payload_ids. apply fmap_Permutation, orderByName_perm.
  - intros Hno. apply shallow_payload_keeps_cache.
    intros p Hp. unfold getWardsData in Hp.
    apply list_elem_of_fmap in Hp as (w & -> & _).
    rewrite (bool_decide_eq_false_2 _ Hno). reflexivity.
  - intros Hinc. split.
    + intros Hempty. apply shallow_payload_keeps_cache.
      intros p Hp. unfold getWardsData in Hp.
      apply list_elem_of_fmap in Hp as (w & -> & Hw).
      apply Hrows in Hw as [Hw Hl].
      rewrite (bool_decide_eq_true_2 _ Hinc).
      unfold carriesSubZones, subZonesArray. cbn.
      rewrite (Hempty w Hw Hl).
      pose proof (orderByName_perm SubZone szName []) as Hperm.
      apply Permutation_nil_r in Hperm. rewrite Hperm. reflexivity.
    + intros (w0 & Hw0 & Hl0 & Hz0) id.
      rewrite selectSubZones_lookup.
      rewrite deep_payload_lookup.
      * rewrite (payload_find req db id Hnd).
        destruct (existsb (fun w => hasWardId id w && listed req w) (wards db));
          [|reflexivity].
        rewrite (bool_decide_eq_true_2 _ Hinc). cbn.
        apply orderByName_perm.
      * exists (mkWardPayload (wId w0) (wName w0) (wDescription w0)
                  (wIsActive w0)
                  (SubZonesArray
                     (orderByName SubZone szName (activeSubZones db (wId w0))))).
        split.
        -- unfold getWardsData. rewrite (bool_decide_eq_true_2 _ Hinc).
           apply (list_elem_of_fmap_2
                    (fun w => mkWardPayload (wId w) (wName w) (wDescription w)
                                (wIsActive w)
                                (SubZonesArray
                                   (orderByName SubZone szName
                                      (activeSubZones db (wId w)))))).
           apply Hrows. auto.
        -- unfold carriesSubZones, subZonesArray. cbn.
           pose proof (orderByName_perm SubZone szName
                         (activeSubZones db (wId w0))) as Hperm.
           destruct (orderByName SubZone szName (activeSubZones db (wId w0)))
             as [|z zs]; [|reflexivity].
           apply Permutation_nil_l in Hperm. destruct Hz0. congruence.
      * intros p Hp. unfold getWardsData in Hp.
        apply list_elem_of_fmap in Hp as (w & -> & _). cbn.
        destruct (bool_decide _); discriminate.
      * apply payload_ids_NoDup, Hnd.
Qed.

End Fetch.

(** The table of two wards, fetched with its sub-zones into a store that
    had cached a sub-zone under another ward id. *)
Lemma fetched_wards_witness :
  selectSubZonesByWardId "w1"
    (onQueryStarted (fun k => Z.of_nat k)
       (Some (mkWardsResponse true
                (Some (getWardsData (fun _ _ l => l) deepRequest
                         WardSpec.twoWardsDb))))
       cachedState)
  ≡ₚ [mkSubZone "z1" "Parade Ground" "w1" None true]
  /\ selectSubZonesByWardId "w5"
       (onQueryStarted (fun k => Z.of_nat k)
          (Some (mkWardsResponse true
                   (Some (getWardsData (fun _ _ l => l) deepRequest
                            WardSpec.twoWardsDb))))
          cachedState)
     ≡ₚ [].
Proof.
  assert (Hnd : NoDup (map wId (wards WardSpec.twoWardsDb))) by compute_done.
  pose proof (fetched_wards_reach_the_store (fun _ _ l => l)
                (fun _ _ l => Permutation_refl l) unit (fun k => Z.of_nat k)
                deepRequest WardSpec.twoWardsDb cachedState Hnd)
    as (_ & _ & Hdeep).
  destruct (Hdeep eq_refl) as [_ Hsel].
  assert (Hex : exists w, w ∈ wards WardSpec.twoWardsDb /\
                          listed deepRequest w = true /\
                          activeSubZones WardSpec.twoWardsDb (wId w) <> []).
  { exists (mkWard "w1" "Ward 1 - Fort Kochi" None true).
    split; [left|]. split; [reflexivity | discriminate]. }
  split; [exact (Hsel Hex "w1") | exact (Hsel Hex "w5")].
Defined.

End WardFetchFacts.

(** ** Users: update, statistics and verification *)

Module UserAdminFacts.
Import UserController UserAdmin UserAdminSpec UserSpec WardAdmin TableFacts.

Lemma allowedUpdates_other_field key value req :
  key ∉ allowedFields ->
  allowedUpdates (Validation.setBodyField key (Some value) req)
  = allowedUpdates req.
Proof.
  intros Hkey. unfold allowedUpdates, Validation.setBodyField. cbn.
  apply map_filter_insert_not. intros y. exact Hkey.
Qed.

Lemma updateFirst_map_const {A B : Type} (g : A -> B) (p : A -> bool)
    (x' : A) (l : list A) (x : A) :
  List.find p l = Some x -> g x' = g x ->
  map g (updateFirst p (fun _ => x') l) = map g l.
Proof.
  intros Hf Hg.
  destruct (updateFirst_some p (fun _ => x') l x Hf) as (l1 & l2 & -> & -> & _).
  rewrite !map_app. simpl. rewrite Hg. reflexivity.
Qed.

(** X11 (updateUser): the handler keeps the id, the e-mail address, the
    stored password and the registration date of every user, and a body
    field outside the allowed list has no effect on what it does.  It has
    no guard for administrators: a request that sets only [isActive] to
    false for an active administrator is answered 200 and leaves one active
    administrator fewer, none when it was the only one. *)
Theorem updateUser_whitelist_and_no_admin_guard :
  forall (reference : WardReference) (req : Request) (db : Db),
    let r := updateUser reference req db in
    (map uId (users (snd r)) = map uId (users db) /\
     map uEmail (users (snd r)) = map uEmail (users db) /\
     map uPassword (users (snd r)) = map uPassword (users db) /\
     map uJoinedOn (users (snd r)) = map uJoinedOn (users db)) /\
    (forall key value,
       key ∉ allowedFields ->
       updateUser reference (Validation.setBodyField key (Some value) req) db
       = r) /\
    (forall user,
       List.find (hasId (targetId req)) (users db) = Some user ->
       isActiveAdmin user = true ->
       allowedUpdates req = {[ "isActive" := "false" ]} ->
       replyStatus (fst r) = Some 200 /\
       countWhere isActiveAdmin (users (snd r))
       = countWhere isActiveAdmin (users db) - 1).
Proof.
  intros reference req db. cbn zeta. split; [|split].
  - unfold updateUser.
    destruct (boolField (allowedUpdates req !! "isActive")) as [isActive|];
      [|cbn; auto].
    destruct (List.find _ (users db)) as [old|] eqn:Hf; [|cbn; auto].
    destruct (negb _); [cbn; auto|].
    cbn [snd users withUsers].
    repeat split; apply (updateFirst_map_const _ _ _ _ old Hf); reflexivity.
  - intros key value Hkey. unfold updateUser.
    rewrite (allowedUpdates_other_field key value req Hkey). reflexivity.
  - intros user Hf Hadmin Hbody. unfold updateUser. fold (targetId req).
    rewrite Hbody, Hf.
    rewrite lookup_singleton_eq. cbn [boolField].
    rewrite bool_decide_eq_false_2 by discriminate.
    rewrite bool_decide_eq_true_2 by reflexivity.
    rewrite !lookup_singleton_ne by discriminate.
    assert (Hknown : (match reference with
                      | Enforced | NotEnforced => true
                      end) = true) by (destruct reference; reflexivity).
    replace (match reference, (None : option string) with
             | Enforced, Some w => existsb (hasWardId w) (wards db)
             | _, _ => true
             end) with true by (destruct reference; reflexivity).
    cbn [negb fst snd replyStatus users withUsers].
    split; [reflexivity|].
    destruct (updateFirst_some (hasId (targetId req))
                (fun _ => mkUser (uId user) (default (uFullName user) None)
                            (uEmail user) (orKeep None (uPhoneNumber user))
                            (default (uRole user) None)
                            (orKeep None (uWardId user))
                            (orKeep None (uDepartment user)) (uPassword user)
                            (default (uIsActive user) (Some false))
                            (uJoinedOn user))
                (users db) user Hf) as (l1 & l2 & Hl & Hu & _).
    rewrite Hu, Hl. rewrite !countWhere_app, !countWhere_cons, Hadmin.
    unfold isActiveAdmin at 2. cbn. rewrite andb_false_r. lia.
Qed.

(** The only administrator of a table of two users is deactivated. *)
Lemma updateUser_witness :
  countWhere isActiveAdmin
    (users (snd (updateUser Enforced (deactivateRequest "u1") soleAdminDb)))
  = 0.
Proof.
  pose proof (updateUser_whitelist_and_no_admin_guard Enforced
                (deactivateRequest "u1") soleAdminDb) as (_ & _ & Hguard).
  destruct (Hguard (mkUser "u1" "Asha Admin" "admin@kochi.gov.in" None
                      "ADMINISTRATOR" None None (Some "$2a$10$abc") true 0))
    as [_ Hcount]; [reflexivity | reflexivity | compute_done |].
  rewrite Hcount. reflexivity.
Defined.

Lemma countWhere_le_length {A : Type} (p : A -> bool) (l : list A) :
  0 <= countWhere p l <= Z.of_nat (length l).
Proof.
  unfold countWhere. pose proof (List.filter_length_le p l). lia.
Qed.

Lemma one_group_matches (role : string) (roles : list string) :
  NoDup roles -> role ∈ roles ->
  fold_right Z.add 0
    (map (fun r => if bool_decide (role = r) then 1 else 0) roles) = 1.
Proof.
  induction roles as [|r roles IH]; intros Hnd Hin; [inversion Hin|].
  apply NoDup_cons in Hnd as [Hr Hnd]. simpl.
  destruct (decide (role = r)) as [-> | Hne].
  - rewrite bool_decide_eq_true_2 by reflexivity.
    assert (H0 : fold_right Z.add 0
                   (map (fun r0 => if bool_decide (r = r0) then 1 else 0) roles)
                 = 0).
    { clear IH Hnd Hin. induction roles as [|x roles IH]; [reflexivity|].
      simpl. rewrite bool_decide_eq_false_2.
      - rewrite IH; [reflexivity|]. intros H. apply Hr. right; exact H.
      - intros ->. apply Hr. left. }
    lia.
  - rewrite bool_decide_eq_false_2 by exact Hne.
    apply elem_of_cons in Hin as [Hin | Hin]; [congruence|].
    rewrite IH by assumption. reflexivity.
Qed.

Lemma group_counts_add_up (roles : list string) (us : list User) :
  NoDup roles -> (forall u, u ∈ us -> uRole u ∈ roles) ->
  fold_right Z.add 0
    (map (fun role => countWhere (fun u => bool_decide (uRole u = role)) us)
       roles)
  = Z.of_nat (length us).
Proof.
  intros Hnd. induction us as [|u us IH]; intros Hroles.
  - clear Hnd. induction roles as [|r roles IHr]; [reflexivity|].
    simpl. rewrite IHr; [reflexivity|]. intros u Hu; inversion Hu.
  - assert (Hsplit : forall rs,
              fold_right Z.add 0
                (map (fun role =>
                        countWhere (fun u0 => bool_decide (uRole u0 = role))
                          (u :: us)) rs)
              = fold_right Z.add 0
                  (map (fun r => if bool_decide (uRole u = r) then 1 else 0) rs)
                + fold_right Z.add 0
                    (map (fun role =>
                            countWhere (fun u0 => bool_decide (uRole u0 = role))
                              us) rs)).
    { induction rs as [|r rs IHrs]; [reflexivity|].
      simpl. rewrite IHrs, countWhere_cons. lia. }
    rewrite Hsplit, IH, (one_group_matches (uRole u) roles Hnd).
    + simpl length. lia.
    + apply Hroles. left.
    + intros u0 Hu0. apply Hroles. right; exact Hu0.
Qed.

Lemma fold_insert_lookup (groups : list (string * Z)) :
  forall (acc : gmap string Z) (role : string),
    NoDup (map fst groups) ->
    fold_left (fun acc item => <[fst item := snd item]> acc) groups acc !! role
    = match List.find (fun item => bool_decide (fst item = role)) groups with
      | Some item => Some (snd item)
      | None => acc !! role
      end.
Proof.
  induction groups as [|[r n] groups IH]; intros acc role Hnd; [reflexivity|].
  simpl in Hnd. apply NoDup_cons in Hnd as [Hr Hnd]. simpl.
  rewrite IH by exact Hnd.
  destruct (decide (r = role)) as [-> | Hne].
  - rewrite bool_decide_eq_true_2 by reflexivity.
    destruct (List.find (fun item => bool_decide (fst item = role)) groups)
      as [item|] eqn:Hf.
    + apply find_some_holds in Hf as [Hin Hk].
      apply bool_decide_eq_true in Hk. destruct Hr. rewrite <- Hk.
      apply (list_elem_of_fmap_2 fst), Hin.
    + apply lookup_insert_eq.
  - rewrite bool_decide_eq_false_2 by exact Hne.
    destruct (List.find (fun item => bool_decide (fst item = role)) groups);
      [reflexivity|].
    apply lookup_insert_ne. exact Hne.
Qed.

(** X12 (getUserStats): the numbers of the statistics add up.  Active and
    inactive users make the total; the recent registrations are between
    zero and the total; the counts of the role groups sum to the total; and
    [byRole] has an entry exactly for the roles that occur, which holds the
    number of users with that role, at least one. *)
Theorem user_statistics_add_up :
  forall (now : Z) (db : Db),
    let stats := userStats now db in
    stTotal stats = Z.of_nat (length (users db)) /\
    stActive stats + stInactive stats = stTotal stats /\
    0 <= stActive stats <= stTotal stats /\
    0 <= stRecentRegistrations stats <= stTotal stats /\
    totalCount (roleDistribution (users db)) = stTotal stats /\
    (forall role,
       stByRole stats !! role
       = if bool_decide (role ∈ map uRole (users db))
         then Some (countWhere (fun u => bool_decide (uRole u = role)) (users db))
         else None) /\
    (forall role n, stByRole stats !! role = Some n -> 1 <= n).
Proof.
  intros now db. cbn zeta. unfold userStats. cbn.
  assert (Hlook : forall role,
            fold_left (fun acc item => <[fst item := snd item]> acc)
              (roleDistribution (users db)) (∅ : gmap string Z) !! role
            = if bool_decide (role ∈ map uRole (users db))
              then Some (countWhere (fun u => bool_decide (uRole u = role))
                           (users db))
              else None).
  { intros role. rewrite fold_insert_lookup.
    2: { unfold roleDistribution. rewrite map_map. cbn. rewrite map_id.
         apply NoDup_remove_dups. }
    unfold roleDistribution.
    destruct (List.find _ _) as [[r n]|] eqn:Hf.
    - apply find_some_holds in Hf as [Hin Hk].
      cbn in Hk. apply bool_decide_eq_true in Hk. subst r.
      apply list_elem_of_fmap in Hin as (r & [= -> ->] & Hin).
      apply (proj1 (elem_of_remove_dups _ _)) in Hin.
      rewrite bool_decide_eq_true_2 by exact Hin. reflexivity.
    - rewrite lookup_empty.
      destruct (decide (role ∈ map uRole (users db))) as [Hin | Hin].
      + apply (proj2 (elem_of_remove_dups _ _)) in Hin.
        apply (list_elem_of_fmap_2
                 (fun role0 =>
                    (role0,
                     countWhere (fun u => bool_decide (uRole u = role0))
                       (users db)))) in Hin.
        apply (find_none_all _ _ _ Hf) in Hin. cbn in Hin.
        rewrite bool_decide_eq_true_2 in Hin by reflexivity. discriminate.
      + rewrite bool_decide_eq_false_2 by exact Hin. reflexivity. }
  split; [reflexivity|]. split; [lia|].
  split; [apply countWhere_le_length|]. split; [apply countWhere_le_length|].
  split; [|split].
  - unfold totalCount, roleDistribution. rewrite map_map. cbn.
    apply group_counts_add_up; [apply NoDup_remove_dups|].
    intros u Hu. apply elem_of_remove_dups, (list_elem_of_fmap_2 uRole), Hu.
  - exact Hlook.
  - intros role n. rewrite Hlook.
    destruct (decide (role ∈ map uRole (users db))) as [Hin | Hin].
    + rewrite bool_decide_eq_true_2 by exact Hin. intros [= <-].
      apply list_elem_of_fmap in Hin as (u & -> & Hu).
      destruct (Z.le_gt_cases 1
                  (countWhere (fun u0 => bool_decide (uRole u0 = uRole u))
                     (users db))) as [H1 | H1]; [exact H1|].
      assert (H0 : countWhere (fun u0 => bool_decide (uRole u0 = uRole u))
                     (users db) = 0).
      { pose proof (countWhere_nonneg
                      (fun u0 => bool_decide (uRole u0 = uRole u)) (users db)).
        lia. }
      apply countWhere_zero with (x := u) in H0; [|exact Hu].
      rewrite bool_decide_eq_true_2 in H0 by reflexivity. discriminate.
    + rewrite bool_decide_eq_false_2 by exact Hin. discriminate.
Qed.

Lemma prefix_app (h r : string) : String.prefix h (h ++ r) = true.
Proof.
  induction h as [|a h IH]; simpl; [destruct r; reflexivity|].
  destruct (ascii_dec a a) as [_ | Hne]; [exact IH | destruct Hne; reflexivity].
Qed.

Lemma occursIn_here (h r : string) : GuestRoutes.occursIn h (h ++ r) = true.
Proof.
  generalize (prefix_app h r).
  destruct (h ++ r)%string; simpl; intros ->; reflexivity.
Qed.

Lemma occursIn_later (h a s : string) :
  GuestRoutes.occursIn h s = true -> GuestRoutes.occursIn h (a ++ s) = true.
Proof.
  intros Hs. induction a as [|c a IH]; [exact Hs|].
  simpl. rewrite IH. apply orb_true_r.
Qed.

Lemma updateFirst_app_fresh {A : Type} (p : A -> bool) (f : A -> A)
    (l : list A) (x : A) :
  (forall y, y ∈ l -> p y = false) -> p x = true ->
  updateFirst p f (l ++ [x]) = l ++ [f x].
Proof.
  intros Hl Hx. induction l as [|y l IH]; simpl.
  - rewrite Hx. reflexivity.
  - rewrite (Hl y) by left. rewrite IH; [reflexivity|].
    intros z Hz. apply Hl. right; exact Hz.
Qed.

Lemma filter_app_fresh {A : Type} (p : A -> bool) (l : list A) (x : A) :
  (forall y, y ∈ l -> p y = false) ->
  List.filter p (l ++ [x]) = if p x then [x] else [].
Proof.
  intros Hl. rewrite List.filter_app.
  replace (List.filter p l) with (@nil A); [reflexivity|].
  symmetry. induction l as [|y l IH]; [reflexivity|]. simpl.
  rewrite (Hl y) by left. apply IH. intros z Hz. apply Hl. right; exact Hz.
Qed.

Lemma verificationObject_fields h iso :
  jsonGet "resetPasswordToken" (verificationObject h iso) = Some (JStr h) /\
  jsonGet "resetPasswordExpire" (verificationObject h iso) = Some (JStr iso) /\
  jsonGet "isVerificationToken" (verificationObject h iso) = Some (JBool true).
Proof. repeat split; vm_compute; reflexivity. Qed.

Section Verification.

Variable sha256hex : string -> string.
Variable toISOString : Z -> string.
Variable jsonParse : string -> option Json.
Variable dateValue : option Json -> option Z.

Lemma stored_token_occurs tokenHash expireIso :
  GuestRoutes.occursIn tokenHash (verificationTokenJson tokenHash expireIso)
  = true.
Proof.
  unfold verificationTokenJson.
  repeat (first [ apply occursIn_here | apply occursIn_later ]).
Qed.

(** When the reply says that the verification e-mail was sent, the new
    account is the last row, and its password column holds the token. *)
Lemma createUser_sent env req db data :
  cueNewId env ∉ map uId (users db) ->
  fst (createUser sha256hex toISOString env req db) = verificationSent data ->
  exists user,
    uId user = cueNewId env /\
    snd (createUser sha256hex toISOString env req db)
    = withUsers db
        (users db ++
         [setPassword
            (Some (verificationTokenJson (sha256hex (cueResetToken env))
                     (toISOString (cueNow env + 24 * 60 * 60 * 1000))))
            user]).
Proof.
  intros Hfresh. unfold createUser, verificationSent.
  destruct (0 <? Z.of_nat (length _)); [discriminate|].
  destruct (List.find _ (users db)); [discriminate|].
  assert (Hup : forall user pw,
            uId user = cueNewId env ->
            updateFirst (hasId (cueNewId env)) (setPassword pw)
              (users db ++ [user])
            = users db ++ [setPassword pw user]).
  { intros user pw Hid. apply updateFirst_app_fresh.
    - intros y Hy. unfold hasId. apply bool_decide_eq_false. intros Hyid.
      apply Hfresh. rewrite <- Hyid. apply (list_elem_of_fmap_2 uId), Hy.
    - unfold hasId. apply bool_decide_eq_true. exact Hid. }
  repeat match goal with
         | |- context [if ?c then _ else _] => destruct c
         end; cbn -[verificationTokenJson];
    try discriminate;
    destruct (cueEmailSent env); cbn -[verificationTokenJson];
    try discriminate;
    intros _; eexists; (split; [|rewrite Hup by reflexivity; reflexivity]);
    reflexivity.
Qed.

(** X13 (createUser with verifyAccount): the verification link of a new
    officer account works once, and only before it expires.  After
    [createUser] has reported that the verification e-mail was sent, a
    [verifyAccount] request with the token of that e-mail is answered 200
    when the clock it reads is before the expiry, 24 hours after the
    creation, and then the password column of the new account holds the hash
    of the submitted password; it is answered 400, and changes nothing, from
    the expiry on.  After a successful verification the same link is
    answered 400.  Assumed of the libraries: parsing the stored JSON text
    gives back the stored object and its date; of the table: the generated
    id is new and no stored password contains the digest of the token, nor
    does the new hash. *)
Theorem verification_link_works_once_before_expiry :
  forall (env : CreateUserEnv) (req : Request) (db : Db) (data : Json)
         (clock : nat -> Z) (hashedPassword : string) (token : Request)
         (password : string),
    let tokenHash := sha256hex (cueResetToken env) in
    let expire := cueNow env + 24 * 60 * 60 * 1000 in
    let created := createUser sha256hex toISOString env req db in
    let verified :=
      verifyAccount sha256hex jsonParse dateValue clock hashedPassword token
        (snd created) in
    jsonParse (verificationTokenJson tokenHash (toISOString expire))
    = Some (verificationObject tokenHash (toISOString expire)) ->
    dateValue (Some (JStr (toISOString expire))) = Some expire ->
    cueNewId env ∉ map uId (users db) ->
    (forall u stored, u ∈ users db -> uPassword u = Some stored ->
                      GuestRoutes.occursIn tokenHash stored = false) ->
    GuestRoutes.occursIn tokenHash hashedPassword = false ->
    fst created = verificationSent data ->
    reqParams token !! "token" = Some (cueResetToken env) ->
    reqBody token !! "password" = Some password ->
    (exists user,
       uId user = cueNewId env /\
       users (snd created) = users db ++ [user] /\
       (clock 0%nat < expire ->
        replyStatus (fst verified) = Some 200 /\
        users (snd verified) = users db ++ [activate hashedPassword user] /\
        uPassword (activate hashedPassword user) = Some hashedPassword /\
        forall clock' hashed',
          verifyAccount sha256hex jsonParse dateValue clock' hashed' token
            (snd verified)
          = (invalidToken, snd verified)) /\
       (expire <= clock 0%nat -> verified = (invalidToken, snd created))).
Proof.
  intros env req db data clock hashedPassword token password.
  cbn zeta.
  set (tokenHash := sha256hex (cueResetToken env)).
  set (expire := cueNow env + 24 * 60 * 60 * 1000).
  intros Hparse Hdate Hfresh Hnone Hhash Hsent Htoken Hpassword.
  destruct (createUser_sent env req db data Hfresh Hsent) as (user & Hid & Hdb).
  fold tokenHash expire in Hdb.
  set (stored := verificationTokenJson tokenHash (toISOString expire)) in *.
  exists (setPassword (Some stored) user).
  split; [exact Hid|]. rewrite Hdb. cbn [users withUsers].
  split; [reflexivity|].
  assert (Hothers : forall y, y ∈ users db ->
            match uPassword y with
            | Some s => GuestRoutes.occursIn tokenHash s
            | None => false
            end = false).
  { intros y Hy. destruct (uPassword y) as [s|] eqn:Hs; [|reflexivity].
    apply (Hnone y s Hy Hs). }
  assert (Hholds : forall now,
            holdsToken jsonParse dateValue tokenHash now
              (setPassword (Some stored) user) = (now <? expire)).
  { intros now. unfold holdsToken. cbn [uPassword setPassword].
    rewrite bool_decide_eq_false_2 by (unfold stored, verificationTokenJson; discriminate).
    rewrite Hparse.
    destruct (verificationObject_fields tokenHash (toISOString expire))
      as (Hf1 & Hf2 & Hf3).
    unfold verificationObject at 1. cbv iota beta.
    fold (verificationObject tokenHash (toISOString expire)).
    rewrite Hf1, Hf2, Hf3, Hdate. unfold BaseApi.isLiteral.
    rewrite bool_decide_eq_true_2 by reflexivity.
    rewrite andb_true_r. reflexivity. }
  assert (Hnoid : forall y, y ∈ users db -> hasId (cueNewId env) y = false).
  { intros y Hy. unfold hasId. apply bool_decide_eq_false. intros Hyid.
    apply Hfresh. rewrite <- Hyid. apply (list_elem_of_fmap_2 uId), Hy. }
  assert (Hocc : GuestRoutes.occursIn tokenHash stored = true).
  { unfold stored. apply stored_token_occurs. }
  set (db1 := withUsers db (users db ++ [setPassword (Some stored) user])).
  assert (Hrun :
            verifyAccount sha256hex jsonParse dateValue clock hashedPassword
              token db1
            = if clock 0%nat <? expire
              then
                (SendJson 200
                   (envelope true
                      "Account verified and password set successfully"
                      (JObj [("user",
                              userJson
                                (activate hashedPassword
                                   (setPassword (Some stored) user)))])),
                 withUsers db1
                   (users db ++
                    [activate hashedPassword (setPassword (Some stored) user)]))
              else (invalidToken, db1)).
  { unfold verifyAccount. rewrite Htoken, Hpassword.
    cbn [default from_option id users withUsers db1]. fold tokenHash.
    rewrite (filter_app_fresh _ (users db) (setPassword (Some stored) user)
               Hothers).
    cbn [uPassword setPassword]. rewrite Hocc. cbn [findFrom].
    rewrite Hholds. destruct (clock 0%nat <? expire); [|reflexivity].
    cbn [uId setPassword]. rewrite Hid.
    rewrite (updateFirst_app_fresh _ _ (users db) _ Hnoid)
      by (unfold hasId; apply bool_decide_eq_true; exact Hid).
    reflexivity. }
  rewrite Hrun. split.
  - intros Hbefore. apply Z.ltb_lt in Hbefore. rewrite Hbefore.
    cbn [fst snd replyStatus users withUsers].
    split; [reflexivity|]. split; [reflexivity|]. split; [reflexivity|].
    intros clock' hashed'. unfold verifyAccount.
    rewrite Htoken, Hpassword.
    cbn [default from_option id users withUsers db1]. fold tokenHash.
    rewrite (filter_app_fresh _ (users db) _ Hothers).
    cbn [uPassword activate setPassword setIsActive]. rewrite Hhash.
    reflexivity.
  - intros Hafter. apply Z.ltb_ge in Hafter. rewrite Hafter. reflexivity.
Qed.

End Verification.

(** A ward officer is created and follows the link within the day. *)
Lemma verification_link_witness :
  replyStatus
    (fst (verifyAccount id sampleParse sampleDate (fun _ => 5000)
            "$2a$10$new" (verifyRequest "c0ffee" "Str0ng!pass")
            (snd (createUser id (fun _ => sampleIso) sampleCreateEnv
                    (registrationRequest "Ward Officer 9" "wo9@kochi.gov.in"
                       "WARD_OFFICER") soleAdminDb))))
  = Some 200.
Proof.
  edestruct (verification_link_works_once_before_expiry id
               (fun _ => sampleIso) sampleParse sampleDate sampleCreateEnv
               (registrationRequest "Ward Officer 9" "wo9@kochi.gov.in"
                  "WARD_OFFICER") soleAdminDb
               (JObj [("user", userJson sampleOfficer)]) (fun _ => 5000)
               "$2a$10$new"
               (verifyRequest "c0ffee" "Str0ng!pass") "Str0ng!pass")
    as (user & _ & _ & Hok & _).
  - vm_compute. reflexivity.
  - vm_compute. reflexivity.
  - compute_done.
  - intros u stored Hu Hs. apply list_elem_of_In in Hu. simpl in Hu.
    destruct Hu as [<- | [<- | []]]; injection Hs as <-; reflexivity.
  - reflexivity.
  - vm_compute. reflexivity.
  - reflexivity.
  - reflexivity.
  - apply Hok. vm_compute. reflexivity.
Defined.

End UserAdminFacts.

(** ** Passwords: strength, change, and set-up by one-time code *)

Module PasswordFacts.
Import UserController UserSpec OtpProtocol PasswordSpec TableFacts.

Lemma anyChar_holds (p : ascii -> bool) (P : ascii -> Prop) password :
  (forall a, p a = true <-> P a) ->
  anyChar p password = true <-> holdsCharacter P password.
Proof.
  intros Hp. unfold anyChar, holdsCharacter. rewrite existsb_exists.
  split; intros (a & Hin & Ha); exists a;
    (split; [apply list_elem_of_In, Hin | apply Hp, Ha]).
Qed.

Lemma between_spec lo hi a :
  between lo hi a = true <-> (lo <= nat_of_ascii a <= hi)%nat.
Proof.
  unfold between. rewrite andb_true_iff, !Nat.leb_le. reflexivity.
Qed.

Lemma isSpecial_spec a : isSpecial a = true <-> a ∈ specialCharacters.
Proof.
  assert (H : isSpecial a = bool_decide (a ∈ specialCharacters))
    by (destruct a as [[] [] [] [] [] [] [] []]; vm_compute; reflexivity).
  rewrite H. apply bool_decide_eq_true.
Qed.

Lemma validatePasswordStrength_strong password :
  validatePasswordStrength password = [] <-> strong password.
Proof.
  unfold validatePasswordStrength, strong.
  rewrite <- (anyChar_holds isUpper _ password (between_spec 65 90)).
  rewrite <- (anyChar_holds isLower _ password (between_spec 97 122)).
  rewrite <- (anyChar_holds isDigit _ password (between_spec 48 57)).
  rewrite <- (anyChar_holds isSpecial _ password isSpecial_spec).
  destruct (strLen password <? 8) eqn:Hlen;
    destruct (anyChar isUpper password);
    destruct (anyChar isLower password);
    destruct (anyChar isDigit password);
    destruct (anyChar isSpecial password); simpl;
    first [ apply Z.ltb_lt in Hlen | apply Z.ltb_ge in Hlen ];
    split; intros H;
    try discriminate; try reflexivity;
    try (destruct H as (H1 & H2 & H3 & H4 & H5); try discriminate; lia);
    repeat split; auto.
Qed.

Lemma truthy_some (v : option string) :
  truthy v = true -> exists s, v = Some s /\ s <> EmptyString.
Proof.
  destruct v as [s|]; simpl; [|discriminate].
  intros H. exists s. split; [reflexivity|].
  apply negb_true_iff, bool_decide_eq_false in H. exact H.
Qed.

Section Change.

Variable jsonParses : string -> bool.
Variable bcryptCompare : string -> string -> bool.


End Change.

Lemma find_all_false {A : Type} (p : A -> bool) (l : list A) :
  (forall x, x ∈ l -> p x = false) -> List.find p l = None.
Proof.
  intros H. induction l as [|x l IH]; [reflexivity|]. simpl.
  rewrite (H x) by left. apply IH. intros y Hy. apply H. right; exact Hy.
Qed.

Lemma elem_of_updateMany {A : Type} (p : A -> bool) (f : A -> A) (l : list A)
    (y : A) :
  y ∈ updateMany p f l ->
  exists x, x ∈ l /\ y = if p x then f x else x.
Proof.
  unfold updateMany. intros Hy.
  apply list_elem_of_fmap in Hy as (x & -> & Hx). eauto.
Qed.

Lemma otpMatches_pending email code now o :
  otpMatches email code now o
  = pendingSetup email o && bool_decide (oOtpCode o = code)
    && (now <? oExpiresAt o).
Proof.
  unfold otpMatches, pendingSetup.
  destruct (bool_decide (oEmail o = email)), (bool_decide (oOtpCode o = code)),
    (bool_decide (oPurpose o = "PASSWORD_SETUP")), (oIsVerified o),
    (now <? oExpiresAt o); reflexivity.
Qed.

Section SetUp.

Variable jsonParses : string -> bool.

(** X15 (sendPasswordSetupOTP with verifyPasswordSetupOTP): only the
    latest code verifies.  For an active user without a password the
    request stores a new session and answers 200, or 500 when the e-mail
    could not be sent, and the user table stays as it is.  From then on a
    verification by that user is answered 400, and changes nothing, with
    every code other than the new one, with the new code from its expiry
    (ten minutes after the request) on, and with any code at all when the
    e-mail could not be sent; a verification with the new code before its
    expiry is answered 200.  The clock of the verification is not before
    the clocks read by the request. *)
Theorem new_code_invalidates_earlier_codes :
  forall (senv : SendOtpEnv) (req : Request) (db : Db) (user : User),
    List.find (hasId (callerId req)) (users db) = Some user ->
    uIsActive user = true ->
    hasValidPassword jsonParses (uPassword user) = false ->
    let sent := sendPasswordSetupOTP jsonParses senv req db in
    replyStatus (fst sent) = Some (if soeEmailSent senv then 200 else 500) /\
    users (snd sent) = users db /\
    (forall venv vreq code,
       reqUserId vreq = reqUserId req ->
       reqBody vreq !! "otpCode" = Some code ->
       soeExpireNow senv <= voeNow venv ->
       code <> soeOtpCode senv \/
       (soeEmailSent senv = true /\ soeNow senv + 10 * 60 * 1000 <= voeNow venv) \/
       (soeEmailSent senv = false /\ soeCleanupNow senv <= voeNow venv) ->
       replyStatus (fst (verifyPasswordSetupOTP venv vreq (snd sent)))
       = Some 400 /\
       snd (verifyPasswordSetupOTP venv vreq (snd sent)) = snd sent) /\
    (forall venv vreq,
       soeEmailSent senv = true ->
       reqUserId vreq = reqUserId req ->
       reqBody vreq !! "otpCode" = Some (soeOtpCode senv) ->
       soeOtpCode senv <> EmptyString ->
       voeNow venv < soeNow senv + 10 * 60 * 1000 ->
       replyStatus (fst (verifyPasswordSetupOTP venv vreq (snd sent)))
       = Some 200).
Proof.
  intros senv req db user Hfind Hactive Hnopw. cbn zeta.
  set (fresh := mkOTPSession (soeNewId senv) (Some (uId user)) (uEmail user)
                  (soeOtpCode senv) "PASSWORD_SETUP" false
                  (soeNow senv + 10 * 60 * 1000) None).
  set (sessions2 :=
         updateMany (pendingSetup (uEmail user))
           (setExpiresAt (soeExpireNow senv)) (otpSessions db) ++ [fresh]).
  set (cleaned :=
         updateMany
           (fun o => bool_decide (oEmail o = uEmail user)
                     && bool_decide (oPurpose o = "PASSWORD_SETUP")
                     && bool_decide (oOtpCode o = soeOtpCode senv))
           (setExpiresAt (soeCleanupNow senv)) sessions2).
  assert (Hsent :
            sendPasswordSetupOTP jsonParses senv req db
            = if soeEmailSent senv
              then (SendJson 200
                      (envelope true "OTP sent to your email for password setup"
                         (JObj [("email", JStr (uEmail user));
                                ("expiresAt",
                                 JNum (soeNow senv + 10 * 60 * 1000))])),
                    withOtpSessions db sessions2)
              else (SendJson 500
                      (envelope false "Failed to send OTP. Please try again."
                         JNull),
                    withOtpSessions db cleaned)).
  { unfold sendPasswordSetupOTP. fold (callerId req).
    rewrite Hfind, Hactive, Hnopw. cbn [negb]. reflexivity. }
  rewrite Hsent.
  assert (Hold : forall o now,
            o ∈ updateMany (pendingSetup (uEmail user))
                  (setExpiresAt (soeExpireNow senv)) (otpSessions db) ->
            soeExpireNow senv <= now ->
            pendingSetup (uEmail user) o && (now <? oExpiresAt o) = false).
  { intros o now Ho Hnow. apply elem_of_updateMany in Ho as (x & _ & ->).
    destruct (pendingSetup (uEmail user) x) eqn:Hp.
    - unfold pendingSetup in *. cbn. cbn in Hp. rewrite Hp. cbn.
      apply Z.ltb_ge. exact Hnow.
    - rewrite Hp. reflexivity. }
  split; [destruct (soeEmailSent senv); reflexivity|].
  split; [destruct (soeEmailSent senv); reflexivity|].
  split.
  - intros venv vreq code Huser Hcode Hnow Hcase.
    assert (Hdead : forall o,
              o ∈ otpSessions
                    (snd (if soeEmailSent senv
                          then (SendJson 200 JNull, withOtpSessions db sessions2)
                          else (SendJson 500 JNull, withOtpSessions db cleaned))) ->
              otpMatches (uEmail user) code (voeNow venv) o = false).
    { intros o Ho. rewrite otpMatches_pending.
      destruct (soeEmailSent senv) eqn:Hmail; cbn in Ho.
      - apply elem_of_app in Ho as [Ho | Ho].
        + pose proof (Hold o (voeNow venv) Ho Hnow) as Hd.
          destruct (pendingSetup (uEmail user) o); [|reflexivity].
          cbn in Hd. rewrite Hd. apply andb_false_r.
        + apply list_elem_of_singleton in Ho. subst o. cbn.
          destruct Hcase as [Hne | [[_ Hexp] | [Hf _]]]; [| |discriminate].
          * rewrite (bool_decide_eq_false_2 _ (not_eq_sym Hne)).
            rewrite andb_false_r. reflexivity.
          * replace (voeNow venv <? soeNow senv + 10 * 60 * 1000) with false
              by (symmetry; apply Z.ltb_ge; exact Hexp).
            apply andb_false_r.
      - apply elem_of_updateMany in Ho as (x & Hx & ->).
        destruct (bool_decide (oEmail x = uEmail user)
                  && bool_decide (oPurpose x = "PASSWORD_SETUP")
                  && bool_decide (oOtpCode x = soeOtpCode senv)) eqn:Hclean.
        + apply andb_true_iff in Hclean as [_ Hc].
          apply bool_decide_eq_true in Hc. cbn.
          destruct Hcase as [Hne | [[Hf _] | [_ Hexp]]]; [|discriminate|].
          * rewrite Hc. rewrite (bool_decide_eq_false_2 _ (not_eq_sym Hne)).
            rewrite andb_false_r. reflexivity.
          * replace (voeNow venv <? soeCleanupNow senv) with false
              by (symmetry; apply Z.ltb_ge; exact Hexp).
            apply andb_false_r.
        + apply elem_of_app in Hx as [Hx | Hx].
          * pose proof (Hold x (voeNow venv) Hx Hnow) as Hd.
            destruct (pendingSetup (uEmail user) x); [|reflexivity].
            cbn in Hd. rewrite Hd. apply andb_false_r.
          * apply list_elem_of_singleton in Hx. subst x. cbn in Hclean.
            rewrite !bool_decide_eq_true_2 in Hclean by reflexivity.
            discriminate. }
    unfold verifyPasswordSetupOTP. rewrite Hcode, Huser. fold (callerId req).
    destruct (negb (truthy (Some code))); [destruct (soeEmailSent senv); cbn; auto|].
    assert (Husers : users (snd (if soeEmailSent senv
                                 then (SendJson 200
                      (envelope true "OTP sent to your email for password setup"
                         (JObj [("email", JStr (uEmail user));
                                ("expiresAt",
                                 JNum (soeNow senv + 10 * 60 * 1000))])),
                    withOtpSessions db sessions2)
              else (SendJson 500
                      (envelope false "Failed to send OTP. Please try again."
                         JNull),
                    withOtpSessions db cleaned))) = users db).
    { destruct (soeEmailSent senv); reflexivity. }
    rewrite Husers, Hfind, Hactive. cbn [negb default from_option id].
    rewrite find_all_false; [cbn; auto|].
    intros o Ho. apply Hdead. destruct (soeEmailSent senv); exact Ho.
  - intros venv vreq Hmail Huser Hcode Hne Hnow.
    rewrite Hmail. unfold verifyPasswordSetupOTP.
    rewrite Hcode, Huser. fold (callerId req).
    cbn [snd users withOtpSessions otpSessions truthy].
    rewrite (bool_decide_eq_false_2 _ Hne). cbn [negb].
    rewrite Hfind, Hactive. cbn [negb default from_option id].
    destruct (List.find (otpMatches (uEmail user) (soeOtpCode senv) (voeNow venv))
                sessions2) as [o|] eqn:Hf; [reflexivity|].
    assert (Hin : fresh ∈ sessions2).
    { unfold sessions2. apply elem_of_app. right. left. }
    apply (find_none_all _ _ _ Hf) in Hin.
    unfold otpMatches, fresh in Hin. cbn in Hin.
    rewrite !bool_decide_eq_true_2 in Hin by reflexivity.
    apply Z.ltb_lt in Hnow. rewrite Hnow in Hin. discriminate.
Qed.

End SetUp.

Lemma find_app_first {A : Type} (p : A -> bool) (l1 l2 : list A) (x : A) :
  List.find p l1 = None -> p x = true -> List.find p (l1 ++ x :: l2) = Some x.
Proof.
  intros Hn Hx. induction l1 as [|y l1 IH]; simpl.
  - rewrite Hx. reflexivity.
  - simpl in Hn. destruct (p y); [discriminate|]. apply IH, Hn.
Qed.

(** After a code was sent, another code is refused. *)
Lemma new_code_witness :
  replyStatus
    (fst (verifyPasswordSetupOTP (mkVerifyOtpEnv 2000 2001)
            (otpRequest "111111")
            (snd (sendPasswordSetupOTP (fun _ => false) sampleSendEnv
                    (otpRequest EmptyString) otpUserDb))))
  = Some 400.
Proof.
  destruct (new_code_invalidates_earlier_codes (fun _ => false) sampleSendEnv
              (otpRequest EmptyString) otpUserDb
              (mkUser "u7" "Ward Officer 1" "wardofficer1@kochi.gov.in" None
                 "WARD_OFFICER" (Some "w1") None None true 0)
              eq_refl eq_refl eq_refl) as (_ & _ & Hdead & _).
  apply (Hdead (mkVerifyOtpEnv 2000 2001) (otpRequest "111111") "111111");
    [reflexivity | reflexivity | simpl; lia | left; discriminate].
Defined.

Section SetPassword.

Variable jsonParses : string -> bool.

(** X16 (setPasswordAfterOTP): the handler changes the database only when
    it answers 200.  It does so only for an active user without a password
    who submits a password that equals its confirmation and meets the
    strength rules, and for whom a password-setup session was verified
    less than thirty minutes before the clock it reads.  It then stores the
    hash as the password of that user and lets every password-setup session
    of the address expire at the clock it reads last; and since the user
    now has a password (the hash is not empty and is no JSON text), every
    later request of the user to this handler is answered 400 and changes
    nothing. *)
Theorem setPasswordAfterOTP_needs_recent_verification :
  forall (env : SetPasswordEnv) (req : Request) (db : Db),
    let r := setPasswordAfterOTP jsonParses env req db in
    (replyStatus (fst r) <> Some 200 -> snd r = db) /\
    (replyStatus (fst r) = Some 200 ->
     exists user password session verifiedAt,
       List.find (hasId (callerId req)) (users db) = Some user /\
       uIsActive user = true /\
       hasValidPassword jsonParses (uPassword user) = false /\
       reqBody req !! "password" = Some password /\
       reqBody req !! "confirmPassword" = Some password /\
       strong password /\
       session ∈ otpSessions db /\
       oEmail session = uEmail user /\
       oPurpose session = "PASSWORD_SETUP" /\
       oIsVerified session = true /\
       oVerifiedAt session = Some verifiedAt /\
       speNow env - 30 * 60 * 1000 < verifiedAt /\
       (exists before after,
          users db = before ++ user :: after /\
          users (snd r)
          = before ++ setPassword (Some (speHashed env)) user :: after) /\
       (forall o, o ∈ otpSessions (snd r) -> oEmail o = uEmail user ->
                  oPurpose o = "PASSWORD_SETUP" ->
                  oExpiresAt o = speExpireNow env) /\
       (speHashed env <> EmptyString -> jsonParses (speHashed env) = false ->
        forall env' req',
          reqUserId req' = reqUserId req ->
          replyStatus (fst (setPasswordAfterOTP jsonParses env' req' (snd r)))
          = Some 400 /\
          snd (setPasswordAfterOTP jsonParses env' req' (snd r)) = snd r)).
Proof.
  intros env req db. cbn zeta. split.
  - unfold setPasswordAfterOTP.
    repeat match goal with
           | |- context [if ?c then _ else _] => destruct c; cbn; auto
           | |- context [match ?c with _ => _ end] => destruct c; cbn; auto
           end;
      intros H; destruct H; reflexivity.
  - unfold setPasswordAfterOTP. fold (callerId req).
    destruct (negb (truthy (reqBody req !! "password"))
              || negb (truthy (reqBody req !! "confirmPassword"))) eqn:Hfields;
      [cbn; discriminate|].
    apply orb_false_iff in Hfields as [Hp Hc].
    apply negb_false_iff, truthy_some in Hp as (password & Hpw & _).
    apply negb_false_iff, truthy_some in Hc as (conf & Hconf & _).
    rewrite Hpw, Hconf.
    destruct (decide (Some password = Some conf)) as [Heq | Hne].
    2: { rewrite (bool_decide_eq_false_2 _ Hne). cbn. discriminate. }
    injection Heq as <-. rewrite bool_decide_eq_true_2 by reflexivity.
    cbn [negb default from_option id].
    destruct (decide (validatePasswordStrength password = []))
      as [Hstrong | Hweak].
    2: { rewrite (bool_decide_eq_false_2 _ Hweak). cbn. discriminate. }
    rewrite (bool_decide_eq_true_2 _ Hstrong). cbn [negb].
    destruct (List.find (hasId (callerId req)) (users db)) as [user|] eqn:Hf;
      [|cbn; discriminate].
    destruct (uIsActive user) eqn:Hactive; [|cbn; discriminate]. cbn [negb].
    destruct (hasValidPassword jsonParses (uPassword user)) eqn:Hvalid;
      [cbn; discriminate|].
    destruct (List.find (recentlyVerified (uEmail user)
                           (speNow env - 30 * 60 * 1000)) (otpSessions db))
      as [session|] eqn:Hs; [|cbn; discriminate].
    intros _. cbn [fst snd users otpSessions withUsers withOtpSessions].
    apply find_some_holds in Hs as [Hsin Hrecent].
    unfold recentlyVerified in Hrecent.
    apply andb_true_iff in Hrecent as [Hrecent Hat].
    apply andb_true_iff in Hrecent as [Hrecent Hver].
    apply andb_true_iff in Hrecent as [Hemail Hpurpose].
    apply bool_decide_eq_true in Hemail, Hpurpose.
    destruct (oVerifiedAt session) as [verifiedAt|] eqn:Hvat; [|discriminate].
    apply Z.ltb_lt in Hat.
    destruct (updateFirst_some _ (setPassword (Some (speHashed env))) _ _ Hf)
      as (before & after & Hl & Hu & Hnone).
    exists user, password, session, verifiedAt.
    repeat (split; [first [reflexivity | assumption
                          | apply validatePasswordStrength_strong; assumption]|]).
    split; [exists before, after; rewrite Hu; auto|].
    split.
    + intros o Ho Hoe Hop. apply elem_of_updateMany in Ho as (x & _ & ->).
      destruct (bool_decide (oEmail x = uEmail user)
                && bool_decide (oPurpose x = "PASSWORD_SETUP")) eqn:Hx;
        [reflexivity|].
      rewrite !bool_decide_eq_true_2 in Hx by assumption. discriminate.
    + intros Hnonempty Hnojson env' req' Huser.
      unfold setPasswordAfterOTP. rewrite Huser. fold (callerId req).
      cbn [users withUsers withOtpSessions]. rewrite Hu.
      assert (Hid : hasId (callerId req) (setPassword (Some (speHashed env)) user)
                    = true).
      { apply find_some_holds in Hf as [_ Hid]. exact Hid. }
      destruct (negb (truthy (reqBody req' !! "password"))
                || negb (truthy (reqBody req' !! "confirmPassword")));
        [cbn; auto|].
      destruct (negb (bool_decide (reqBody req' !! "password"
                                   = reqBody req' !! "confirmPassword")));
        [cbn; auto|].
      destruct (negb (bool_decide
                        (validatePasswordStrength
                           (default EmptyString (reqBody req' !! "password"))
                         = []))); [cbn; auto|].
      rewrite (find_app_first _ before after _ Hnone Hid).
      cbn [uIsActive setPassword uPassword]. rewrite Hactive.
      assert (Hset : hasValidPassword jsonParses (Some (speHashed env)) = true).
      { unfold hasValidPassword. cbn [truthy default from_option id].
        rewrite (bool_decide_eq_false_2 _ Hnonempty), Hnojson. reflexivity. }
      rewrite Hset. cbn. auto.
Qed.

End SetPassword.

End PasswordFacts.


(** ** The validation chains of the ward and sub-zone forms *)

Module WardFormFacts.
Import Validation ValidationSpec WardFormSpec.

Lemma runSteps_validators db field steps : forall req,
  Forall isValidator steps ->
  runSteps db field steps req
  = withErrors req
      (reqErrors req
       ++ flat_map (stepErrors db field (reqBody req !! field)) steps).
Proof.
  induction steps as [| step steps IH]; intros req Hall.
  - simpl. rewrite app_nil_r. destruct req; reflexivity.
  - apply Forall_cons in Hall as [Hstep Hall].
    destruct step as [| check message]; [destruct Hstep |].
    cbn [runSteps flat_map stepErrors].
    destruct (checkHolds db check (reqBody req !! field)).
    + rewrite (IH req Hall). reflexivity.
    + rewrite (IH _ Hall). unfold withErrors, addError. cbn.
      rewrite <- app_assoc. reflexivity.
Qed.

Lemma runField_validators db chain req :
  Forall isValidator (fcSteps chain) ->
  runField db chain req
  = withErrors req (reqErrors req ++ fieldErrors db (reqBody req) chain).
Proof.
  intros Hall. unfold runField, fieldErrors.
  destruct (fcOptional chain && bool_decide (reqBody req !! fcField chain = None)).
  - rewrite app_nil_r. destruct req; reflexivity.
  - apply runSteps_validators, Hall.
Qed.

Lemma runFields_validators db chains : forall req,
  Forall (fun chain => Forall isValidator (fcSteps chain)) chains ->
  runFields db chains req
  = withErrors req
      (reqErrors req ++ flat_map (fieldErrors db (reqBody req)) chains).
Proof.
  unfold runFields.
  induction chains as [| chain chains IH]; intros req Hall.
  - simpl. rewrite app_nil_r. destruct req; reflexivity.
  - apply Forall_cons in Hall as [Hchain Hall].
    cbn [fold_left flat_map]. rewrite (runField_validators db chain req Hchain).
    rewrite (IH _ Hall). unfold withErrors. cbn.
    rewrite <- app_assoc. reflexivity.
Qed.

Lemma no_added_errors (errs es : list ValidationError) :
  errs ++ es = errs <-> es = [].
Proof.
  split; [| intros ->; apply app_nil_r].
  intros H. apply (f_equal length) in H. rewrite length_app in H.
  destruct es; [reflexivity | simpl in H; lia].
Qed.

Lemma validatorLength_bounds s : 0 <= validatorLength s <= strLen s.
Proof.
  unfold validatorLength, strLen.
  induction (list_ascii_of_string s) as [| a l IH];
    cbn [validatorLengthChars fold_right]; [lia |].
  unfold codeUnitsOf in *.
  destruct (isContinuation a), (startsSelector a l), (byteBetween 240 255 a);
    cbn [orb]; lia.
Qed.

Lemma required_length_errors db body field m1 m2 lo hi :
  0 < lo ->
  fieldErrors db body
    (mkFieldChain field false
       [Validate NotEmpty m1; Validate (IsLength (Some lo) (Some hi)) m2]) = []
  <-> lengthWithin lo hi (body !! field).
Proof.
  intros Hlo. unfold fieldErrors, lengthWithin.
  cbn [fcOptional fcField fcSteps andb flat_map stepErrors checkHolds app].
  destruct (body !! field) as [s |]; cbn [default from_option id].
  - pose proof (validatorLength_bounds s) as Hb.
    destruct (Z.eqb_spec (strLen s) 0) as [H0 | H0]; cbn [negb].
    + split; [discriminate |]. intros (s' & [= <-] & H). lia.
    + destruct (Z.leb_spec lo (validatorLength s)) as [H1 | H1];
        destruct (Z.leb_spec (validatorLength s) hi) as [H2 | H2];
        cbn [andb app];
        split; try discriminate;
        try (intros _; exists s; split; [reflexivity | lia]);
        intros (s' & [= <-] & H); first [lia | reflexivity].
  - split; [discriminate |]. intros (s' & [=] & _).
Qed.

Lemma optional_boolean_errors db body field m :
  fieldErrors db body (mkFieldChain field true [Validate IsBoolean m]) = []
  <-> absentOrBoolean (body !! field).
Proof.
  unfold fieldErrors, absentOrBoolean.
  cbn [fcOptional fcField fcSteps andb flat_map stepErrors checkHolds app].
  destruct (body !! field) as [s |]; cbn [default from_option id].
  - rewrite bool_decide_eq_false_2 by discriminate.
    destruct (decide (s ∈ ["true"; "false"; "1"; "0"])) as [Hin | Hout].
    + rewrite (bool_decide_eq_true_2 _ Hin).
      split; [| reflexivity]. intros _. right. exists s. auto.
    + rewrite (bool_decide_eq_false_2 _ Hout).
      split; [discriminate |].
      intros [[=] | (s' & [= <-] & Hin)]. contradiction.
  - rewrite bool_decide_eq_true_2 by reflexivity.
    split; [| reflexivity]. intros _. left. reflexivity.
Qed.

Lemma optional_length_errors db body field m hi :
  fieldErrors db body
    (mkFieldChain field true [Validate (IsLength None (Some hi)) m]) = []
  <-> body !! field = None \/
      exists s, body !! field = Some s /\ validatorLength s <= hi.
Proof.
  unfold fieldErrors.
  cbn [fcOptional fcField fcSteps andb flat_map stepErrors checkHolds app].
  destruct (body !! field) as [s |]; cbn [default from_option id].
  - rewrite bool_decide_eq_false_2 by discriminate.
    pose proof (validatorLength_bounds s) as H0.
    destruct (Z.leb_spec 0 (validatorLength s)) as [_ | H]; [| lia].
    destruct (Z.leb_spec (validatorLength s) hi) as [H2 | H2]; cbn [andb app].
    + split; [| reflexivity]. intros _. right. exists s. auto.
    + split; [discriminate |].
      intros [[=] | (s' & [= <-] & H)]. lia.
  - rewrite bool_decide_eq_true_2 by reflexivity.
    split; [| reflexivity]. intros _. left. reflexivity.
Qed.

Lemma three_lists_nil {A} (a b c : list A) :
  a ++ b ++ c ++ [] = [] <-> a = [] /\ b = [] /\ c = [].
Proof.
  rewrite app_nil_r. split.
  - intros H. apply app_eq_nil in H as [-> H].
    apply app_eq_nil in H as [-> ->]. auto.
  - intros (-> & -> & ->). reflexivity.
Qed.

(** X17 (validateWard, validateSubZone): the chains of the ward form record
    no error exactly when the name has 2 to 100 characters, the description
    is present with 10 to 500 characters and isActive is absent or one of
    true, false, 1, 0; those of the sub-zone form differ in the description,
    which may be absent and otherwise has at most 500 characters.
    Characters are counted as the validator counts them: code points,
    variation selectors left out.  Neither changes the body, and a missing
    ward name is reported twice, as required and as out of range. *)
Theorem ward_forms_accepted_exactly :
  forall (db : Db) (req : Request),
    (reqErrors (runFields db validateWard req) = reqErrors req
     <-> wardFormAccepted (reqBody req)) /\
    (reqErrors (runFields db validateSubZone req) = reqErrors req
     <-> subZoneFormAccepted (reqBody req)) /\
    reqBody (runFields db validateWard req) = reqBody req /\
    reqBody (runFields db validateSubZone req) = reqBody req /\
    (reqBody req !! "name" = None ->
     exists rest,
       reqErrors (runFields db validateWard req)
       = reqErrors req
         ++ [mkValidationError "name" "Ward name is required" None;
             mkValidationError "name"
               "Ward name must be between 2 and 100 characters" None]
         ++ rest).
Proof.
  intros db req.
  assert (Hward : Forall (fun chain => Forall isValidator (fcSteps chain))
                    validateWard)
    by (repeat constructor).
  assert (Hzone : Forall (fun chain => Forall isValidator (fcSteps chain))
                    validateSubZone)
    by (repeat constructor).
  rewrite (runFields_validators db validateWard req Hward).
  rewrite (runFields_validators db validateSubZone req Hzone).
  cbn [withErrors reqErrors reqBody].
  rewrite !no_added_errors.
  unfold validateWard, validateSubZone.
  cbn [flat_map]. rewrite !three_lists_nil.
  rewrite !required_length_errors by lia.
  rewrite !optional_boolean_errors, optional_length_errors.
  split; [reflexivity |]. split; [reflexivity |].
  split; [reflexivity |]. split; [reflexivity |].
  intros Hname. unfold fieldErrors at 1.
  cbn [fcOptional fcField fcSteps andb flat_map stepErrors checkHolds].
  rewrite Hname. cbn. eexists. reflexivity.
Qed.

End WardFormFacts.

(** ** The names of stored uploads *)

Module UploadNameFacts.
Import GuestRoutes UploadNameSpec.

Lemma chars_app (a b : string) :
  list_ascii_of_string (a ++ b)
  = list_ascii_of_string a ++ list_ascii_of_string b.
Proof. induction a as [| c a IH]; simpl; [reflexivity | rewrite IH; reflexivity]. Qed.

Lemma takeWhileChars_dropWhileChars p l :
  takeWhileChars p l ++ dropWhileChars p l = l.
Proof.
  induction l as [| a l IH]; simpl; [reflexivity |].
  destruct (p a); simpl; [rewrite IH |]; reflexivity.
Qed.

Lemma takeWhileChars_holds p l : Forall (fun a => p a = true) (takeWhileChars p l).
Proof.
  induction l as [| a l IH]; simpl; [constructor |].
  destruct (p a) eqn:Hp; constructor; assumption.
Qed.

Lemma dropWhileChars_head p l a rest :
  dropWhileChars p l = a :: rest -> p a = false.
Proof.
  induction l as [| b l IH]; simpl; [discriminate |].
  destruct (p b) eqn:Hp; [exact IH |]. intros [= -> _]. exact Hp.
Qed.

Lemma takeWhileChars_all p l :
  Forall (fun a => p a = true) l -> takeWhileChars p l = l.
Proof.
  induction 1 as [| a l Ha _ IH]; simpl; [reflexivity |].
  rewrite Ha, IH. reflexivity.
Qed.

Lemma takeWhileChars_stop p l a rest :
  Forall (fun a => p a = true) l -> p a = false ->
  takeWhileChars p (l ++ a :: rest) = l.
Proof.
  induction 1 as [| b l Hb _ IH]; simpl; intros Ha.
  - rewrite Ha. reflexivity.
  - rewrite Hb, (IH Ha). reflexivity.
Qed.

Lemma dropWhileChars_none p l :
  Forall (fun a => p a = false) l -> dropWhileChars p l = l.
Proof. destruct 1 as [| a l Ha _]; simpl; [| rewrite Ha]; reflexivity. Qed.

Lemma notSlash_spec a : negb (isSlash a) = true <-> a <> slash.
Proof.
  unfold isSlash. rewrite negb_true_iff. split.
  - intros H. apply bool_decide_eq_false in H. exact H.
  - intros H. apply bool_decide_eq_false. exact H.
Qed.

Lemma lastComponentRev_no_slash path :
  Forall (fun a => a <> slash) (lastComponentRev path).
Proof.
  unfold lastComponentRev.
  eapply Forall_impl; [apply takeWhileChars_holds |].
  intros a Ha. apply notSlash_spec. exact Ha.
Qed.

Lemma lastComponentRev_whole l :
  Forall (fun a => a <> slash) l -> lastComponentRev (rev l) = l.
Proof.
  intros Hall. unfold lastComponentRev. rewrite rev_involutive.
  rewrite dropWhileChars_none.
  - apply takeWhileChars_all.
    eapply Forall_impl; [exact Hall |]. intros a Ha. apply notSlash_spec, Ha.
  - eapply Forall_impl; [exact Hall |]. intros a Ha.
    apply negb_true_iff, notSlash_spec, Ha.
Qed.

Lemma drop_past {A} (l : list A) d rest :
  drop (S (length l)) (l ++ d :: rest) = rest.
Proof. induction l as [| a l IH]; simpl; [destruct rest |]; auto. Qed.

(** A non-empty extension splits the last component, read from its end,
    into the extension's characters, the dot, and a non-empty rest. *)
Lemma extnameChars_split path ext :
  extnameChars path = ext -> ext <> [] ->
  exists extRev preRev,
    lastComponentRev path = extRev ++ dot :: preRev /\
    Forall (fun a => negb (isDot a) = true) extRev /\
    preRev <> [] /\
    ext = dot :: rev extRev.
Proof.
  unfold extnameChars.
  set (comp := lastComponentRev path).
  set (extRev := takeWhileChars (fun a => negb (isDot a)) comp).
  intros Hext Hne.
  destruct (bool_decide (length extRev = length comp)) eqn:Hlen;
    [congruence |].
  destruct (bool_decide (drop (S (length extRev)) comp = [])) eqn:Hpre;
    [congruence |].
  destruct (bool_decide (comp = [dot; dot])); [congruence |].
  apply bool_decide_eq_false in Hlen, Hpre.
  pose proof (takeWhileChars_dropWhileChars (fun a => negb (isDot a)) comp)
    as Hsplit.
  fold extRev in Hsplit.
  destruct (dropWhileChars (fun a => negb (isDot a)) comp) as [| d rest] eqn:Hdrop.
  { rewrite app_nil_r in Hsplit. rewrite Hsplit in Hlen. contradiction. }
  apply dropWhileChars_head in Hdrop.
  apply negb_false_iff in Hdrop. unfold isDot in Hdrop.
  apply bool_decide_eq_true in Hdrop. subst d.
  exists extRev, rest. split; [symmetry; exact Hsplit |].
  split; [apply takeWhileChars_holds |].
  split; [| symmetry; exact Hext].
  rewrite <- Hsplit in Hpre.
  rewrite drop_past in Hpre. exact Hpre.
Qed.

Lemma basename_no_slash path ext :
  Forall (fun a => a <> slash) (list_ascii_of_string (basename path ext)).
Proof.
  pose proof (lastComponentRev_no_slash (list_ascii_of_string path)) as Hcomp.
  apply Forall_rev in Hcomp.
  unfold basename.
  destruct (_ && _); rewrite list_ascii_of_string_of_list_ascii;
    [apply Forall_take |]; exact Hcomp.
Qed.

Lemma extnameChars_no_slash path :
  Forall (fun a => a <> slash) (extnameChars path).
Proof.
  destruct (extnameChars path) as [| c ext] eqn:Hext; [constructor |].
  destruct (extnameChars_split path (c :: ext) Hext ltac:(discriminate))
    as (extRev & preRev & Hcomp & _ & _ & ->).
  pose proof (lastComponentRev_no_slash path) as Hall.
  rewrite Hcomp in Hall. apply Forall_app in Hall as [Hext' Hrest].
  apply Forall_cons in Hrest as [Hdot _].
  constructor; [exact Hdot | apply Forall_rev, Hext'].
Qed.

Lemma accepted_has_extension name :
  fileFilter name = Accept -> extnameChars (list_ascii_of_string name) <> [].
Proof.
  unfold fileFilter, extname. intros Hacc Hnil. rewrite Hnil in Hacc.
  vm_compute in Hacc. discriminate.
Qed.

(** The stored name of a file with an extension: the rest of the last
    component, the suffix, the extension. *)
Lemma storageFilename_chars f extRev preRev :
  lastComponentRev (list_ascii_of_string (ufOriginalName f))
  = extRev ++ dot :: preRev ->
  preRev <> [] ->
  extnameChars (list_ascii_of_string (ufOriginalName f)) = dot :: rev extRev ->
  list_ascii_of_string (storageFilename f)
  = rev preRev
    ++ list_ascii_of_string ("-" ++ ufUniqueSuffix f)
    ++ dot :: rev extRev.
Proof.
  intros Hcomp Hpre Hext.
  unfold storageFilename, extname. cbv zeta. rewrite Hext.
  rewrite (chars_app (basename _ _)).
  change ("-" ++ ufUniqueSuffix f ++ string_of_list_ascii (dot :: rev extRev))%string
    with (("-" ++ ufUniqueSuffix f) ++ string_of_list_ascii (dot :: rev extRev))%string.
  rewrite (chars_app ("-" ++ ufUniqueSuffix f)).
  rewrite list_ascii_of_string_of_list_ascii. f_equal.
  unfold basename. rewrite Hcomp, list_ascii_of_string_of_list_ascii.
  rewrite rev_app_distr. cbn [rev]. rewrite <- app_assoc. cbn [app].
  replace (length (rev preRev ++ dot :: rev extRev) - length (dot :: rev extRev))%nat
    with (length (rev preRev)) by (rewrite length_app; lia).
  rewrite drop_app_length, take_app_length.
  rewrite bool_decide_eq_true_2 by reflexivity.
  rewrite bool_decide_eq_false_2.
  - cbn [andb negb]. apply list_ascii_of_string_of_list_ascii.
  - intros Heq. apply (f_equal length) in Heq.
    rewrite length_app, length_rev in Heq.
    destruct preRev; [contradiction | simpl in Heq; lia].
Qed.

(** X18 (storage.filename, fileFilter): when the unique suffix holds no
    slash, the name a file is stored under holds none either, whatever the
    original name, so the file is written inside the upload directory; and a
    file the filter accepts is stored under a name with the same extension,
    which the filter accepts again. *)
Theorem stored_names_stay_in_directory_and_keep_type :
  forall f : UploadedFile,
    (slash ∉ list_ascii_of_string (ufUniqueSuffix f)) ->
    (slash ∉ list_ascii_of_string (storageFilename f)) /\
    (fileFilter (ufOriginalName f) = Accept ->
     extname (storageFilename f) = extname (ufOriginalName f) /\
     fileFilter (storageFilename f) = Accept).
Proof.
  intros f Hsuffix.
  assert (Hsuf : Forall (fun a => a <> slash)
                   (list_ascii_of_string ("-" ++ ufUniqueSuffix f))).
  { cbn. constructor; [discriminate |].
    apply Forall_forall. intros a Ha ->. exact (Hsuffix Ha). }
  split.
  - unfold storageFilename. cbv zeta.
    intros Hin.
    assert (Hall : Forall (fun a => a <> slash)
              (list_ascii_of_string
                 (basename (ufOriginalName f) (extname (ufOriginalName f))
                  ++ "-" ++ ufUniqueSuffix f ++ extname (ufOriginalName f)))).
    { rewrite chars_app. apply Forall_app. split; [apply basename_no_slash |].
      change ("-" ++ ufUniqueSuffix f ++ extname (ufOriginalName f))%string
        with (("-" ++ ufUniqueSuffix f) ++ extname (ufOriginalName f))%string.
      rewrite chars_app. apply Forall_app. split; [exact Hsuf |].
      unfold extname. rewrite list_ascii_of_string_of_list_ascii.
      apply extnameChars_no_slash. }
    rewrite Forall_forall in Hall. exact (Hall slash Hin eq_refl).
  - intros Hacc.
    assert (Hsame : extname (storageFilename f) = extname (ufOriginalName f)).
    { pose proof (accepted_has_extension _ Hacc) as Hne.
      destruct (extnameChars_split _ _ eq_refl Hne)
        as (extRev & preRev & Hcomp & Hnodot & Hpre & Hext).
      pose proof (storageFilename_chars f extRev preRev Hcomp Hpre Hext)
        as Hchars.
      pose proof (lastComponentRev_no_slash
                    (list_ascii_of_string (ufOriginalName f))) as Hcompall.
      rewrite Hcomp in Hcompall. apply Forall_app in Hcompall as [HextS HrestS].
      apply Forall_cons in HrestS as [HdotS HpreS].
      unfold extname at 1 2. f_equal. rewrite Hext.
      unfold extnameChars. rewrite Hchars.
      set (mid := list_ascii_of_string ("-" ++ ufUniqueSuffix f)) in *.
      assert (Hrev : rev preRev ++ mid ++ dot :: rev extRev
                     = rev (extRev ++ dot :: rev mid ++ preRev)).
      { rewrite rev_app_distr. cbn [rev]. rewrite rev_app_distr, rev_involutive.
        rewrite <- !app_assoc. reflexivity. }
      rewrite Hrev, lastComponentRev_whole.
      2: { apply Forall_app. split; [exact HextS |].
           constructor; [exact HdotS |]. apply Forall_app.
           split; [apply Forall_rev, Hsuf | exact HpreS]. }
      cbv zeta.
      rewrite (takeWhileChars_stop _ extRev dot _ Hnodot)
        by (unfold isDot; rewrite bool_decide_eq_true_2; reflexivity).
      rewrite drop_past.
      assert (Hmid : rev mid ++ preRev <> []).
      { destruct preRev; [contradiction |]. intros H.
        apply app_eq_nil in H as [_ H]. discriminate. }
      rewrite bool_decide_eq_false_2
        by (rewrite length_app; simpl; lia).
      rewrite (bool_decide_eq_false_2 _ Hmid).
      rewrite bool_decide_eq_false_2; [reflexivity |].
      intros Heq. apply (f_equal length) in Heq.
      rewrite length_app in Heq. cbn [length] in Heq.
      rewrite length_app, length_rev in Heq.
      subst mid. cbn [list_ascii_of_string append length] in Heq.
      destruct preRev; [contradiction | simpl in Heq; lia]. }
    split; [exact Hsame |].
    unfold fileFilter in *. rewrite Hsame. exact Hacc.
Qed.

(** A name with directories and an upper-case extension. *)
Lemma stored_names_witness :
  (slash ∉ list_ascii_of_string (storageFilename traversingUpload)) /\
  (fileFilter (ufOriginalName traversingUpload) = Accept ->
   extname (storageFilename traversingUpload)
   = extname (ufOriginalName traversingUpload) /\
   fileFilter (storageFilename traversingUpload) = Accept).
Proof.
  apply (stored_names_stay_in_directory_and_keep_type traversingUpload).
  vm_compute. intros H.
  repeat (apply elem_of_cons in H as [H | H]; [discriminate H |]).
  inversion H.
Defined.

End UploadNameFacts.

(** ** The dates of a seeded complaint *)

Module KochiSeedFacts.
Import Sla KochiSeed KochiSeedSpec.

Lemma slaHours_values slaHours :
  slaHours ∈ map ctSlaHours COMPLAINT_TYPES ->
  slaHours = 12 \/ slaHours = 24 \/ slaHours = 48 \/ slaHours = 72.
Proof.
  cbn. intros H.
  repeat (apply elem_of_cons in H as [-> | H]; [auto |]).
  inversion H.
Qed.

(** X19 (main, the complaint loop): for every configured complaint type and
    every value the draws can take, the dates of a seeded complaint are in
    order.  Only a REGISTERED complaint has no assignment date, and an
    assignment is later than the submission; a resolution date exists
    exactly for RESOLVED and CLOSED, is not before the assignment and is
    within the deadline exactly when no breach was drawn; a closing date
    exists exactly for CLOSED and is later than the resolution. *)
Theorem seeded_dates_are_ordered :
  forall (now submittedOn slaHours : Z) (status : ComplaintStatus)
         (assignHours : Z) (willBreachSLA : bool)
         (breachHours withinHours closeDays : Z),
    slaHours ∈ map ctSlaHours COMPLAINT_TYPES ->
    drawsInRange slaHours assignHours breachHours withinHours closeDays ->
    let d := seedDates now submittedOn slaHours status assignHours
               willBreachSLA breachHours withinHours closeDays in
    (sdAssignedOn d = None <-> status = REGISTERED) /\
    (forall a, sdAssignedOn d = Some a -> submittedOn < a) /\
    (sdResolvedOn d <> None <-> status = RESOLVED \/ status = CLOSED) /\
    (forall a r, sdAssignedOn d = Some a -> sdResolvedOn d = Some r -> a <= r) /\
    (forall r, sdResolvedOn d = Some r ->
               (r <= sdDeadline d <-> willBreachSLA = false)) /\
    (sdClosedOn d <> None <-> status = CLOSED) /\
    (forall r c, sdResolvedOn d = Some r -> sdClosedOn d = Some c -> r < c).
Proof.
  intros now submittedOn slaHours status assignHours breach breachHours
    withinHours closeDays Hsla (Hassign & Hbreach & Hwithin & Hclose) d.
  apply slaHours_values in Hsla.
  assert (Hhalf : 6 <= withinHours < slaHours).
  { destruct Hsla as [-> | [-> | [-> | ->]]];
      vm_compute (_ / _) in Hwithin;
      change (12 * 9 / 10) with 10 in Hwithin;
      change (24 * 9 / 10) with 21 in Hwithin;
      change (48 * 9 / 10) with 43 in Hwithin;
      change (72 * 9 / 10) with 64 in Hwithin; lia. }
  clear Hsla Hwithin.
  subst d. unfold seedDates, addHours, addDays.
  destruct status, breach;
    repeat match goal with
           | |- context [bool_decide ?P] =>
               let b := eval vm_compute in (bool_decide P) in
               change (bool_decide P) with b
           end;
    cbn;
    repeat split; intros; try discriminate; try congruence; auto;
    repeat match goal with
           | H : Some _ = Some _ |- _ => injection H as <-
           | H : _ \/ _ |- _ => destruct H
           | H : None <> None |- _ => destruct (H eq_refl)
           end;
    try discriminate; try lia.
Qed.

(** A closed water-supply complaint resolved within its 24 hours. *)
Lemma seeded_dates_witness :
  let d := seedDates 0 0 24 CLOSED 3 false 5 15 2 in
  (sdAssignedOn d = None <-> CLOSED = REGISTERED) /\
  (forall a, sdAssignedOn d = Some a -> 0 < a) /\
  (sdResolvedOn d <> None <-> CLOSED = RESOLVED \/ CLOSED = CLOSED) /\
  (forall a r, sdAssignedOn d = Some a -> sdResolvedOn d = Some r -> a <= r) /\
  (forall r, sdResolvedOn d = Some r -> (r <= sdDeadline d <-> false = false)) /\
  (sdClosedOn d <> None <-> CLOSED = CLOSED) /\
  (forall r c, sdResolvedOn d = Some r -> sdClosedOn d = Some c -> r < c).
Proof.
  apply (seeded_dates_are_ordered 0 0 24 CLOSED 3 false 5 15 2).
  - compute_done.
  - unfold drawsInRange.
    change (24 / 2) with 12. change (24 * 9 / 10) with 21. lia.
Defined.

End KochiSeedFacts.

(** ** Seeding the wards and sub-zones *)

Module SeedWardsFacts.
Import KochiSeed KochiSeedSpec WardAdmin.













Section Run.
Variable newId : nat -> string.
Hypothesis newId_inj : forall i j, newId i = newId j -> i = j.










End Run.



End SeedWardsFacts.
